(** * Movie recommendation API: the recommendation scoring engine

    A shallow embedding of [src/services/recommendationEngine.ts], of the
    recommendation route (validation middleware and controller), of
    [CacheService] and of [AIService.parseAIResponse], with the properties
    the specification states about them; and of the code around them: the
    fallback of the AI strategy, the genre route, the rating route with
    [createOrUpdateRating], and the movies of [DatabaseService] as rows and
    as pages, with the properties that code shows by itself.

    Conventions of the embedding.
    - A JavaScript number is a [number]: an exact real or [NaN], with
      exact arithmetic.  Where the rounding of IEEE binary64 decides, for
      the bound and the threshold of the user similarity, the code is
      embedded once more in [Binary64], over the doubles of [SpecFloat].
    - A string is the sequence of its UTF-16 code units, all below 256; a
      year is an integer.
    - Arrays are lists; [Array.prototype.sort] is the stable sort the
      language prescribes; a [Map] is an association list in insertion
      order, and so is a plain object with its inherited members written
      out; NodeCache's store is a finite map from keys to entries.
    - The storage collaborator is a snapshot [Database]; its queries do not
      fail, so the [catch] blocks of the engine (which answer a storage
      failure with the popularity list) have no counterpart here.  A write
      returns the next snapshot. *)

From Stdlib Require Import Reals Lra Lia ZArith List String Ascii Bool.
From Stdlib Require Import Sorting.Sorted Sorting.Permutation.
From Stdlib Require Floats.SpecFloat.
From stdpp Require Import gmap strings pretty.
Import ListNotations.

Local Open Scope string_scope.
Local Open Scope list_scope.

(** ** JavaScript numbers *)

Module JS.

Inductive number : Type :=
| Num (x : R)
| NaN.

Declare Scope js_scope.
Delimit Scope js_scope with js.
Bind Scope js_scope with number.

Definition of_Z (z : Z) : number := Num (IZR z).
Definition of_nat (n : nat) : number := Num (IZR (Z.of_nat n)).

Definition add (a b : number) : number :=
  match a, b with
  | Num x, Num y => Num (x + y)
  | _, _ => NaN
  end.

Definition sub (a b : number) : number :=
  match a, b with
  | Num x, Num y => Num (x - y)
  | _, _ => NaN
  end.

Definition mul (a b : number) : number :=
  match a, b with
  | Num x, Num y => Num (x * y)
  | _, _ => NaN
  end.

(** [0 / 0] is [NaN].  A non-zero number divided by zero is an infinity in
    JavaScript; the embedding has no infinities and answers [NaN] there too.
    No division of the embedded code has a zero divisor under a non-zero
    dividend. *)
Definition div (a b : number) : number :=
  match a, b with
  | Num x, Num y => if Req_dec_T y 0 then NaN else Num (x / y)
  | _, _ => NaN
  end.

(** [Math.sqrt]: [NaN] below zero. *)
Definition sqrt (a : number) : number :=
  match a with
  | Num x => if Rlt_dec x 0 then NaN else Num (R_sqrt.sqrt x)
  | NaN => NaN
  end.

(** Comparisons; every comparison with [NaN] is false. *)
Definition ltb (a b : number) : bool :=
  match a, b with
  | Num x, Num y => if Rlt_dec x y then true else false
  | _, _ => false
  end.

Definition leb (a b : number) : bool :=
  match a, b with
  | Num x, Num y => if Rle_dec x y then true else false
  | _, _ => false
  end.

Definition gtb (a b : number) : bool := ltb b a.
Definition geb (a b : number) : bool := leb b a.

(** Strict equality [===] on numbers. *)
Definition eqb (a b : number) : bool :=
  match a, b with
  | Num x, Num y => if Req_dec_T x y then true else false
  | _, _ => false
  end.

(** [Math.max] and [Math.min] of two arguments: [NaN] if either is. *)
Definition max (a b : number) : number :=
  match a, b with
  | Num x, Num y => Num (Rmax x y)
  | _, _ => NaN
  end.

Definition min (a b : number) : number :=
  match a, b with
  | Num x, Num y => Num (Rmin x y)
  | _, _ => NaN
  end.

(** Truthiness of a number: neither [0] nor [NaN]. *)
Definition truthy (a : number) : bool :=
  match a with
  | Num x => if Req_dec_T x 0 then false else true
  | NaN => false
  end.

Notation "a + b" := (add a b) : js_scope.
Notation "a - b" := (sub a b) : js_scope.
Notation "a * b" := (mul a b) : js_scope.
Notation "a / b" := (div a b) : js_scope.
Notation "a > b" := (gtb a b) : js_scope.
Notation "a >= b" := (geb a b) : js_scope.
Notation "a < b" := (ltb a b) : js_scope.
Notation "a <= b" := (leb a b) : js_scope.
Notation "a === b" := (eqb a b) (at level 70, no associativity) : js_scope.

(** *** Arrays *)

Section Arrays.
Context {A : Type}.

(** One step of the stable sort: [x] stood before every element of the
    already sorted [l]; it moves behind the elements that must come
    strictly first. *)
Fixpoint insert (before : A -> A -> bool) (x : A) (l : list A) : list A :=
  match l with
  | [] => [x]
  | y :: l' => if before y x then y :: insert before x l' else x :: y :: l'
  end.

Definition sortBy (before : A -> A -> bool) (l : list A) : list A :=
  fold_right (insert before) [] l.

(** [l.sort(cmp)]: [b] moves before [a] exactly when [cmp(a, b) > 0]; a
    comparator result of [0] or [NaN] leaves the two in place. *)
Definition sort (cmp : A -> A -> number) (l : list A) : list A :=
  sortBy (fun y x => gtb (cmp x y) (Num 0)) l.

(** [l.slice(0, e)] for an integer [e]; a negative [e] counts from the
    end. *)
Definition slice0 (l : list A) (e : Z) : list A :=
  if (e <? 0)%Z then firstn (Z.to_nat (Z.of_nat (length l) + e)) l
  else firstn (Z.to_nat e) l.

(** [l.map((x, index) => f x index)]. *)
Fixpoint mapi_from {B : Type} (i : nat) (f : A -> nat -> B) (l : list A) : list B :=
  match l with
  | [] => []
  | x :: l' => f x i :: mapi_from (S i) f l'
  end.

Definition mapi {B : Type} (f : A -> nat -> B) (l : list A) : list B :=
  mapi_from 0 f l.

(** [l.reduce((acc, x, i) => f acc x i, init)]. *)
Fixpoint reducei_from {B : Type} (i : nat) (f : B -> A -> nat -> B) (l : list A) (acc : B) : B :=
  match l with
  | [] => acc
  | x :: l' => reducei_from (S i) f l' (f acc x i)
  end.

Definition reducei {B : Type} (f : B -> A -> nat -> B) (l : list A) (init : B) : B :=
  reducei_from 0 f l init.
End Arrays.

(** [l[i]] on an array of numbers inside arithmetic: an index out of range
    reads [undefined], which arithmetic turns into [NaN]. *)
Definition at_index (l : list number) (i : nat) : number := nth i l NaN.

(** *** Map<string, V>: an association list in insertion order *)

Section StringMap.
Context {V : Type}.

Definition smap : Type := list (string * V).

Fixpoint map_get (m : smap) (k : string) : option V :=
  match m with
  | [] => None
  | (k', v) :: m' => if String.eqb k' k then Some v else map_get m' k
  end.

(** [m.set(k, v)]: an existing key keeps its position. *)
Fixpoint map_set (m : smap) (k : string) (v : V) : smap :=
  match m with
  | [] => [(k, v)]
  | (k', v') :: m' =>
      if String.eqb k' k then (k', v) :: m' else (k', v') :: map_set m' k v
  end.

Definition map_values (m : smap) : list V := List.map snd m.
End StringMap.

Arguments smap V : clear implicits.

End JS.

Import JS.

(** [Math.ceil], read as the integer it denotes.  A [NaN] argument stays
    [NaN] in JavaScript and [slice] treats that bound as [0]. *)
Definition Math_ceil (a : number) : Z :=
  match a with
  | Num x => Zceil x
  | NaN => 0%Z
  end.

(** [a || 0] on an optional number. *)
Definition orZero (o : option R) : number :=
  match o with
  | Some x => Num x
  | None => Num 0
  end.

(** Truthiness of an optional number: present and not [0]. *)
Definition truthyOpt (o : option R) : bool :=
  match o with
  | Some x => truthy (Num x)
  | None => false
  end.

(** Truthiness of an optional string: present and not empty. *)
Definition truthyStr (o : option string) : bool :=
  match o with
  | Some s => negb (String.eqb s EmptyString)
  | None => false
  end.

(** [a === b] on optional strings ([undefined] is [None]). *)
Definition optStrEq (a b : option string) : bool :=
  match a, b with
  | Some s, Some t => String.eqb s t
  | None, None => true
  | _, _ => false
  end.

(** [l.includes(g)]. *)
Definition includes (l : list string) (g : string) : bool :=
  existsb (String.eqb g) l.

(** ** The data model ([src/types/index.ts])

    The records keep the fields the embedded code reads.  A stored rating
    and a stored quality score are finite numbers, a year and a timestamp
    are integers. *)

Module Movie.
Record t : Type := mk {
  id : string;
  title : string;
  genre : list string;
  year : Z;
  director : option string;
  rating : option R;
  createdAt : Z
}.
End Movie.

Module User.
Record t : Type := mk {
  id : string;
  username : string
}.
End User.

Module Rating.
Record t : Type := mk {
  userId : string;
  movieId : string;
  rating : R;
  liked : bool;
  createdAt : Z
}.
End Rating.

Record Recommendation : Type := mkRec {
  movie : Movie.t;
  score : number;
  reason : string
}.

(** ** The storage collaborator ([DatabaseService]) as a snapshot *)

Record Database : Type := mkDb {
  users : list User.t;
  movies : list Movie.t;
  ratings : list Rating.t
}.

Definition getAllRatings (db : Database) : list Rating.t := ratings db.

Definition getAllUsers (db : Database) : list User.t := users db.

(** [findMany({ where: { userId }, orderBy: { createdAt: 'desc' } })]. *)
Definition getUserRatings (db : Database) (userId : string) : list Rating.t :=
  sortBy (fun y x => (Rating.createdAt x <? Rating.createdAt y)%Z)
    (List.filter (fun r => String.eqb (Rating.userId r) userId) (ratings db)).

Definition getMovieById (db : Database) (id : string) : option Movie.t :=
  find (fun m => String.eqb (Movie.id m) id) (movies db).

(** [getMovies()] without paging: every movie, newest first. *)
Definition getMovies (db : Database) : list Movie.t :=
  sortBy (fun y x => (Movie.createdAt x <? Movie.createdAt y)%Z) (movies db).

(** ** [RecommendationEngine] *)

Module RecommendationEngine.

Local Open Scope js_scope.

Definition getPopularMovies (allMovies : list Movie.t) (limit : Z) : list Recommendation :=
  mapi (fun movie index =>
          {| movie := movie;
             score := Num 0.8 - (of_nat index * Num 0.05);
             reason := "Popular highly-rated movie" |})
    (slice0
       (sort (fun a b => orZero (Movie.rating b) - orZero (Movie.rating a))
          (List.filter (fun movie => truthyOpt (Movie.rating movie)
                                && (orZero (Movie.rating movie) >= Num 7))
             allMovies))
       limit).

(** Pearson correlation of two users over the movies both rated. *)
Definition calculateUserSimilarity (user1Ratings user2Ratings : list Rating.t) : number :=
  let commonMovies :=
    List.filter (fun r1 =>
              existsb (fun r2 => String.eqb (Rating.movieId r2) (Rating.movieId r1))
                user2Ratings)
      user1Ratings in
  if (length commonMovies <? 2)%nat then Num 0
  else
    let user1CommonRatings := map (fun r => Num (Rating.rating r)) commonMovies in
    let user2CommonRatings :=
      map (fun r1 =>
             match find (fun r2 => String.eqb (Rating.movieId r2) (Rating.movieId r1))
                     user2Ratings with
             | Some r2 => Num (Rating.rating r2)
             | None => Num 0
             end)
        commonMovies in
    let n := of_nat (length user1CommonRatings) in
    let sum1 := fold_left (fun a b => a + b) user1CommonRatings (Num 0) in
    let sum2 := fold_left (fun a b => a + b) user2CommonRatings (Num 0) in
    let sum1Sq := fold_left (fun a b => a + b * b) user1CommonRatings (Num 0) in
    let sum2Sq := fold_left (fun a b => a + b * b) user2CommonRatings (Num 0) in
    let pSum :=
      reducei (fun acc r1 i => acc + r1 * at_index user2CommonRatings i)
        user1CommonRatings (Num 0) in
    let num := pSum - (sum1 * sum2 / n) in
    let den := JS.sqrt ((sum1Sq - sum1 * sum1 / n) * (sum2Sq - sum2 * sum2 / n)) in
    if den === Num 0 then Num 0 else num / den.

Definition findSimilarUsers (targetUserId : string) (allRatings : list Rating.t)
    (allUsers : list User.t) : list (User.t * number) :=
  let targetUserRatings :=
    List.filter (fun r => String.eqb (Rating.userId r) targetUserId) allRatings in
  slice0
    (sort (fun a b => snd b - snd a)
       (List.filter (fun item => snd item > Num 0.3)
          (map (fun user =>
                  let userRatings :=
                    List.filter (fun r => String.eqb (Rating.userId r) (User.id user)) allRatings in
                  (user, calculateUserSimilarity targetUserRatings userRatings))
             (List.filter (fun user => negb (String.eqb (User.id user) targetUserId)) allUsers))))
    10.

(** The entry of [movieScores]. *)
Record Tally : Type := mkTally {
  t_score : number;
  t_count : nat
}.

(** [movieScores] once the two nested [forEach] loops have run. *)
Definition tallyScores (targetUserId : string) (similarUsers : list (User.t * number))
    (allRatings : list Rating.t) : smap Tally :=
  let targetUserRatings :=
    List.filter (fun r => String.eqb (Rating.userId r) targetUserId) allRatings in
  let watchedMovieIds := map Rating.movieId targetUserRatings in
  fold_left
    (fun movieScores '(user, similarity) =>
       let userRatings :=
         List.filter (fun r => String.eqb (Rating.userId r) (User.id user)
                          && Rating.liked r
                          && (Num (Rating.rating r) >= Num 4)
                          && negb (includes watchedMovieIds (Rating.movieId r)))
           allRatings in
       fold_left
         (fun movieScores rating =>
            let current :=
              match map_get movieScores (Rating.movieId rating) with
              | Some c => c
              | None => {| t_score := Num 0; t_count := 0 |}
              end in
            map_set movieScores (Rating.movieId rating)
              {| t_score := t_score current + (Num (Rating.rating rating) * similarity);
                 t_count := t_count current + 1 |})
         userRatings movieScores)
    similarUsers [].

(** [recommendations] once the [for ... of movieScores] loop has run. *)
Definition scoredMovies (movieScores : smap Tally) (allMovies : list Movie.t)
    : list Recommendation :=
  flat_map
    (fun '(movieId, tally) =>
       match find (fun m => String.eqb (Movie.id m) movieId) allMovies with
       | Some movie =>
           [ {| movie := movie;
                score := t_score tally / of_nat (t_count tally);
                reason := "Recommended by " +:+ pretty (t_count tally) +:+ " similar user"
                          +:+ (if (1 <? t_count tally)%nat then "s" else EmptyString) |} ]
       | None => []
       end)
    movieScores.

Definition getRecommendationsFromSimilarUsers (targetUserId : string)
    (similarUsers : list (User.t * number)) (allRatings : list Rating.t)
    (allMovies : list Movie.t) (limit : Z) : list Recommendation :=
  let movieScores := tallyScores targetUserId similarUsers allRatings in
  let recommendations := scoredMovies movieScores allMovies in
  slice0 (sort (fun a b => score b - score a) recommendations) limit.

Definition generateCollaborativeRecommendations (db : Database) (targetUserId : string)
    (allMovies : list Movie.t) (limit : Z) : list Recommendation :=
  let allRatings := getAllRatings db in
  let allUsers := getAllUsers db in
  let targetUserRatings :=
    List.filter (fun r => String.eqb (Rating.userId r) targetUserId) allRatings in
  if (length targetUserRatings =? 0)%nat then getPopularMovies allMovies limit
  else
    let similarUsers := findSimilarUsers targetUserId allRatings allUsers in
    getRecommendationsFromSimilarUsers targetUserId similarUsers allRatings allMovies limit.

Definition calculateContentSimilarity (movie : Movie.t) (likedMovies : list Movie.t) : number :=
  let totalSimilarity :=
    fold_left
      (fun totalSimilarity likedMovie =>
         let similarity := Num 0 in
         let genreOverlap :=
           length (List.filter (fun g => includes (Movie.genre likedMovie) g) (Movie.genre movie)) in
         let genreUnion :=
           length (nodup string_dec (Movie.genre movie ++ Movie.genre likedMovie)) in
         let similarity := similarity + (of_nat genreOverlap / of_nat genreUnion) * Num 0.5 in
         let similarity :=
           if truthyStr (Movie.director movie) && truthyStr (Movie.director likedMovie)
              && optStrEq (Movie.director movie) (Movie.director likedMovie)
           then similarity + Num 0.2 else similarity in
         let yearDiff := Z.abs (Movie.year movie - Movie.year likedMovie) in
         let similarity :=
           if (yearDiff <=? 5)%Z then similarity + Num 0.15
           else if (yearDiff <=? 15)%Z then similarity + Num 0.1
           else similarity in
         let similarity :=
           match Movie.rating movie, Movie.rating likedMovie with
           | Some r, Some lr =>
               if truthy (Num r) && truthy (Num lr) && (Num (Rabs (r - lr)) <= Num 1)
               then similarity + Num 0.15 else similarity
           | _, _ => similarity
           end in
         totalSimilarity + similarity)
      likedMovies (Num 0) in
  if (0 <? length likedMovies)%nat then totalSimilarity / of_nat (length likedMovies)
  else Num 0.

Definition generateContentReason (movie : Movie.t) (likedMovies : list Movie.t) : string :=
  let commonGenres :=
    List.filter (fun g => existsb (fun liked => includes (Movie.genre liked) g) likedMovies)
      (Movie.genre movie) in
  let reasons1 :=
    if (0 <? length commonGenres)%nat
    then ["shares " +:+ String.concat ", " commonGenres +:+ " genre"
          +:+ (if (1 <? length commonGenres)%nat then "s" else EmptyString)]
    else [] in
  let commonDirectors :=
    List.filter (fun liked => truthyStr (Movie.director movie)
                         && optStrEq (Movie.director liked) (Movie.director movie))
      likedMovies in
  let reasons :=
    if (0 <? length commonDirectors)%nat
    then reasons1 ++ ["same director as liked movies"]
    else reasons1 in
  if (0 <? length reasons)%nat
  then "Recommended because it " +:+ String.concat " and " reasons
  else "Similar to your preferences".

Definition generateContentBasedRecommendations (db : Database) (targetUserId : string)
    (allMovies : list Movie.t) (limit : Z) : list Recommendation :=
  let userRatings := getUserRatings db targetUserId in
  let likedMovies :=
    flat_map
      (fun rating =>
         match getMovieById db (Rating.movieId rating) with
         | Some movie => [movie]
         | None => []
         end)
      (List.filter (fun r => Rating.liked r && (Num (Rating.rating r) >= Num 4)) userRatings) in
  if (length likedMovies =? 0)%nat then getPopularMovies allMovies limit
  else
    slice0
      (sort (fun a b => score b - score a)
         (map (fun movie =>
                 {| movie := movie;
                    score := calculateContentSimilarity movie likedMovies;
                    reason := generateContentReason movie likedMovies |})
            (List.filter (fun movie =>
                       negb (existsb (fun r => String.eqb (Rating.movieId r) (Movie.id movie))
                               userRatings))
               allMovies)))
      limit.

(** The two [forEach] bodies that fill [combinedRecs]. *)
Definition addCollaborative (combinedRecs : smap Recommendation) (rec : Recommendation)
    : smap Recommendation :=
  map_set combinedRecs (Movie.id (movie rec))
    {| movie := movie rec;
       score := score rec * Num 0.6;
       reason := reason rec +:+ " (collaborative filtering)" |}.

Definition addContentBased (combinedRecs : smap Recommendation) (rec : Recommendation)
    : smap Recommendation :=
  match map_get combinedRecs (Movie.id (movie rec)) with
  | Some existing =>
      map_set combinedRecs (Movie.id (movie rec))
        {| movie := movie existing;
           score := (score existing + score rec * Num 0.4) / Num 1.4;
           reason := reason existing +:+ " + content similarity" |}
  | None =>
      map_set combinedRecs (Movie.id (movie rec))
        {| movie := movie rec;
           score := score rec * Num 0.4;
           reason := reason rec +:+ " (content-based)" |}
  end.

(** [combinedRecs] once both lists are merged. *)
Definition combine (collaborativeRecs contentBasedRecs : list Recommendation)
    : smap Recommendation :=
  fold_left addContentBased contentBasedRecs
    (fold_left addCollaborative collaborativeRecs []).

Definition generateHybridRecommendations (db : Database) (targetUserId : string)
    (allMovies : list Movie.t) (limit : Z) : list Recommendation :=
  let collaborativeRecs :=
    generateCollaborativeRecommendations db targetUserId allMovies
      (Math_ceil (of_Z limit * Num 0.6)) in
  let contentBasedRecs :=
    generateContentBasedRecommendations db targetUserId allMovies
      (Math_ceil (of_Z limit * Num 0.4)) in
  let combinedRecs := combine collaborativeRecs contentBasedRecs in
  slice0 (sort (fun a b => score b - score a) (map_values combinedRecs)) limit.

End RecommendationEngine.

(** ** The similarity in double precision

    A JavaScript number is an IEEE binary64 value, and a bound or a
    threshold on the similarity is decided by its rounding.  This module
    embeds [calculateUserSimilarity] and [findSimilarUsers] once more with
    the arithmetic of the code: binary64 with rounding to nearest, ties to
    even, as [SpecFloat] of the Standard Library defines it (precision 53,
    exponent bound 1024).  [Math.sqrt] is the correctly rounded square
    root.  A rating is the double the code reads from the row. *)

Module Binary64.
Import SpecFloat.

Definition number : Type := spec_float.

(** An integer as a double: exact below 2^53. *)
Definition of_Z (z : Z) : number := binary_normalize 53 1024 z 0 false.
Definition of_nat (n : nat) : number := of_Z (Z.of_nat n).

Definition add : number -> number -> number := SFadd 53 1024.
Definition sub : number -> number -> number := SFsub 53 1024.
Definition mul : number -> number -> number := SFmul 53 1024.
Definition div : number -> number -> number := SFdiv 53 1024.
Definition sqrt : number -> number := SFsqrt 53 1024.

(** Strict equality [===]: false on [NaN], true on [+0] and [-0]. *)
Definition eqb : number -> number -> bool := SFeqb.

(** [a > b]: false when either is [NaN]. *)
Definition gtb (a b : number) : bool := SFltb b a.

(** The double a decimal literal [m]e-[k] denotes.  [m] and [10^k] are
    doubles themselves, so the correctly rounded quotient is the double
    next to the decimal: [decimal 3 1] is the literal [0.3]. *)
Definition decimal (m : Z) (k : nat) : number := div (of_Z m) (of_Z (10 ^ Z.of_nat k)).

(** [l[i]] inside arithmetic: [undefined] out of range, that is [NaN]. *)
Definition at_index (l : list number) (i : nat) : number := nth i l S754_nan.

(** [l.sort(cmp)], as [JS.sort], on a comparator that answers a double. *)
Definition sort {A : Type} (cmp : A -> A -> number) (l : list A) : list A :=
  sortBy (fun y x => gtb (cmp x y) (of_Z 0)) l.

Module Rating.
Record t : Type := mk {
  userId : string;
  movieId : string;
  rating : number
}.
End Rating.

Definition calculateUserSimilarity (user1Ratings user2Ratings : list Rating.t) : number :=
  let commonMovies :=
    List.filter (fun r1 =>
              existsb (fun r2 => String.eqb (Rating.movieId r2) (Rating.movieId r1))
                user2Ratings)
      user1Ratings in
  if (length commonMovies <? 2)%nat then of_Z 0
  else
    let user1CommonRatings := map Rating.rating commonMovies in
    let user2CommonRatings :=
      map (fun r1 =>
             match find (fun r2 => String.eqb (Rating.movieId r2) (Rating.movieId r1))
                     user2Ratings with
             | Some r2 => Rating.rating r2
             | None => of_Z 0
             end)
        commonMovies in
    let n := of_nat (length user1CommonRatings) in
    let sum1 := fold_left (fun a b => add a b) user1CommonRatings (of_Z 0) in
    let sum2 := fold_left (fun a b => add a b) user2CommonRatings (of_Z 0) in
    let sum1Sq := fold_left (fun a b => add a (mul b b)) user1CommonRatings (of_Z 0) in
    let sum2Sq := fold_left (fun a b => add a (mul b b)) user2CommonRatings (of_Z 0) in
    let pSum :=
      reducei (fun acc r1 i => add acc (mul r1 (at_index user2CommonRatings i)))
        user1CommonRatings (of_Z 0) in
    let num := sub pSum (div (mul sum1 sum2) n) in
    let den :=
      sqrt (mul (sub sum1Sq (div (mul sum1 sum1) n)) (sub sum2Sq (div (mul sum2 sum2) n))) in
    if eqb den (of_Z 0) then of_Z 0 else div num den.

Definition findSimilarUsers (targetUserId : string) (allRatings : list Rating.t)
    (allUsers : list User.t) : list (User.t * number) :=
  let targetUserRatings :=
    List.filter (fun r => String.eqb (Rating.userId r) targetUserId) allRatings in
  slice0
    (sort (fun a b => sub (snd b) (snd a))
       (List.filter (fun item => gtb (snd item) (decimal 3 1))
          (map (fun user =>
                  let userRatings :=
                    List.filter (fun r => String.eqb (Rating.userId r) (User.id user)) allRatings in
                  (user, calculateUserSimilarity targetUserRatings userRatings))
             (List.filter (fun user => negb (String.eqb (User.id user) targetUserId)) allUsers))))
    10.

End Binary64.

(** ** The recommendation route

    [GET /api/recommendations] runs [recommendationLimiter],
    [authenticateToken], [validateQuery] over the extended
    [RecommendationRequestSchema], and then the controller
    [getRecommendations].  The [catch] of the controller answers a storage
    failure with status 500; the snapshot does not fail. *)

Module Route.

(** A value of [req.query] as Express delivers it. *)
Inductive raw : Type :=
| RawString (s : string)
| RawArray (l : list string)
| RawObject.

(** The same value once [validateQuery] has converted it. *)
Inductive processed : Type :=
| PNumber (x : R)
| PBoolean (b : bool)
| PString (s : string)
| PArray (l : list string)
| PObject.

Inductive response : Type :=
| Success (data : list Recommendation) (message : string)
| Failure (status : Z) (error : string).

(** What [authenticateToken] finds in the request. *)
Inductive credentials : Type :=
| NoToken
| InvalidToken
| UnknownUser
| Authenticated (user : User.t).

Record Request : Type := mkRequest {
  rateLimited : bool;
  auth : credentials;
  query : smap raw
}.

(** The query object that leaves the schema. *)
Record Query : Type := mkQuery {
  q_algorithm : option string;
  q_limit : option Z;
  q_genres : option (list string);
  q_excludeWatched : option bool;
  q_minYear : option Z;
  q_maxYear : option Z
}.

Section Route.
(** [Number(s)] on a string, [new Date().getFullYear()], and the
    external AI strategy, whose answer depends on a network call. *)
Variable StringToNumber : string -> number.
Variable currentYear : Z.
Variable AIService_generateRecommendations :
  list Rating.t -> list Movie.t -> list Movie.t -> list Recommendation.
(** The joined messages of the [ZodError] for a rejected query. *)
Variable zodErrors : smap raw -> string.

Definition processValue (value : raw) : processed :=
  match value with
  | RawString s =>
      match StringToNumber s with
      | Num x => PNumber x
      | NaN =>
          if String.eqb s "true" then PBoolean true
          else if String.eqb s "false" then PBoolean false
          else PString s
      end
  | RawArray l => PArray l
  | RawObject => PObject
  end.

Definition processQuery (q : smap raw) (key : string) : option processed :=
  option_map processValue (map_get q key).

(** [z.number().int()] with optional bounds: the accepted integer. *)
Definition zInt (lo hi : option Z) (v : processed) : option Z :=
  match v with
  | PNumber x =>
      let z := Zfloor x in
      if Req_dec_T x (IZR z) then
        if match lo with Some l => (l <=? z)%Z | None => true end
           && match hi with Some h => (z <=? h)%Z | None => true end
        then Some z else None
      else None
  | _ => None
  end.

(** [z.enum(['hybrid', 'collaborative', 'content', 'ai'])]. *)
Definition zAlgorithm (v : processed) : option string :=
  match v with
  | PString s =>
      if includes ["hybrid"; "collaborative"; "content"; "ai"] s then Some s else None
  | _ => None
  end.

Definition zStringArray (v : processed) : option (list string) :=
  match v with
  | PArray l => Some l
  | _ => None
  end.

Definition zBoolean (v : processed) : option bool :=
  match v with
  | PBoolean b => Some b
  | _ => None
  end.

(** An [.optional()] field: absent is accepted, present must parse. *)
Definition optionalField {A : Type} (parse : processed -> option A)
    (v : option processed) : option (option A) :=
  match v with
  | None => Some None
  | Some p =>
      match parse p with
      | Some a => Some (Some a)
      | None => None
      end
  end.

(** [schema.parse(processedQuery)]; [None] stands for the [ZodError]. *)
Definition parseSchema (q : smap raw) : option Query :=
  match optionalField zAlgorithm (processQuery q "algorithm"),
        optionalField (zInt (Some 1%Z) (Some 50%Z)) (processQuery q "limit"),
        optionalField zStringArray (processQuery q "genres"),
        optionalField zBoolean (processQuery q "excludeWatched"),
        optionalField (zInt (Some 1800%Z) None) (processQuery q "minYear"),
        optionalField (zInt None (Some (currentYear + 5)%Z)) (processQuery q "maxYear")
  with
  | Some a, Some l, Some g, Some e, Some mn, Some mx =>
      Some {| q_algorithm := a; q_limit := l; q_genres := g;
              q_excludeWatched := e; q_minYear := mn; q_maxYear := mx |}
  | _, _, _, _, _, _ => None
  end.

(** The controller, on the query it is handed. *)
Definition getRecommendations (db : Database) (user : option User.t) (q : Query)
    : response :=
  match user with
  | None => Failure 401 "User not authenticated"
  | Some user =>
      let algorithm := match q_algorithm q with Some a => a | None => "hybrid" end in
      let limit := match q_limit q with Some l => l | None => 10%Z end in
      let allMovies := getMovies db in
      let recommendations :=
        if String.eqb algorithm "collaborative" then
          RecommendationEngine.generateCollaborativeRecommendations
            db (User.id user) allMovies limit
        else if String.eqb algorithm "content" then
          RecommendationEngine.generateContentBasedRecommendations
            db (User.id user) allMovies limit
        else if String.eqb algorithm "ai" then
          let userRatings := getUserRatings db (User.id user) in
          let likedMovies :=
            flat_map
              (fun rating =>
                 match getMovieById db (Rating.movieId rating) with
                 | Some movie => [movie]
                 | None => []
                 end)
              (List.filter (fun r => Rating.liked r) userRatings) in
          AIService_generateRecommendations userRatings allMovies likedMovies
        else
          RecommendationEngine.generateHybridRecommendations
            db (User.id user) allMovies limit in
      Success recommendations
        ("Generated " +:+ pretty (length recommendations) +:+ " " +:+ algorithm
         +:+ " recommendations")
  end.

(** The middleware chain of the route. *)
Definition handle (db : Database) (req : Request) : response :=
  if rateLimited req
  then Failure 429 "Too many recommendation requests, please try again later."
  else
    match auth req with
    | NoToken => Failure 401 "Access token required"
    | UnknownUser => Failure 401 "Invalid token"
    | InvalidToken => Failure 403 "Invalid or expired token"
    | Authenticated user =>
        match parseSchema (query req) with
        | None => Failure 400 ("Query validation failed: " +:+ zodErrors (query req))
        | Some q => getRecommendations db (Some user) q
        end
    end.
End Route.

End Route.

(** ** [CacheService]

    The store of NodeCache is a finite map from keys to entries.  An entry
    keeps the time to live it was stored with; expiry needs a clock and is
    not part of the embedding. *)

Module CacheService.

Inductive value : Type :=
| Movies (l : list Movie.t)
| OneMovie (m : Movie.t)
| OneUser (u : User.t)
| Recommendations (l : list Recommendation).

Record entry : Type := mkEntry {
  e_value : value;
  e_ttl : Z
}.

Abbreviation cache := (gmap string entry).

Definition set (key : string) (v : value) (ttl : Z) (c : cache) : cache :=
  <[key := {| e_value := v; e_ttl := ttl |}]> c.

Definition get (key : string) (c : cache) : option value :=
  e_value <$> c !! key.

Definition del (key : string) (c : cache) : cache := delete key c.

Definition keys (c : cache) : list string := (map_to_list c).*1.

(** [keys.forEach(key => { if (key.startsWith(p)) this.cache.del(key) })]. *)
Definition delStartingWith (p : string) (c : cache) : cache :=
  fold_left (fun c key => if String.prefix p key then del key c else c) (keys c) c.

Definition setMovies (movies : list Movie.t) (c : cache) : cache :=
  set "all-movies" (Movies movies) 600 c.

Definition setMovie (movieId : string) (movie : Movie.t) (c : cache) : cache :=
  set ("movie-" +:+ movieId) (OneMovie movie) 600 c.

Definition invalidateMovie (movieId : string) (c : cache) : cache :=
  del "all-movies" (del ("movie-" +:+ movieId) c).

Definition invalidateAllMovies (c : cache) : cache :=
  delStartingWith "movie-" (del "all-movies" c).

Definition setUser (userId : string) (user : User.t) (c : cache) : cache :=
  set ("user-" +:+ userId) (OneUser user) 300 c.

Definition recommendationsKey (userId algorithm : string) : string :=
  "recommendations-" +:+ userId +:+ "-" +:+ algorithm.

Definition setRecommendations (userId algorithm : string)
    (recommendations : list Recommendation) (c : cache) : cache :=
  set (recommendationsKey userId algorithm) (Recommendations recommendations) 1800 c.

Definition getRecommendations (userId algorithm : string) (c : cache) : option value :=
  get (recommendationsKey userId algorithm) c.

Definition invalidateUserRecommendations (userId : string) (c : cache) : cache :=
  delStartingWith ("recommendations-" +:+ userId +:+ "-") c.

Definition invalidateAllRecommendations (c : cache) : cache :=
  delStartingWith "recommendations-" c.

Definition setGenreRecommendations (genre : string)
    (recommendations : list Recommendation) (c : cache) : cache :=
  set ("genre-" +:+ genre) (Recommendations recommendations) 3600 c.

(** [hash & hash], the conversion to a 32-bit integer. *)
Definition toInt32 (z : Z) : Z := ((z + 2 ^ 31) mod 2 ^ 32 - 2 ^ 31)%Z.

(** The loop of [hashString] over the code units of the text. *)
Fixpoint hashLoop (str : string) (hash : Z) : Z :=
  match str with
  | EmptyString => hash
  | String char str' =>
      hashLoop str' (toInt32 (toInt32 (hash * 32) - hash + Z.of_nat (nat_of_ascii char)))
  end.

Definition hashString (str : string) : string := pretty (Z.abs (hashLoop str 0)).

(** [likedMovieIds.sort().join(',')]: the default order of strings.  The
    sort also reorders the array of the caller, which the embedded code
    does not read again. *)
Definition sortedJoin (likedMovieIds : list string) : string :=
  String.concat "," (sortBy (fun y x => String.ltb y x) likedMovieIds).

Definition aiKey (userId : string) (likedMovieIds : list string) : string :=
  "ai-" +:+ userId +:+ "-" +:+ hashString (sortedJoin likedMovieIds).

Definition setAIResponse (userId : string) (likedMovieIds : list string)
    (response : list Recommendation) (c : cache) : cache :=
  set (aiKey userId likedMovieIds) (Recommendations response) 3600 c.

Definition getAIResponse (userId : string) (likedMovieIds : list string) (c : cache)
    : option value :=
  get (aiKey userId likedMovieIds) c.

Definition onMovieUpdate (movieId : string) (c : cache) : cache :=
  invalidateAllRecommendations (invalidateMovie movieId c).

Definition onMovieCreate (c : cache) : cache :=
  invalidateAllRecommendations (invalidateAllMovies c).

Definition onMovieDelete (movieId : string) (c : cache) : cache :=
  invalidateAllRecommendations (invalidateMovie movieId c).

Definition onUserRating (userId : string) (c : cache) : cache :=
  invalidateUserRecommendations userId c.

Definition getMovies (c : cache) : option value := get "all-movies" c.

Definition getMovie (movieId : string) (c : cache) : option value :=
  get ("movie-" +:+ movieId) c.

Definition getUser (userId : string) (c : cache) : option value :=
  get ("user-" +:+ userId) c.

Definition invalidateUser (userId : string) (c : cache) : cache :=
  del ("user-" +:+ userId) c.

Definition getGenreRecommendations (genre : string) (c : cache) : option value :=
  get ("genre-" +:+ genre) c.

Definition setSearchResults (query : string) (results : list Movie.t) (c : cache) : cache :=
  set ("search-" +:+ hashString query) (Movies results) 300 c.

Definition getSearchResults (query : string) (c : cache) : option value :=
  get ("search-" +:+ hashString query) c.

(** A subject identifier without ['-'], as the generated identifiers are. *)
Fixpoint hyphenFree (s : string) : bool :=
  match s with
  | EmptyString => true
  | String a s' => negb (Ascii.eqb a "-"%char) && hyphenFree s'
  end.

End CacheService.

(** [Math.round]: the nearest integer, a half going up. *)
Definition Math_round (a : number) : number :=
  match a with
  | Num x => Num (IZR (Zfloor (x + / 2)))
  | NaN => NaN
  end.

Definition Math_abs (a : number) : number :=
  match a with
  | Num x => Num (Rabs x)
  | NaN => NaN
  end.

(** ** [AIService]: [parseAIResponse] and the fallback *)

Module AIService.

(** What [JSON.parse] returns. *)
#[local] Unset Elimination Schemes.
Inductive json : Type :=
| JNull
| JBool (b : bool)
| JNumber (x : R)
| JString (s : string)
| JArray (l : list json)
| JObject (fields : smap json).
#[local] Set Elimination Schemes.

(** At run time the [reason] of a parsed entry is whatever value the
    response carried there. *)
Record Parsed : Type := mkParsed {
  p_movie : Movie.t;
  p_score : number;
  p_reason : json
}.

(** The value of a JavaScript expression over JSON data. *)
Inductive jsvalue : Type :=
| Undefined
| Value (j : json).

(** [rec.key]; [None] is the [TypeError] of reading a property of [null]. *)
Definition property (rec : json) (key : string) : option jsvalue :=
  match rec with
  | JNull => None
  | JObject fields =>
      match map_get fields key with
      | Some j => Some (Value j)
      | None => Some Undefined
      end
  | _ => Some Undefined
  end.

Definition truthyValue (v : jsvalue) : bool :=
  match v with
  | Undefined => false
  | Value JNull => false
  | Value (JBool b) => b
  | Value (JNumber x) => truthy (Num x)
  | Value (JString s) => negb (String.eqb s EmptyString)
  | Value (JArray _) => true
  | Value (JObject _) => true
  end.

(** [m.id === v] for a string [m.id]. *)
Definition strictEqString (id : string) (v : jsvalue) : bool :=
  match v with
  | Value (JString s) => String.eqb id s
  | _ => false
  end.

Section ParseAIResponse.
(** Builtins of the language: [JSON.parse] ([None] is its [SyntaxError]),
    the fence-stripping [replace] followed by [trim], [Number(s)] on a
    string, and the string an array converts to. *)
Variable JSON_parse : string -> option json.
Variable stripFences : string -> string.
Variable StringToNumber : string -> number.
Variable ArrayToString : list json -> string.

(** The number [Math.min] and [Math.max] read in an argument. *)
Definition ToNumber (j : json) : number :=
  match j with
  | JNull => Num 0
  | JBool b => if b then Num 1 else Num 0
  | JNumber x => Num x
  | JString s => StringToNumber s
  | JArray l => StringToNumber (ArrayToString l)
  | JObject _ => NaN
  end.

(** The callback of [aiRecommendations.map]: [None] is a thrown
    [TypeError], [Some None] is the [null] of an unknown movie. *)
Definition parseEntry (allMovies : list Movie.t) (rec : json) : option (option Parsed) :=
  match property rec "movieId", property rec "score", property rec "reason" with
  | Some movieId, Some score, Some reason =>
      match find (fun m => strictEqString (Movie.id m) movieId) allMovies with
      | None => Some None
      | Some movie =>
          Some (Some
            {| p_movie := movie;
               p_score :=
                 JS.max (Num 0.1)
                   (JS.min (Num 1.0)
                      (match score with
                       | Value j => if truthyValue score then ToNumber j else Num 0.5
                       | Undefined => Num 0.5
                       end));
               p_reason :=
                 match reason with
                 | Value j =>
                     if truthyValue reason then j
                     else JString "AI recommended based on your preferences"
                 | Undefined => JString "AI recommended based on your preferences"
                 end |})
      end
  | _, _, _ => None
  end.

(** [recs.map(f)] with a callback that may throw. *)
Fixpoint mapThrowing {A B : Type} (f : A -> option B) (l : list A) : option (list B) :=
  match l with
  | [] => Some []
  | x :: l' =>
      match f x with
      | None => None
      | Some y =>
          match mapThrowing f l' with
          | None => None
          | Some ys => Some (y :: ys)
          end
      end
  end.

(** [.filter(Boolean)] on entries that are objects or [null]. *)
Definition filterBoolean {A : Type} (l : list (option A)) : list A :=
  flat_map (fun o => match o with Some a => [a] | None => [] end) l.

(** The whole body runs inside [try]; every exception ends in [[]]. *)
Definition parseAIResponse (response : string) (allMovies : list Movie.t) : list Parsed :=
  let cleanResponse := stripFences response in
  match JSON_parse cleanResponse with
  | None => []
  | Some (JArray aiRecommendations) =>
      match mapThrowing (parseEntry allMovies) aiRecommendations with
      | None => []
      | Some entries =>
          sort (fun a b => (p_score b - p_score a)%js) (filterBoolean entries)
      end
  | Some _ => []
  end.
End ParseAIResponse.

(** *** The fallback of the AI strategy

    [getFallbackRecommendations], [getPopularMovies] and [extractGenres]
    ask nothing of the external service. *)

(** A value of the object [genreCount]: a count, or the text that an
    inherited member of the object turns into when [1] is added to it. *)
Inductive tally : Type :=
| Count (n : nat)
| Text.

(** The members a plain object inherits; ["__proto__"] is apart. *)
Definition inheritedNames : list string :=
  [ "constructor"; "hasOwnProperty"; "isPrototypeOf"; "propertyIsEnumerable";
    "toLocaleString"; "toString"; "valueOf";
    "__defineGetter__"; "__defineSetter__"; "__lookupGetter__"; "__lookupSetter__" ].

(** [genreCount[genre] = (genreCount[genre] || 0) + 1].  Reading an
    inherited member gives a function, and the sum is a text; assigning a
    text to ["__proto__"] changes nothing. *)
Definition countGenre (genreCount : smap tally) (genre : string) : smap tally :=
  if String.eqb genre "__proto__" then genreCount
  else
    match map_get genreCount genre with
    | Some (Count n) => map_set genreCount genre (Count (n + 1))
    | Some Text => map_set genreCount genre Text
    | None =>
        if includes inheritedNames genre then map_set genreCount genre Text
        else map_set genreCount genre (Count 1)
    end.

Fixpoint digitsValue (s : string) (acc : N) : option N :=
  match s with
  | EmptyString => Some acc
  | String c s' =>
      let n := N_of_ascii c in
      if ((48 <=? n) && (n <=? 57))%N then digitsValue s' (acc * 10 + (n - 48))%N else None
  end.

(** The array index a property name stands for, if it is one: a decimal
    numeral without a leading zero, below 2^32 - 1. *)
Definition arrayIndex (s : string) : option N :=
  match s with
  | EmptyString => None
  | String c s' =>
      if Ascii.eqb c "0"%char && negb (String.eqb s' EmptyString) then None
      else
        match digitsValue s 0 with
        | Some n => if (n <? 4294967295)%N then Some n else None
        | None => None
        end
  end.

Definition isArrayIndex (s : string) : bool :=
  match arrayIndex s with
  | Some _ => true
  | None => false
  end.

(** [Object.keys(o)]: the array indices in ascending order, then the
    other names in the order of their creation. *)
Definition objectKeys {V : Type} (o : smap V) : list string :=
  sortBy (fun y x =>
            match arrayIndex y, arrayIndex x with
            | Some i, Some j => (i <? j)%N
            | _, _ => false
            end)
    (List.filter isArrayIndex (map fst o))
  ++ List.filter (fun k => negb (isArrayIndex k)) (map fst o).

(** [genreCount[k]] as a number, for an own property [k]. *)
Definition countOf (genreCount : smap tally) (k : string) : number :=
  match map_get genreCount k with
  | Some (Count n) => of_nat n
  | _ => NaN
  end.

Definition extractGenres (movies : list Movie.t) : list string :=
  let genreCount :=
    fold_left (fun genreCount movie => fold_left countGenre (Movie.genre movie) genreCount)
      movies [] in
  slice0
    (sort (fun a b => (countOf genreCount b - countOf genreCount a)%js)
       (objectKeys genreCount))
    5.

Definition getFallbackRecommendations (likedMovies allMovies : list Movie.t)
    : list Recommendation :=
  let likedGenres := extractGenres likedMovies in
  let avgYear :=
    if (0 <? length likedMovies)%nat
    then Math_round
           (fold_left (fun a b => a + b) (map (fun m => of_Z (Movie.year m)) likedMovies) (Num 0)
            / of_nat (length likedMovies))%js
    else Num 2000 in
  slice0
    (sort (fun a b => (score b - score a)%js)
       (map (fun movie =>
               let score := Num 0.1 in
               let reasons := [] in
               let genreMatch := existsb (fun g => includes likedGenres g) (Movie.genre movie) in
               let score := if genreMatch then (score + Num 0.4)%js else score in
               let reasons := if genreMatch then reasons ++ ["similar genres"] else reasons in
               let yearDiff := Math_abs (of_Z (Movie.year movie) - avgYear)%js in
               let score :=
                 if (yearDiff <= Num 5)%js then (score + Num 0.3)%js
                 else if (yearDiff <= Num 15)%js then (score + Num 0.2)%js
                 else score in
               let reasons :=
                 if (yearDiff <= Num 5)%js then reasons ++ ["similar time period"]
                 else reasons in
               let score :=
                 if (of_Z (Movie.year movie) > Num 2010)%js then (score + Num 0.1)%js
                 else score in
               {| movie := movie;
                  score := JS.min score (Num 1.0);
                  reason :=
                    if (0 <? length reasons)%nat
                    then "Recommended due to " +:+ String.concat " and " reasons
                    else "Popular choice" |})
          (List.filter
             (fun movie =>
                negb (existsb (fun liked => String.eqb (Movie.id liked) (Movie.id movie))
                        likedMovies))
             allMovies)))
    10.

(** [allMovies.sort(...)] also reorders the array of the caller, which
    the controller does not read again. *)
Definition getPopularMovies (allMovies : list Movie.t) : list Recommendation :=
  mapi (fun movie index =>
          {| movie := movie;
             score := (Num 0.8 - (of_nat index * Num 0.05))%js;
             reason := "Popular recent movie" |})
    (slice0
       (sort (fun a b => (of_Z (Movie.year b) - of_Z (Movie.year a))%js) allMovies)
       10).

End AIService.


(** ** Strings

    A string is the sequence of its UTF-16 code units; the embedding holds
    the strings whose code units are all below 256. *)

Module JSString.

(** The white space and the line terminators among these code units: tab,
    line feed, vertical tab, form feed, carriage return, space and
    no-break space. *)
Definition isWhiteSpace (c : ascii) : bool :=
  existsb (Nat.eqb (nat_of_ascii c)) [9; 10; 11; 12; 13; 32; 160]%nat.

Fixpoint trimStart (s : string) : string :=
  match s with
  | EmptyString => EmptyString
  | String c s' => if isWhiteSpace c then trimStart s' else s
  end.

Fixpoint trimEnd (s : string) : string :=
  match s with
  | EmptyString => EmptyString
  | String c s' =>
      match trimEnd s' with
      | EmptyString => if isWhiteSpace c then EmptyString else String c EmptyString
      | String c' t => String c (String c' t)
      end
  end.

(** [s.trim()]. *)
Definition trim (s : string) : string := trimEnd (trimStart s).

(** [s.split(sep)] for a separator of one code unit: the pieces between
    the separators, a single empty piece for the empty string. *)
Fixpoint split (sep : ascii) (s : string) : list string :=
  match s with
  | EmptyString => [EmptyString]
  | String c s' =>
      if Ascii.eqb c sep then EmptyString :: split sep s'
      else
        match split sep s' with
        | piece :: pieces => String c piece :: pieces
        | [] => [String c EmptyString]
        end
  end.

(** [l.join(sep)] on an array of strings. *)
Definition join (sep : string) (l : list string) : string := String.concat sep l.

(** [s.toLowerCase()]: the letters A-Z and the capital letters of the
    upper half (192-222 without the multiplication sign 215) move 32 up. *)
Definition lowerUnit (c : ascii) : ascii :=
  let n := nat_of_ascii c in
  if ((65 <=? n) && (n <=? 90) || (192 <=? n) && (n <=? 222) && negb (n =? 215))%nat
  then ascii_of_nat (n + 32)
  else c.

Fixpoint toLowerCase (s : string) : string :=
  match s with
  | EmptyString => EmptyString
  | String c s' => String (lowerUnit c) (toLowerCase s')
  end.

End JSString.

(** ** [DatabaseService]: movies as rows

    The table "movies" keeps the genres and the actors of a movie as one
    text each, the entries joined by commas.  [createMovie] gets the
    identifier and the two timestamps of the new row from the storage
    engine. *)

Module MovieRecord.
(** The interface [Movie] with all its fields. *)
Record t : Type := mk {
  id : string;
  title : string;
  genre : list string;
  year : Z;
  description : string;
  director : option string;
  actors : option (list string);
  rating : option R;
  imageUrl : option string;
  runtime : option Z;
  language : option string;
  country : option string;
  imdbId : option string;
  tmdbId : option Z;
  createdAt : option Z;
  updatedAt : option Z
}.
End MovieRecord.

Module DbMovie.
Record t : Type := mk {
  id : string;
  title : string;
  genre : string;
  year : Z;
  description : string;
  director : option string;
  actors : option string;
  rating : option R;
  imageUrl : option string;
  runtime : option Z;
  language : option string;
  country : option string;
  imdbId : option string;
  tmdbId : option Z;
  createdAt : Z;
  updatedAt : Z
}.
End DbMovie.

Module DatabaseService.

(** [text ? text.split(',').map(g => g.trim()) : []]. *)
Definition splitList (text : option string) : list string :=
  if truthyStr text
  then match text with
       | Some s => map JSString.trim (JSString.split ","%char s)
       | None => []
       end
  else [].

Definition convertDbMovieToMovie (dbMovie : DbMovie.t) : MovieRecord.t :=
  {| MovieRecord.id := DbMovie.id dbMovie;
     MovieRecord.title := DbMovie.title dbMovie;
     MovieRecord.genre := splitList (Some (DbMovie.genre dbMovie));
     MovieRecord.year := DbMovie.year dbMovie;
     MovieRecord.description := DbMovie.description dbMovie;
     MovieRecord.director := DbMovie.director dbMovie;
     MovieRecord.actors := Some (splitList (DbMovie.actors dbMovie));
     MovieRecord.rating := DbMovie.rating dbMovie;
     MovieRecord.imageUrl := DbMovie.imageUrl dbMovie;
     MovieRecord.runtime := DbMovie.runtime dbMovie;
     MovieRecord.language := DbMovie.language dbMovie;
     MovieRecord.country := DbMovie.country dbMovie;
     MovieRecord.imdbId := DbMovie.imdbId dbMovie;
     MovieRecord.tmdbId := DbMovie.tmdbId dbMovie;
     MovieRecord.createdAt := Some (DbMovie.createdAt dbMovie);
     MovieRecord.updatedAt := Some (DbMovie.updatedAt dbMovie) |}.

(** The row [prisma.movie.create] stores for [movieData]: the two lists
    are arrays, so [Array.isArray] holds and they are joined; absent
    actors stay absent. *)
Definition movieRow (newId : string) (now : Z) (movieData : MovieRecord.t) : DbMovie.t :=
  {| DbMovie.id := newId;
     DbMovie.title := MovieRecord.title movieData;
     DbMovie.genre := JSString.join "," (MovieRecord.genre movieData);
     DbMovie.year := MovieRecord.year movieData;
     DbMovie.description := MovieRecord.description movieData;
     DbMovie.director := MovieRecord.director movieData;
     DbMovie.actors := option_map (JSString.join ",") (MovieRecord.actors movieData);
     DbMovie.rating := MovieRecord.rating movieData;
     DbMovie.imageUrl := MovieRecord.imageUrl movieData;
     DbMovie.runtime := MovieRecord.runtime movieData;
     DbMovie.language := MovieRecord.language movieData;
     DbMovie.country := MovieRecord.country movieData;
     DbMovie.imdbId := MovieRecord.imdbId movieData;
     DbMovie.tmdbId := MovieRecord.tmdbId movieData;
     DbMovie.createdAt := now;
     DbMovie.updatedAt := now |}.

Definition createMovie (newId : string) (now : Z) (movieData : MovieRecord.t)
    : MovieRecord.t :=
  convertDbMovieToMovie (movieRow newId now movieData).

(** [findMany({ skip, take })] over the rows in the order of the query,
    for a [skip] and a [take] that are not negative. *)
Definition window {A : Type} (rows : list A) (skip take : option N) : list A :=
  let rest :=
    match skip with
    | Some n => skipn (N.to_nat n) rows
    | None => rows
    end in
  match take with
  | Some n => firstn (N.to_nat n) rest
  | None => rest
  end.

(** [getMovies(page, limit)]: the page and the number of all movies.  The
    rows are skipped only when both arguments are given and neither is
    [0]. *)
Definition getMoviesPage (db : Database) (page limit : option N) : list Movie.t * nat :=
  let total := length (movies db) in
  let skip :=
    match page, limit with
    | Some p, Some l =>
        if negb (p =? 0)%N && negb (l =? 0)%N then Some ((p - 1) * l)%N else None
    | _, _ => None
    end in
  (window (getMovies db) skip limit, total).

End DatabaseService.

(** ** The rating route

    [POST /api/ratings/movie/:movieId] runs [authenticateToken],
    [validateParams], [validateBody] over [RatingSchema], and then the
    controller [rateMovie], which stores the rating through
    [createOrUpdateRating].  The storage engine decides which numbers the
    column of the stars admits and stamps a new row with the current
    time. *)

Module RatingRoute.
Import AIService.

(** The body that leaves [RatingSchema]. *)
Record Body : Type := mkBody {
  b_rating : option R;
  b_liked : option bool;
  b_review : option string
}.

Inductive response : Type :=
| Rated (data : Rating.t) (message : string)
| Failure (status : Z) (error : string).

(** [z.number().min(1).max(5).optional()]. *)
Definition zStars (v : option json) : option (option R) :=
  match v with
  | None => Some None
  | Some (JNumber x) =>
      if (Num 1 <= Num x)%js && (Num x <= Num 5)%js then Some (Some x) else None
  | Some _ => None
  end.

(** [z.boolean()]. *)
Definition zLiked (v : option json) : option bool :=
  match v with
  | Some (JBool b) => Some b
  | _ => None
  end.

(** [z.string().max(500).optional()]. *)
Definition zReview (v : option json) : option (option string) :=
  match v with
  | None => Some None
  | Some (JString s) => if (String.length s <=? 500)%nat then Some (Some s) else None
  | Some _ => None
  end.

(** [RatingSchema.parse(req.body)]; [None] stands for the [ZodError]. *)
Definition parseRatingSchema (body : json) : option Body :=
  match body with
  | JObject fields =>
      match zStars (map_get fields "rating"), zLiked (map_get fields "liked"),
            zReview (map_get fields "review") with
      | Some rating, Some liked, Some review =>
          Some {| b_rating := rating; b_liked := Some liked; b_review := review |}
      | _, _, _ => None
      end
  | _ => None
  end.

Section RateMovie.
Variable storable : R -> bool.
Variable now : Z.
Variable zodErrors : json -> string.

(** [prisma.rating.upsert] on the pair of subject and movie: the row of
    the pair gets the new stars and the new flag, or a new row is made;
    [None] is the error of the storage engine. *)
Definition createOrUpdateRating (db : Database) (userId movieId : string) (rating : R)
    (liked : bool) : option (Database * Rating.t) :=
  let same := fun r => String.eqb (Rating.userId r) userId
                       && String.eqb (Rating.movieId r) movieId in
  let update := fun r =>
    {| Rating.userId := Rating.userId r; Rating.movieId := Rating.movieId r;
       Rating.rating := rating; Rating.liked := liked;
       Rating.createdAt := Rating.createdAt r |} in
  if storable rating then
    match find same (ratings db) with
    | Some row =>
        Some ({| users := users db; movies := movies db;
                 ratings := map (fun r => if same r then update r else r) (ratings db) |},
              update row)
    | None =>
        let row := {| Rating.userId := userId; Rating.movieId := movieId;
                      Rating.rating := rating; Rating.liked := liked;
                      Rating.createdAt := now |} in
        Some ({| users := users db; movies := movies db; ratings := ratings db ++ [row] |},
              row)
    end
  else None.

(** The controller; the [catch] answers an error of the storage engine
    with status 500. *)
Definition rateMovie (db : Database) (user : option User.t) (movieId : string) (body : Body)
    : Database * response :=
  match user with
  | None => (db, Failure 401 "User not authenticated")
  | Some user =>
      match getMovieById db movieId with
      | None => (db, Failure 404 "Movie not found")
      | Some movie =>
          let rating := match b_rating body with Some x => x | None => 0%R end in
          let liked :=
            match b_liked body with
            | Some liked => liked
            | None =>
                match b_rating body with
                | Some x => (Num x > Num 3)%js
                | None => false
                end
            end in
          match createOrUpdateRating db (User.id user) movieId rating liked with
          | Some (db', newRating) => (db', Rated newRating "Movie rated successfully")
          | None => (db, Failure 500 "Failed to rate movie")
          end
      end
  end.

(** [validateBody(RatingSchema)] followed by the controller. *)
Definition rate (db : Database) (user : option User.t) (movieId : string) (body : json)
    : Database * response :=
  match parseRatingSchema body with
  | None => (db, Failure 400 ("Validation failed: " +:+ zodErrors body))
  | Some parsed => rateMovie db user movieId parsed
  end.
End RateMovie.

End RatingRoute.

(** ** The genre route

    [GET /api/recommendations/genre/:genre] runs the controller
    [getGenreRecommendations] and nothing before it. *)

Module GenreRoute.

(** [movie.genre.some(g => g.toLowerCase() === genre.toLowerCase())]. *)
Definition hasGenre (genre : string) (movie : Movie.t) : bool :=
  existsb (fun g => String.eqb (JSString.toLowerCase g) (JSString.toLowerCase genre))
    (Movie.genre movie).

Definition getGenreRecommendations (db : Database) (genre : string) : Route.response :=
  let allMovies := getMovies db in
  let genreMovies := List.filter (hasGenre genre) allMovies in
  if (length genreMovies =? 0)%nat
  then Route.Failure 404 ("No movies found for genre: " +:+ genre)
  else
    let recommendations :=
      mapi (fun movie index =>
              {| movie := movie;
                 score := (Num 0.9 - (of_nat index * Num 0.05))%js;
                 reason := "Popular " +:+ genre +:+ " movie" |})
        (slice0
           (sort (fun a b => (of_Z (Movie.year b) - of_Z (Movie.year a))%js) genreMovies)
           10) in
    Route.Success recommendations
      ("Found " +:+ pretty (length recommendations) +:+ " " +:+ genre +:+ " recommendations").

End GenreRoute.

(** * Vocabulary of the properties *)

(** ** Sums over the shared ratings of two users *)

Definition sumOver {A : Type} (f : A -> R) (l : list A) : R :=
  fold_right (fun p s => (f p + s)%R) 0%R l.

(** [ratedIn l r]: some rating of [l] is about the movie of [r]. *)
Definition ratedIn (l : list Rating.t) (r : Rating.t) : bool :=
  existsb (fun r2 => String.eqb (Rating.movieId r2) (Rating.movieId r)) l.

(** The rating [l] holds for the movie of [r] (its first one), [0] if none. *)
Definition ratingIn (l : list Rating.t) (r : Rating.t) : R :=
  match find (fun r2 => String.eqb (Rating.movieId r2) (Rating.movieId r)) l with
  | Some r2 => Rating.rating r2
  | None => 0%R
  end.

(** The pairs [(x, y)] of ratings over the shared movies, in the order of
    the first user's ratings. *)
Definition sharedRatings (a b : list Rating.t) : list (R * R) :=
  map (fun r => (Rating.rating r, ratingIn b r)) (List.filter (ratedIn b) a).

(** The same pairs, each with its movie. *)
Definition tagged (a b : list Rating.t) : list (string * (R * R)) :=
  map (fun r => (Rating.movieId r, (Rating.rating r, ratingIn b r)))
    (List.filter (ratedIn b) a).

Definition swap (p : R * R) : R * R := (snd p, fst p).

Definition swapTagged (t : string * (R * R)) : string * (R * R) :=
  (fst t, swap (snd t)).

Definition cnt (ps : list (R * R)) : R := IZR (Z.of_nat (length ps)).
Definition Sx (ps : list (R * R)) : R := sumOver fst ps.
Definition Sy (ps : list (R * R)) : R := sumOver snd ps.
Definition Sxx (ps : list (R * R)) : R := sumOver (fun p => (fst p * fst p)%R) ps.
Definition Syy (ps : list (R * R)) : R := sumOver (fun p => (snd p * snd p)%R) ps.
Definition Sxy (ps : list (R * R)) : R := sumOver (fun p => (fst p * snd p)%R) ps.

(** Numerator of the correlation, and the two factors under the root of
    its denominator: [n] times the covariance and the variances. *)
Definition covariance (ps : list (R * R)) : R := (Sxy ps - Sx ps * Sy ps / cnt ps)%R.
Definition spreadX (ps : list (R * R)) : R := (Sxx ps - Sx ps * Sx ps / cnt ps)%R.
Definition spreadY (ps : list (R * R)) : R := (Syy ps - Sy ps * Sy ps / cnt ps)%R.

(** Pearson's coefficient of a list of pairs, with the two guards of
    [calculateUserSimilarity]. *)
Definition pearson (ps : list (R * R)) : number :=
  if (length ps <? 2)%nat then Num 0
  else
    let den := R_sqrt.sqrt (spreadX ps * spreadY ps) in
    if Req_dec_T den 0 then Num 0 else Num (covariance ps / den).

(** ** Example data *)

(** The two subjects of the specification's example: U1 rated M1 and M2
    with 5; U2 rated M1 with 5, M2 with 4 and M3 with 5. *)
Definition exampleU1 : list Rating.t :=
  [ Rating.mk "U1" "M1" 5 true 1; Rating.mk "U1" "M2" 5 true 2 ].

Definition exampleU2 : list Rating.t :=
  [ Rating.mk "U2" "M1" 5 true 3; Rating.mk "U2" "M2" 4 true 4;
    Rating.mk "U2" "M3" 5 true 5 ].

(** Two subjects who agree on the two movies both rated; the second one
    also liked a third movie. *)
Definition agreeMovies : list Movie.t :=
  [ Movie.mk "m1" "Alien" ["horror"] 1979 None (Some 8.5%R) 1;
    Movie.mk "m2" "Aliens" ["action"] 1986 None (Some 8.4%R) 2;
    Movie.mk "m3" "Heat" ["crime"] 1995 None (Some 8.3%R) 3 ].

Definition agreeDb : Database :=
  {| users := [ User.mk "u1" "ann"; User.mk "u2" "bob" ];
     movies := agreeMovies;
     ratings :=
       [ Rating.mk "u1" "m1" 4 true 1; Rating.mk "u1" "m2" 5 true 2;
         Rating.mk "u2" "m1" 4 true 3; Rating.mk "u2" "m2" 5 true 4;
         Rating.mk "u2" "m3" 5 true 5 ] |}.

(** Two subjects with a single movie in common. *)
Definition strangersMovies : list Movie.t :=
  [ Movie.mk "m1" "Alien" ["horror"] 1979 None (Some 8.5%R) 1;
    Movie.mk "m2" "Aliens" ["action"] 1986 None (Some 8.4%R) 2;
    Movie.mk "m3" "Heat" ["crime"] 1995 None (Some 8.3%R) 3 ].

Definition strangersDb : Database :=
  {| users := [ User.mk "u1" "ann"; User.mk "u2" "bob" ];
     movies := strangersMovies;
     ratings :=
       [ Rating.mk "u1" "m1" 5 true 1;
         Rating.mk "u2" "m1" 5 true 2; Rating.mk "u2" "m2" 5 true 3 ] |}.

(** ** Vocabulary of the popularity list *)


(** The filter of [getPopularMovies]. *)
Definition qualifies (m : Movie.t) : bool :=
  truthyOpt (Movie.rating m) && (orZero (Movie.rating m) >= Num 7)%js.



(** A catalog of one well-rated movie, and a subject without ratings. *)
Definition smallCatalog : list Movie.t :=
  [ Movie.mk "m1" "Alien" ["horror"] 1979 None (Some 8%R) 1 ].

Definition smallDb : Database :=
  {| users := [ User.mk "u1" "ann" ]; movies := smallCatalog; ratings := [] |}.

(** ** Vocabulary of the fusion *)

(** The entry [combinedRecs] holds, as the code computes it, for an item
    that both lists name. *)
Definition mergedEntry (c k : Recommendation) : Recommendation :=
  {| movie := movie c;
     score := ((score c * Num 0.6 + score k * Num 0.4) / Num 1.4)%js;
     reason := (reason c +:+ " (collaborative filtering)") +:+ " + content similarity" |}.

(** The score the specification expects there. *)
Definition specifiedScore (c k : Recommendation) : number :=
  ((score c * Num 0.6 + score k * Num 0.4) / Num 1.0)%js.

(** The reason of such an item: the collaborative reason and two fixed
    tags. *)
Definition mergedReason (c : Recommendation) : string :=
  (reason c +:+ " (collaborative filtering)") +:+ " + content similarity".

Definition recId (r : Recommendation) : string := Movie.id (movie r).

(** Every entry of [combinedRecs] sits under the identity of its movie,
    and no identity occurs twice. *)
Definition wellKeyed (m : smap Recommendation) : Prop :=
  List.NoDup (map fst m) /\ forall k v, In (k, v) m -> k = recId v.

(** The entries the two recommenders produce for the subject u1 of
    [agreeDb]. *)
Definition heat : Movie.t :=
  Movie.mk "m3" "Heat" ["crime"] 1995 None (Some 8.3%R) 3.

Definition agreeCollab : Recommendation :=
  {| movie := heat; score := Num 5; reason := "Recommended by 1 similar user" |}.

Definition agreeContent : Recommendation :=
  {| movie := heat; score := Num 0.2; reason := "Similar to your preferences" |}.

(** ** Vocabulary of the ranking *)

(** The common tail [.sort((a, b) => b.score - a.score).slice(0, limit)]. *)
Definition rankByScore (candidates : list Recommendation) (limit : Z)
    : list Recommendation :=
  slice0 (sort (fun a b => (score b - score a)%js) candidates) limit.

Definition scoreOf (r : Recommendation) : R :=
  match score r with
  | Num x => x
  | NaN => 0%R
  end.

Definition numeric (r : Recommendation) : Prop := score r <> NaN.

Definition hasScore (k : R) (r : Recommendation) : bool := (score r === Num k)%js.

(** The candidates of the three recommenders, in the order in which the
    code builds them. *)
Definition collaborativeCandidates (db : Database) (targetUserId : string)
    (allMovies : list Movie.t) : list Recommendation :=
  RecommendationEngine.scoredMovies
    (RecommendationEngine.tallyScores targetUserId
       (RecommendationEngine.findSimilarUsers targetUserId (getAllRatings db) (getAllUsers db))
       (getAllRatings db))
    allMovies.

Definition likedMoviesOf (db : Database) (targetUserId : string) : list Movie.t :=
  flat_map
    (fun rating =>
       match getMovieById db (Rating.movieId rating) with
       | Some movie => [movie]
       | None => []
       end)
    (List.filter (fun r => Rating.liked r && (Num (Rating.rating r) >= Num 4)%js)
       (getUserRatings db targetUserId)).

Definition contentCandidates (db : Database) (targetUserId : string)
    (allMovies : list Movie.t) : list Recommendation :=
  map (fun movie =>
         {| movie := movie;
            score :=
              RecommendationEngine.calculateContentSimilarity movie
                (likedMoviesOf db targetUserId);
            reason :=
              RecommendationEngine.generateContentReason movie
                (likedMoviesOf db targetUserId) |})
    (List.filter
       (fun movie =>
          negb (existsb (fun r => String.eqb (Rating.movieId r) (Movie.id movie))
                  (getUserRatings db targetUserId)))
       allMovies).

Definition hybridCandidates (db : Database) (targetUserId : string)
    (allMovies : list Movie.t) (limit : Z) : list Recommendation :=
  map_values
    (RecommendationEngine.combine
       (RecommendationEngine.generateCollaborativeRecommendations db targetUserId allMovies
          (Math_ceil (of_Z limit * Num 0.6)))
       (RecommendationEngine.generateContentBasedRecommendations db targetUserId allMovies
          (Math_ceil (of_Z limit * Num 0.4)))).

(** Ties in the order of the item identities, ascending or descending. *)
Definition tiesAscendingById (out : list Recommendation) : Prop :=
  forall i j r1 r2, (i < j)%nat ->
    nth_error out i = Some r1 -> nth_error out j = Some r2 ->
    score r1 = score r2 -> String.compare (recId r1) (recId r2) <> Gt.

Definition tiesDescendingById (out : list Recommendation) : Prop :=
  forall i j r1 r2, (i < j)%nat ->
    nth_error out i = Some r1 -> nth_error out j = Some r2 ->
    score r1 = score r2 -> String.compare (recId r1) (recId r2) <> Lt.

(** A subject who liked one drama, and three more dramas of the same
    year in the catalog order b, a, c. *)
Definition drama (id : string) (createdAt : Z) : Movie.t :=
  Movie.mk id id ["drama"] 2000 None None createdAt.

Definition tieCatalog : list Movie.t :=
  [ drama "m0" 4; drama "b" 3; drama "a" 2; drama "c" 1 ].

Definition tieDb : Database :=
  {| users := [ User.mk "u1" "ann" ];
     movies := tieCatalog;
     ratings := [ Rating.mk "u1" "m0" 5 true 1 ] |}.

Definition tieEntry (id : string) (createdAt : Z) : Recommendation :=
  {| movie := drama id createdAt;
     score := Num 0.65;
     reason := "Recommended because it shares drama genre" |}.

(** ** Vocabulary of the route *)

Definition knownStrategies : list string := ["hybrid"; "collaborative"; "content"; "ai"].

(** The request names a strategy that is none of the known ones. *)
Definition unknownStrategy (req : Route.Request) : Prop :=
  exists v, map_get (Route.query req) "algorithm" = Some v
            /\ forall s, In s knownStrategies -> v <> Route.RawString s.

(** The request carries a limit that reads as a number not above zero. *)
Definition nonPositiveLimit (StringToNumber : string -> number) (req : Route.Request) : Prop :=
  exists s x, map_get (Route.query req) "limit" = Some (Route.RawString s)
              /\ StringToNumber s = Num x /\ (x <= 0)%R.

(** An authenticated request for the strategy "popular". *)
Definition popularRequest : Route.Request :=
  {| Route.rateLimited := false;
     Route.auth := Route.Authenticated (User.mk "u1" "ann");
     Route.query := [ ("algorithm", Route.RawString "popular") ] |}.

(** ** Example data of the cache *)

(** A cache that holds the hybrid list of the subject "a-b". *)
Definition hyphenCache : CacheService.cache :=
  CacheService.setRecommendations "a-b" "hybrid" [] ∅.

(** A cache that holds the hybrid list of the subject "u2". *)
Definition plainCache : CacheService.cache :=
  CacheService.setRecommendations "u2" "hybrid" [] ∅.

(** An answer of the AI strategy, and a cache that holds it for the
    subject "u1", who liked the movie "m1". *)
Definition aiAnswer : Recommendation :=
  {| movie := heat; score := Num 0.9; reason := "A heist film for fans of Alien" |}.

Definition aiCache : CacheService.cache :=
  CacheService.setAIResponse "u1" ["m1"] [aiAnswer] ∅.

(** ** Example data of the AI response *)

(** The double quote, and the response text
    [[{"movieId":"m1","score":"high"}]]. *)
Definition dq : string := String (Ascii.ascii_of_nat 34) EmptyString.

Definition wordyResponse : string :=
  "[{" +:+ dq +:+ "movieId" +:+ dq +:+ ":" +:+ dq +:+ "m1" +:+ dq +:+ ","
  +:+ dq +:+ "score" +:+ dq +:+ ":" +:+ dq +:+ "high" +:+ dq +:+ "}]".

(** What [JSON.parse] makes of it. *)
Definition wordyJson : AIService.json :=
  AIService.JArray
    [ AIService.JObject
        [ ("movieId", AIService.JString "m1"); ("score", AIService.JString "high") ] ].

(** Builtins that agree with the language on the strings of the example:
    the response parses to [wordyJson], it has no fence to strip, and
    [Number("high")] is [NaN]. *)
Definition exampleParse (s : string) : option AIService.json :=
  if String.eqb s wordyResponse then Some wordyJson else None.

Definition exampleStrip (s : string) : string := s.

Definition exampleNumber (s : string) : number := NaN.

Definition exampleArrayToString (l : list AIService.json) : string := EmptyString.

(** ** Vocabulary of the collaborative scores *)

(** A tally whose sum exceeds 1.2 times its count of contributions. *)
Definition tallyAbove (t : RecommendationEngine.Tally) : Prop :=
  exists x, RecommendationEngine.t_score t = Num x
            /\ (1 <= RecommendationEngine.t_count t)%nat
            /\ (1.2 * IZR (Z.of_nat (RecommendationEngine.t_count t)) < x)%R.

(** A neighbour whose similarity is a number above the threshold. *)
Definition aboveThreshold (item : User.t * number) : Prop :=
  exists s, snd item = Num s /\ (0.3 < s)%R.

(** ** Vocabulary of the engine's guarantees *)

(** The subject has a rating about the movie. *)
Definition ratedBy (db : Database) (userId movieId : string) : bool :=
  existsb (fun r => String.eqb (Rating.userId r) userId
                    && String.eqb (Rating.movieId r) movieId) (ratings db).

(** The ratings of one subject among all ratings. *)
Definition ratingsOf (userId : string) (allRatings : list Rating.t) : list Rating.t :=
  List.filter (fun r => String.eqb (Rating.userId r) userId) allRatings.

(** The filter of the inner loop of [getRecommendationsFromSimilarUsers]:
    a rating of the neighbour [user] that counts for the target. *)
Definition endorses (targetUserId : string) (allRatings : list Rating.t)
    (user : User.t) (r : Rating.t) : bool :=
  String.eqb (Rating.userId r) (User.id user)
  && Rating.liked r
  && (Num (Rating.rating r) >= Num 4)%js
  && negb (includes
             (map Rating.movieId
                (List.filter (fun r => String.eqb (Rating.userId r) targetUserId) allRatings))
             (Rating.movieId r)).

(** ** Vocabulary of the similarity in double precision *)


(** [commonMovies] of [calculateUserSimilarity]: the ratings of the first
    subject for the movies the second one rated too. *)
Definition commonMovies (user1Ratings user2Ratings : list Binary64.Rating.t)
    : list Binary64.Rating.t :=
  List.filter (fun r1 =>
            existsb (fun r2 => String.eqb (Binary64.Rating.movieId r2)
                                 (Binary64.Rating.movieId r1))
              user2Ratings)
    user1Ratings.



(** Two subjects who rated the same three movies: 1, 1, 3 and 1, 1, 4. *)
Definition steadyU1 : list Binary64.Rating.t :=
  [ Binary64.Rating.mk "u1" "m1" (Binary64.of_Z 1);
    Binary64.Rating.mk "u1" "m2" (Binary64.of_Z 1);
    Binary64.Rating.mk "u1" "m3" (Binary64.of_Z 3) ].

Definition steadyU2 : list Binary64.Rating.t :=
  [ Binary64.Rating.mk "u2" "m1" (Binary64.of_Z 1);
    Binary64.Rating.mk "u2" "m2" (Binary64.of_Z 1);
    Binary64.Rating.mk "u2" "m3" (Binary64.of_Z 4) ].

(** The same ratings as exact numbers. *)
Definition steadyExactU1 : list Rating.t :=
  [ Rating.mk "u1" "m1" 1 false 1; Rating.mk "u1" "m2" 1 false 2;
    Rating.mk "u1" "m3" 3 false 3 ].

Definition steadyExactU2 : list Rating.t :=
  [ Rating.mk "u2" "m1" 1 false 4; Rating.mk "u2" "m2" 1 false 5;
    Rating.mk "u2" "m3" 4 true 6 ].

(** The example of the specification as doubles: 5, 5 against 5, 4 (and
    a third movie of the second subject). *)
Definition exampleU1_64 : list Binary64.Rating.t :=
  [ Binary64.Rating.mk "U1" "M1" (Binary64.of_Z 5);
    Binary64.Rating.mk "U1" "M2" (Binary64.of_Z 5) ].

Definition exampleU2_64 : list Binary64.Rating.t :=
  [ Binary64.Rating.mk "U2" "M1" (Binary64.of_Z 5);
    Binary64.Rating.mk "U2" "M2" (Binary64.of_Z 4);
    Binary64.Rating.mk "U2" "M3" (Binary64.of_Z 5) ].

(** 1 + 2^-52, the double after 1: 1.0000000000000002. *)
Definition afterOne : Binary64.number := SpecFloat.S754_finite false 4503599627370497 (-52).

(** The body of the [forEach] of [calculateContentSimilarity]: the
    similarity of [movie] and one liked movie, added to the running
    total. *)
Definition addPairSimilarity (movie : Movie.t) (totalSimilarity : number)
    (likedMovie : Movie.t) : number :=
  (let similarity := Num 0 in
   let genreOverlap :=
     length (List.filter (fun g => includes (Movie.genre likedMovie) g) (Movie.genre movie)) in
   let genreUnion :=
     length (nodup string_dec (Movie.genre movie ++ Movie.genre likedMovie)) in
   let similarity := similarity + (of_nat genreOverlap / of_nat genreUnion) * Num 0.5 in
   let similarity :=
     if truthyStr (Movie.director movie) && truthyStr (Movie.director likedMovie)
        && optStrEq (Movie.director movie) (Movie.director likedMovie)
     then similarity + Num 0.2 else similarity in
   let yearDiff := Z.abs (Movie.year movie - Movie.year likedMovie) in
   let similarity :=
     if (yearDiff <=? 5)%Z then similarity + Num 0.15
     else if (yearDiff <=? 15)%Z then similarity + Num 0.1
     else similarity in
   let similarity :=
     match Movie.rating movie, Movie.rating likedMovie with
     | Some r, Some lr =>
         if truthy (Num r) && truthy (Num lr) && (Num (Rabs (r - lr)) <= Num 1)
         then similarity + Num 0.15 else similarity
     | _, _ => similarity
     end in
   totalSimilarity + similarity)%js.

(** Two movies whose genre lists are empty. *)
Definition untagged (id : string) : Movie.t :=
  Movie.mk id id [] 2000 None None 1.

(** ** Vocabulary of the stored lists *)

Fixpoint commaFree (s : string) : bool :=
  match s with
  | EmptyString => true
  | String a s' => negb (Ascii.eqb a ","%char) && commaFree s'
  end.

(** The number of commas of a text. *)
Fixpoint commas (s : string) : nat :=
  match s with
  | EmptyString => 0
  | String a s' => (if Ascii.eqb a ","%char then 1 else 0) + commas s'
  end.

(** An entry that the comma-separated text gives back as it is: no
    comma, and no white space at either end. *)
Definition storableEntry (s : string) : bool :=
  commaFree s && String.eqb (JSString.trim s) s.

Definition storableList (l : list string) : Prop :=
  Forall (fun s => storableEntry s = true) l /\ l <> [EmptyString].

(** Some movie data with the two lists given. *)
Definition movieData (genre : list string) (actors : option (list string)) : MovieRecord.t :=
  MovieRecord.mk EmptyString "Heat" genre 1995 "A crime saga" None actors None None None None
    None None None None None.

(** ** Vocabulary of the sorted keys *)

(** [notAfter before x y]: the order [before] does not put [y] before
    [x]. *)
Definition notAfter {A : Type} (before : A -> A -> bool) (x y : A) : Prop :=
  before y x = false.

(** ** Example requests *)

(** An authenticated request without parameters, and the same request
    with a list of genres and a range of years. *)
Definition plainRequest : Route.Request :=
  {| Route.rateLimited := false;
     Route.auth := Route.Authenticated (User.mk "u1" "ann");
     Route.query := [] |}.

Definition filteredRequest : Route.Request :=
  {| Route.rateLimited := false;
     Route.auth := Route.Authenticated (User.mk "u1" "ann");
     Route.query := [ ("genres", Route.RawArray ["horror"; "crime"]);
                      ("excludeWatched", Route.RawString "false") ] |}.

(** The limit a request asks for, as the schema reads it: the integer
    from 1 to 50 that its [limit] parameter denotes, or 10 when it has
    none; [None] when the schema refuses the parameter. *)
Definition requestedLimit (StringToNumber : string -> number) (q : smap Route.raw)
    : option Z :=
  match map_get q "limit" with
  | None => Some 10%Z
  | Some v => Route.zInt (Some 1%Z) (Some 50%Z) (Route.processValue StringToNumber v)
  end.

(** An authenticated request for five recommendations, and a [Number]
    that reads the text "5". *)
Definition fiveRequest : Route.Request :=
  {| Route.rateLimited := false;
     Route.auth := Route.Authenticated (User.mk "u1" "ann");
     Route.query := [ ("limit", Route.RawString "5") ] |}.

Definition readFive (s : string) : number :=
  if String.eqb s "5" then Num 5 else NaN.

(** An authenticated request that names one genre. *)
Definition oneGenreRequest : Route.Request :=
  {| Route.rateLimited := false;
     Route.auth := Route.Authenticated (User.mk "u1" "ann");
     Route.query := [ ("genres", Route.RawString "horror") ] |}.

(** ** Vocabulary of the stored ratings *)

(** The rating is the one of this subject about this movie. *)
Definition samePair (userId movieId : string) (r : Rating.t) : bool :=
  String.eqb (Rating.userId r) userId && String.eqb (Rating.movieId r) movieId.

Definition pairOf (r : Rating.t) : string * string := (Rating.userId r, Rating.movieId r).

(** The row of a rating once an update has given it new stars and a new
    flag. *)
Definition restamp (rating : R) (liked : bool) (r : Rating.t) : Rating.t :=
  {| Rating.userId := Rating.userId r; Rating.movieId := Rating.movieId r;
     Rating.rating := rating; Rating.liked := liked;
     Rating.createdAt := Rating.createdAt r |}.

(** The stars and the flag that [rateMovie] stores for a body. *)
Definition starsOf (body : RatingRoute.Body) : R :=
  match RatingRoute.b_rating body with
  | Some x => x
  | None => 0%R
  end.

Definition flagOf (body : RatingRoute.Body) : bool :=
  match RatingRoute.b_liked body with
  | Some liked => liked
  | None =>
      match RatingRoute.b_rating body with
      | Some x => (Num x > Num 3)%js
      | None => false
      end
  end.

(** The subject u1 of [agreeDb] rates the movie m3: with 5 stars and a
    like, and with a like only. *)
Definition ann : User.t := User.mk "u1" "ann".

Definition fiveStars : RatingRoute.Body :=
  {| RatingRoute.b_rating := Some 5%R; RatingRoute.b_liked := Some true;
     RatingRoute.b_review := None |}.

Definition ratedDb (stars : R) : Database :=
  {| users := users agreeDb; movies := movies agreeDb;
     ratings := ratings agreeDb ++ [ Rating.mk "u1" "m3" stars true 9 ] |}.

(** ** Vocabulary of the pages *)

(** The pages 1 to [k]. *)
Definition firstPages (k : nat) : list N := map N.of_nat (seq 1 k).

(** ** Vocabulary of the weights of the fusion *)

(** What [combinedRecs] holds for an item that only the collaborative
    list, or only the content list, names. *)
Definition collaborativeEntry (c : Recommendation) : Recommendation :=
  {| movie := movie c;
     score := (score c * Num 0.6)%js;
     reason := reason c +:+ " (collaborative filtering)" |}.

Definition contentEntry (k : Recommendation) : Recommendation :=
  {| movie := movie k;
     score := (score k * Num 0.4)%js;
     reason := reason k +:+ " (content-based)" |}.

(** Two lists that share no movie. *)
Definition alien : Movie.t := Movie.mk "m1" "Alien" ["horror"] 1979 None (Some 8.5%R) 1.

Definition alienContent : Recommendation :=
  {| movie := alien; score := Num 0.3; reason := "Similar to your preferences" |}.

(** * Properties *)

(** ** Evaluating the embedding on concrete data *)

Arguments RecommendationEngine.calculateUserSimilarity : simpl never.
Arguments RecommendationEngine.findSimilarUsers : simpl never.
Arguments RecommendationEngine.getRecommendationsFromSimilarUsers : simpl never.
Arguments RecommendationEngine.getPopularMovies : simpl never.
Arguments RecommendationEngine.generateCollaborativeRecommendations : simpl never.
Arguments RecommendationEngine.generateContentBasedRecommendations : simpl never.
Arguments RecommendationEngine.generateHybridRecommendations : simpl never.
Arguments RecommendationEngine.calculateContentSimilarity : simpl never.
Arguments RecommendationEngine.generateContentReason : simpl never.
Arguments RecommendationEngine.combine : simpl never.
Arguments getUserRatings : simpl never.
Arguments getMovieById : simpl never.
Arguments getMovies : simpl never.

Ltac js_norm :=
  cbn;
  repeat match goal with
  | |- context [Z.of_nat ?n] =>
      let v := eval compute in (Z.of_nat n) in progress change (Z.of_nat n) with v
  | |- context [(?a <=? ?b)%Z] =>
      let v := eval vm_compute in (a <=? b)%Z in progress change (a <=? b)%Z with v
  | |- context [(?a <? ?b)%Z] =>
      let v := eval vm_compute in (a <? b)%Z in progress change (a <? b)%Z with v
  | |- context [Rabs ?x] =>
      first [ rewrite (Rabs_right x) by lra | rewrite (Rabs_left x) by lra ]
  end.

(** Settles a test on closed reals when linear arithmetic decides it. *)
Ltac js_dec_with P d :=
  let H := fresh in
  first [ assert (H : P) by lra; destruct d as [_ | ?]; [ | contradiction ]
        | assert (H : ~ P) by lra; destruct d as [? | _]; [ contradiction | ] ];
  clear H.

Ltac js_decide :=
  repeat match goal with
  | |- context [Rlt_dec ?a ?b] => js_dec_with (a < b)%R (Rlt_dec a b)
  | |- context [Rle_dec ?a ?b] => js_dec_with (a <= b)%R (Rle_dec a b)
  | |- context [Req_dec_T ?a ?b] => js_dec_with (a = b)%R (Req_dec_T a b)
  end.

Ltac js_eval := repeat (js_norm; progress js_decide); js_norm.

Ltac js_sqrt v :=
  match goal with
  | |- context [R_sqrt.sqrt ?x] =>
      replace (R_sqrt.sqrt x) with v by (symmetry; apply sqrt_lem_1; lra)
  end.

(** ** Sorting *)

Section SortFacts.
Context {A : Type} (before : A -> A -> bool).

Lemma insert_perm (x : A) (l : list A) : Permutation (insert before x l) (x :: l).
Proof.
  induction l as [|y l IH]; simpl; [reflexivity|].
  destruct (before y x); [|reflexivity].
  rewrite IH. apply perm_swap.
Qed.

Lemma sortBy_perm (l : list A) : Permutation (sortBy before l) l.
Proof.
  induction l as [|x l IH]; simpl; [reflexivity|].
  rewrite insert_perm. constructor. exact IH.
Qed.

Lemma sortBy_In (l : list A) (x : A) : In x (sortBy before l) <-> In x l.
Proof.
  split; apply Permutation_in; [|symmetry]; apply sortBy_perm.
Qed.

Lemma sortBy_length (l : list A) : length (sortBy before l) = length l.
Proof. apply Permutation_length, sortBy_perm. Qed.

(** Sorting by a real key, larger keys first, on the elements [ok] whose
    comparisons follow the key. *)
Variable key : A -> R.
Variable ok : A -> Prop.
Hypothesis before_key :
  forall x y, ok x -> ok y -> (before y x = true <-> (key x < key y)%R).

Lemma insert_sorted (x : A) (l : list A) :
  ok x -> Forall ok l ->
  StronglySorted (fun a b => (key a >= key b)%R) l ->
  StronglySorted (fun a b => (key a >= key b)%R) (insert before x l).
Proof.
  intros Hx Hl Hs. induction l as [|y l IH]; simpl.
  - constructor; constructor.
  - inversion Hl as [|? ? Hy Hl']; subst.
    inversion Hs as [|? ? Hs' Hall]; subst.
    destruct (before y x) eqn:E.
    + apply before_key in E; [|assumption..].
      constructor; [apply IH; assumption|].
      apply List.Forall_forall. intros z Hz.
      apply (Permutation_in _ (insert_perm x l)) in Hz. destruct Hz as [<-|Hz].
      * lra.
      * rewrite List.Forall_forall in Hall. apply Hall. exact Hz.
    + assert (Hge : (key x >= key y)%R).
      { destruct (Rlt_dec (key x) (key y)) as [Hlt|Hn]; [|lra].
        apply before_key in Hlt; [congruence|assumption..]. }
      constructor; [exact Hs|].
      constructor; [exact Hge|].
      eapply List.Forall_impl; [|exact Hall]. cbv beta. intros z Hz. lra.
Qed.

Lemma sortBy_sorted (l : list A) :
  Forall ok l -> StronglySorted (fun a b => (key a >= key b)%R) (sortBy before l).
Proof.
  induction l as [|x l IH]; intros Hl; simpl; [constructor|].
  inversion Hl as [|? ? Hx Hl']; subst. apply insert_sorted.
  - exact Hx.
  - apply List.Forall_forall. intros z Hz. apply (proj1 (sortBy_In _ _)) in Hz.
    rewrite List.Forall_forall in Hl'. auto.
  - apply IH. exact Hl'.
Qed.

(** Stability: the elements a predicate selects, all of one key, keep
    their order. *)
Lemma insert_filter (p : A -> bool) (x : A) (l : list A) :
  ok x -> Forall ok l ->
  (forall y, ok y -> p x = true -> p y = true -> key y = key x) ->
  List.filter p (insert before x l) = List.filter p (x :: l).
Proof.
  intros Hx Hl Hp. induction l as [|y l IH]; simpl; [reflexivity|].
  inversion Hl as [|? ? Hy Hl']; subst.
  destruct (before y x) eqn:E; [|reflexivity].
  apply before_key in E; [|assumption..].
  simpl. rewrite (IH Hl'). simpl.
  destruct (p x) eqn:Px, (p y) eqn:Py; try reflexivity.
  specialize (Hp y Hy eq_refl Py). lra.
Qed.

Lemma sortBy_stable (p : A -> bool) (l : list A) :
  Forall ok l ->
  (forall x y, ok x -> ok y -> p x = true -> p y = true -> key y = key x) ->
  List.filter p (sortBy before l) = List.filter p l.
Proof.
  intros Hl Hp. induction l as [|x l IH]; simpl; [reflexivity|].
  inversion Hl as [|? ? Hx Hl']; subst.
  rewrite insert_filter.
  - simpl. rewrite (IH Hl'). reflexivity.
  - exact Hx.
  - apply List.Forall_forall. intros z Hz. apply (proj1 (sortBy_In _ _)) in Hz.
    rewrite List.Forall_forall in Hl'. auto.
  - intros y Hy. apply Hp; assumption.
Qed.
End SortFacts.

Lemma slice0_firstn {A : Type} (l : list A) (e : Z) : exists n, slice0 l e = firstn n l.
Proof. unfold slice0. destruct (e <? 0)%Z; eexists; reflexivity. Qed.

Lemma slice0_nonneg {A : Type} (l : list A) (e : Z) :
  (0 <= e)%Z -> slice0 l e = firstn (Z.to_nat e) l.
Proof. intros H. unfold slice0. destruct (Z.ltb_spec e 0); [lia|reflexivity]. Qed.

Lemma In_firstn {A : Type} (n : nat) (l : list A) (x : A) : In x (firstn n l) -> In x l.
Proof.
  intros H. rewrite <- (firstn_skipn n l). apply in_or_app. left. exact H.
Qed.

Lemma filter_firstn_prefix {A : Type} (p : A -> bool) (n : nat) (l : list A) :
  exists rest, List.filter p l = List.filter p (firstn n l) ++ rest.
Proof.
  exists (List.filter p (skipn n l)).
  rewrite <- List.filter_app, firstn_skipn. reflexivity.
Qed.

Lemma StronglySorted_firstn {A : Type} (R : A -> A -> Prop) (n : nat) (l : list A) :
  StronglySorted R l -> StronglySorted R (firstn n l).
Proof.
  revert n. induction l as [|x l IH]; intros n Hs; destruct n; simpl; try constructor.
  - inversion Hs; subst. apply IH. assumption.
  - inversion Hs as [|? ? Hs' Hall]; subst. apply List.Forall_forall. intros z Hz.
    rewrite List.Forall_forall in Hall. apply Hall. eapply In_firstn; eauto.
Qed.

(** ** The similarity of two users *)

Section Similarity.
Import RecommendationEngine.
Local Open Scope R_scope.

Lemma fold_left_add {A : Type} (f : A -> R) (l : list A) (s : R) :
  fold_left (fun a b => (a + b)%js) (map (fun r => Num (f r)) l) (Num s)
  = Num (s + sumOver f l).
Proof.
  revert s. induction l as [|x l IH]; intros s; simpl.
  - f_equal. lra.
  - rewrite IH. f_equal. lra.
Qed.

Lemma fold_left_add_sq {A : Type} (f : A -> R) (l : list A) (s : R) :
  fold_left (fun a b => (a + b * b)%js) (map (fun r => Num (f r)) l) (Num s)
  = Num (s + sumOver (fun r => f r * f r) l).
Proof.
  revert s. induction l as [|x l IH]; intros s; simpl.
  - f_equal. lra.
  - rewrite IH. f_equal. lra.
Qed.

(** The indexed [reduce] of [pSum] reads the second array at the position
    of the element it visits. *)
Lemma reducei_dot {A : Type} (f g : A -> R) (pre l : list A) (s : R) :
  reducei_from (length pre)
    (fun acc r1 i => (acc + r1 * at_index (map (fun r => Num (g r)) (pre ++ l)) i)%js)
    (map (fun r => Num (f r)) l) (Num s)
  = Num (s + sumOver (fun r => f r * g r) l).
Proof.
  revert pre s. induction l as [|x l IH]; intros pre s; simpl.
  - f_equal. lra.
  - assert (E : at_index (map (fun r => Num (g r)) (pre ++ x :: l)) (length pre)
                = Num (g x)).
    { unfold at_index. rewrite map_app, app_nth2 by (rewrite length_map; lia).
      rewrite length_map, Nat.sub_diag. reflexivity. }
    rewrite E.
    specialize (IH (pre ++ [x]) (s + f x * g x)).
    rewrite length_app in IH. simpl in IH. rewrite Nat.add_1_r in IH.
    rewrite <- app_assoc in IH. simpl in IH.
    rewrite IH. f_equal. lra.
Qed.

Lemma sumOver_map {A B : Type} (f : B -> R) (g : A -> B) (l : list A) :
  sumOver f (map g l) = sumOver (fun x => f (g x)) l.
Proof. induction l; simpl; congruence. Qed.

Lemma sumOver_perm {A : Type} (f : A -> R) (l l' : list A) :
  Permutation l l' -> sumOver f l = sumOver f l'.
Proof. induction 1; simpl; try lra. Qed.

(** The quadratic form of the sums is a sum of squares. *)
Lemma gram_nonneg (ps : list (R * R)) (t s u : R) :
  0 <= t * t * Sxx ps + s * s * Syy ps + u * u * cnt ps
       + 2 * t * s * Sxy ps + 2 * t * u * Sx ps + 2 * s * u * Sy ps.
Proof.
  unfold Sxx, Syy, cnt, Sxy, Sx, Sy.
  induction ps as [|[x y] ps IH]; simpl length; simpl sumOver.
  - change (Z.of_nat 0) with 0%Z. lra.
  - rewrite Nat2Z.inj_succ, succ_IZR. simpl fst; simpl snd.
    pose proof (Rle_0_sqr (t * x + s * y + u)) as H. unfold Rsqr in H. nra.
Qed.

Lemma cnt_ge_2 (ps : list (R * R)) : (2 <= length ps)%nat -> 2 <= cnt ps.
Proof. intros H. unfold cnt. apply IZR_le. lia. Qed.

(** Cauchy-Schwarz for the centred sums. *)
Lemma spread_facts (ps : list (R * R)) :
  (2 <= length ps)%nat ->
  0 <= spreadX ps /\ 0 <= spreadY ps /\
  covariance ps * covariance ps <= spreadX ps * spreadY ps.
Proof.
  intros Hn. pose proof (cnt_ge_2 ps Hn) as Hc.
  assert (Q : forall t s,
             0 <= t * t * spreadX ps + 2 * t * s * covariance ps + s * s * spreadY ps).
  { intros t s.
    pose proof (gram_nonneg ps t s (- (t * Sx ps + s * Sy ps) / cnt ps)) as G.
    unfold spreadX, spreadY, covariance.
    replace (t * t * (Sxx ps - Sx ps * Sx ps / cnt ps)
             + 2 * t * s * (Sxy ps - Sx ps * Sy ps / cnt ps)
             + s * s * (Syy ps - Sy ps * Sy ps / cnt ps))
      with (t * t * Sxx ps + s * s * Syy ps
            + - (t * Sx ps + s * Sy ps) / cnt ps
              * (- (t * Sx ps + s * Sy ps) / cnt ps) * cnt ps
            + 2 * t * s * Sxy ps
            + 2 * t * (- (t * Sx ps + s * Sy ps) / cnt ps) * Sx ps
            + 2 * s * (- (t * Sx ps + s * Sy ps) / cnt ps) * Sy ps).
    - exact G.
    - field. lra. }
  generalize dependent (covariance ps). generalize dependent (spreadY ps).
  generalize dependent (spreadX ps). intros A B C Q.
  assert (HA : 0 <= A) by (specialize (Q 1 0); lra).
  assert (HB : 0 <= B) by (specialize (Q 0 1); lra).
  split; [exact HA|]. split; [exact HB|].
  destruct (Rle_lt_dec B 0) as [HB0|HBpos].
  - assert (E : B = 0) by lra. subst B.
    destruct (Req_dec C 0) as [HC|HC]; [rewrite HC; lra|].
    exfalso.
    pose proof (Q 1 (- (A + 1) / (2 * C))) as Q1.
    replace (1 * 1 * A + 2 * 1 * (- (A + 1) / (2 * C)) * C
             + - (A + 1) / (2 * C) * (- (A + 1) / (2 * C)) * 0)
      with (-1) in Q1; [lra|].
    field. exact HC.
  - pose proof (Q B (- C)) as Q1.
    assert (0 <= B * (A * B - C * C)) by nra.
    nra.
Qed.

(** [calculateUserSimilarity] computes [pearson] on the shared ratings:
    no intermediate value of it is [NaN]. *)
Lemma calculateUserSimilarity_pearson (a b : list Rating.t) :
  calculateUserSimilarity a b = pearson (sharedRatings a b).
Proof.
  unfold calculateUserSimilarity, sharedRatings.
  change (fun r1 : Rating.t =>
            existsb (fun r2 => String.eqb (Rating.movieId r2) (Rating.movieId r1)) b)
    with (ratedIn b).
  set (common := List.filter (ratedIn b) a).
  set (ps := map (fun r => (Rating.rating r, ratingIn b r)) common).
  assert (Hps : length ps = length common) by (unfold ps; apply length_map).
  unfold pearson. rewrite !length_map, Hps.
  destruct (length common <? 2)%nat eqn:Hlen; [reflexivity|].
  apply Nat.ltb_ge in Hlen.
  assert (Hmap2 :
    map (fun r1 : Rating.t =>
           match find (fun r2 => String.eqb (Rating.movieId r2) (Rating.movieId r1)) b with
           | Some r2 => Num (Rating.rating r2)
           | None => Num 0
           end) common
    = map (fun r => Num (ratingIn b r)) common).
  { apply map_ext. intros r. unfold ratingIn. destruct (find _ b); reflexivity. }
  rewrite Hmap2. clear Hmap2.
  pose proof (spread_facts ps ltac:(lia)) as (HA & HB & HC).
  pose proof (cnt_ge_2 ps ltac:(lia)) as Hn.
  rewrite !fold_left_add, !fold_left_add_sq.
  unfold reducei.
  pose proof (reducei_dot Rating.rating (ratingIn b) [] common 0) as Hdot.
  simpl length in Hdot. simpl app in Hdot. rewrite Hdot. clear Hdot.
  assert (E1 : sumOver Rating.rating common = Sx ps)
    by (unfold Sx, ps; rewrite sumOver_map; reflexivity).
  assert (E2 : sumOver (ratingIn b) common = Sy ps)
    by (unfold Sy, ps; rewrite sumOver_map; reflexivity).
  assert (E3 : sumOver (fun r => Rating.rating r * Rating.rating r) common = Sxx ps)
    by (unfold Sxx, ps; rewrite sumOver_map; reflexivity).
  assert (E4 : sumOver (fun r => ratingIn b r * ratingIn b r) common = Syy ps)
    by (unfold Syy, ps; rewrite sumOver_map; reflexivity).
  assert (E5 : sumOver (fun r => Rating.rating r * ratingIn b r) common = Sxy ps)
    by (unfold Sxy, ps; rewrite sumOver_map; reflexivity).
  rewrite E1, E2, E3, E4, E5.
  unfold of_nat. rewrite <- Hps. fold (cnt ps).
  cbn [JS.add JS.sub JS.mul JS.div].
  destruct (Req_dec_T (cnt ps) 0) as [H0|_]; [lra|].
  cbn [JS.add JS.sub JS.mul JS.div JS.sqrt].
  rewrite !Rplus_0_l. fold (spreadX ps) (spreadY ps) (covariance ps).
  destruct (Rlt_dec (spreadX ps * spreadY ps) 0) as [Hneg|_].
  { exfalso. nra. }
  cbn [JS.eqb].
  destruct (Req_dec_T (R_sqrt.sqrt (spreadX ps * spreadY ps)) 0) as [Hz|Hnz];
    reflexivity.
Qed.

Lemma pearson_bounded (ps : list (R * R)) :
  exists x, pearson ps = Num x /\ -1 <= x <= 1.
Proof.
  unfold pearson.
  destruct (length ps <? 2)%nat eqn:Hlen.
  { exists 0. split; [reflexivity | lra]. }
  apply Nat.ltb_ge in Hlen.
  pose proof (spread_facts ps Hlen) as (HA & HB & HC).
  cbv zeta.
  destruct (Req_dec_T _ 0) as [Hz|Hnz].
  { exists 0. split; [reflexivity | lra]. }
  eexists. split; [reflexivity|].
  set (d := R_sqrt.sqrt (spreadX ps * spreadY ps)) in *.
  assert (Hd0 : 0 <= d) by apply sqrt_pos.
  assert (Hd : 0 < d) by lra.
  assert (Hdd : d * d = spreadX ps * spreadY ps).
  { unfold d. apply sqrt_sqrt. nra. }
  assert (Hc : - d <= covariance ps <= d) by nra.
  split.
  - apply Rmult_le_reg_r with d; [exact Hd|]. unfold Rdiv.
    rewrite Rmult_assoc, Rinv_l by lra. lra.
  - apply Rmult_le_reg_r with d; [exact Hd|]. unfold Rdiv.
    rewrite Rmult_assoc, Rinv_l by lra. lra.
Qed.

Lemma pearson_zero_spread (ps : list (R * R)) :
  spreadX ps = 0 \/ spreadY ps = 0 -> pearson ps = Num 0.
Proof.
  intros H. unfold pearson. destruct (length ps <? 2)%nat; [reflexivity|].
  cbv zeta.
  replace (spreadX ps * spreadY ps) with 0 by (destruct H as [-> | ->]; ring).
  rewrite sqrt_0. destruct (Req_dec_T 0 0); [reflexivity | contradiction].
Qed.

Lemma sumOver_constant {A : Type} (g : A -> R) (c : R) (l : list A) :
  Forall (fun p => g p = c) l ->
  sumOver g l = IZR (Z.of_nat (length l)) * c
  /\ sumOver (fun p => g p * g p) l = IZR (Z.of_nat (length l)) * c * c.
Proof.
  induction 1 as [|p l Hp Hl [IH1 IH2]]; simpl sumOver; simpl length.
  - change (Z.of_nat 0) with 0%Z. split; lra.
  - rewrite Nat2Z.inj_succ, succ_IZR, IH1, IH2, Hp. split; lra.
Qed.

(** Ratings that are all equal on one side have no variance. *)
Lemma constant_ratings_zero_spread (ps : list (R * R)) (c : R) :
  ps <> [] ->
  (Forall (fun p => fst p = c) ps -> spreadX ps = 0)
  /\ (Forall (fun p => snd p = c) ps -> spreadY ps = 0).
Proof.
  intros Hne.
  assert (Hn : 1 <= cnt ps).
  { unfold cnt. apply IZR_le. destruct ps; [contradiction | simpl length; lia]. }
  split; intros H; destruct (sumOver_constant _ c ps H) as [E1 E2].
  - unfold spreadX, Sxx, Sx. rewrite E1, E2. fold (cnt ps). field. lra.
  - unfold spreadY, Syy, Sy. rewrite E1, E2. fold (cnt ps). field. lra.
Qed.

(** The similarity in exact arithmetic: a number between -1 and 1,
    never [NaN]; exactly 0 when the two users share fewer than two rated
    movies, and exactly 0 when either user's shared ratings have no
    variance, which makes the denominator of the correlation 0.  The bound
    is a fact of the correlation, not of the doubles the code computes
    with: the section on double precision shows the code above 1. *)
Theorem similarity_total_and_bounded (a b : list Rating.t) :
  (exists x, calculateUserSimilarity a b = Num x /\ -1 <= x <= 1)
  /\ ((length (sharedRatings a b) < 2)%nat -> calculateUserSimilarity a b = Num 0)
  /\ (spreadX (sharedRatings a b) = 0 \/ spreadY (sharedRatings a b) = 0 ->
      calculateUserSimilarity a b = Num 0).
Proof.
  rewrite calculateUserSimilarity_pearson. split; [|split].
  - apply pearson_bounded.
  - intros H. unfold pearson. apply Nat.ltb_lt in H. rewrite H. reflexivity.
  - apply pearson_zero_spread.
Qed.

Lemma pearson_perm (ps qs : list (R * R)) :
  Permutation ps qs -> pearson ps = pearson qs.
Proof.
  intros H. unfold pearson, spreadX, spreadY, covariance, cnt, Sx, Sy, Sxx, Syy, Sxy.
  rewrite (Permutation_length H).
  rewrite !(sumOver_perm _ _ _ H). reflexivity.
Qed.

Lemma pearson_swap (ps : list (R * R)) : pearson (map swap ps) = pearson ps.
Proof.
  unfold pearson, spreadX, spreadY, covariance, cnt, Sx, Sy, Sxx, Syy, Sxy.
  rewrite length_map, !sumOver_map. unfold swap. cbn [fst snd].
  replace (sumOver (fun x : R * R => snd x * fst x) ps)
    with (sumOver (fun p : R * R => fst p * snd p) ps).
  2:{ induction ps as [|p ps IH]; simpl; [reflexivity|]. rewrite IH. lra. }
  rewrite (Rmult_comm (sumOver (fun x : R * R => snd x) ps)
             (sumOver (fun x : R * R => fst x) ps)).
  rewrite (Rmult_comm (sumOver (fun x : R * R => snd x * snd x) ps - _)).
  reflexivity.
Qed.

Lemma sharedRatings_tagged (x y : list Rating.t) :
  sharedRatings x y = map snd (tagged x y).
Proof. unfold sharedRatings, tagged. rewrite map_map. reflexivity. Qed.

Lemma find_movie_unique (l : list Rating.t) (r : Rating.t) :
  List.NoDup (map Rating.movieId l) -> In r l ->
  find (fun r2 => String.eqb (Rating.movieId r2) (Rating.movieId r)) l = Some r.
Proof.
  induction l as [|x l IH]; intros Hnd Hin; [contradiction|].
  simpl in Hnd. inversion Hnd as [|? ? Hx Hnd']; subst.
  simpl. destruct Hin as [->|Hin].
  - rewrite String.eqb_refl. reflexivity.
  - destruct (String.eqb (Rating.movieId x) (Rating.movieId r)) eqn:E.
    + apply String.eqb_eq in E. exfalso. apply Hx. rewrite E. apply in_map. exact Hin.
    + apply IH; assumption.
Qed.

Lemma in_tagged (x y : list Rating.t) (m : string) (u v : R) :
  List.NoDup (map Rating.movieId y) ->
  In (m, (u, v)) (tagged x y) <->
  exists r1 r2, In r1 x /\ In r2 y /\ Rating.movieId r1 = m /\ Rating.movieId r2 = m
                /\ Rating.rating r1 = u /\ Rating.rating r2 = v.
Proof.
  intros Hy. unfold tagged. rewrite in_map_iff. split.
  - intros (r1 & E & Hin). apply filter_In in Hin as [Hin Hr].
    unfold ratedIn in Hr. apply existsb_exists in Hr as (r2 & Hin2 & E2).
    apply String.eqb_eq in E2.
    injection E as E1 E3 E4.
    exists r1, r2. repeat split; try assumption; try congruence.
    unfold ratingIn in E4.
    rewrite <- E2 in E4. rewrite (find_movie_unique y r2 Hy Hin2) in E4. exact E4.
  - intros (r1 & r2 & H1 & H2 & E1 & E2 & E3 & E4).
    exists r1. split.
    + unfold ratingIn. replace (Rating.movieId r1) with (Rating.movieId r2) by congruence.
      rewrite (find_movie_unique y r2 Hy H2). congruence.
    + apply filter_In. split; [exact H1|].
      unfold ratedIn. apply existsb_exists. exists r2. split; [exact H2|].
      apply String.eqb_eq. congruence.
Qed.

Lemma NoDup_tagged (x y : list Rating.t) :
  List.NoDup (map Rating.movieId x) -> List.NoDup (tagged x y).
Proof.
  intros Hx. apply (List.NoDup_map_inv fst). unfold tagged. rewrite map_map. cbn [fst].
  induction x as [|r x IH]; simpl; [constructor|].
  inversion Hx as [|? ? Hr Hx']; subst.
  destruct (ratedIn y r); simpl.
  - constructor; [|apply IH; exact Hx'].
    intros Hin. apply Hr. apply in_map_iff in Hin as (r' & E & Hin').
    apply filter_In in Hin' as [Hin' _]. rewrite <- E. apply in_map. exact Hin'.
  - apply IH; exact Hx'.
Qed.

(** With one rating per movie on each side, both directions pair the same
    ratings. *)
Lemma tagged_symmetric (x y : list Rating.t) :
  List.NoDup (map Rating.movieId x) -> List.NoDup (map Rating.movieId y) ->
  Permutation (tagged x y) (map swapTagged (tagged y x)).
Proof.
  intros Hx Hy. apply Permutation.NoDup_Permutation.
  - apply NoDup_tagged; exact Hx.
  - apply Finite.Injective_map_NoDup; [|apply NoDup_tagged; exact Hy].
    intros [m [u v]] [m' [u' v']]. unfold swapTagged, swap. cbn. congruence.
  - intros [m [u v]]. rewrite (in_tagged x y m u v Hy).
    rewrite in_map_iff. split.
    + intros (r1 & r2 & H1 & H2 & E1 & E2 & E3 & E4).
      exists (m, (v, u)). split; [reflexivity|].
      apply (in_tagged y x m v u Hx). exists r2, r1. tauto.
    + intros ([m' [u' v']] & E & Hin). unfold swapTagged, swap in E. cbn in E.
      injection E as -> -> ->.
      apply (in_tagged y x m v u Hx) in Hin as (r2 & r1 & H2 & H1 & E2 & E1 & E4 & E3).
      exists r1, r2. tauto.
Qed.

(** C6.  For two rating vectors that hold at most one rating per movie,
    the similarity does not depend on the order of its arguments. *)
Theorem similarity_symmetric (a b : list Rating.t) :
  List.NoDup (map Rating.movieId a) -> List.NoDup (map Rating.movieId b) ->
  calculateUserSimilarity a b = calculateUserSimilarity b a.
Proof.
  intros Ha Hb. rewrite !calculateUserSimilarity_pearson, !sharedRatings_tagged.
  rewrite (pearson_perm _ _ (Permutation_map snd (tagged_symmetric a b Ha Hb))).
  rewrite map_map.
  replace (map (fun x => snd (swapTagged x)) (tagged b a))
    with (map swap (map snd (tagged b a)))
    by (rewrite map_map; reflexivity).
  apply pearson_swap.
Qed.

End Similarity.

(** The example of the specification: shared ratings [5, 5] against
    [5, 4] have a zero denominator and resolve to 0. *)
Lemma similarity_example_zero_variance :
  RecommendationEngine.calculateUserSimilarity exampleU1 exampleU2 = Num 0.
Proof.
  apply (proj2 (proj2 (similarity_total_and_bounded exampleU1 exampleU2))).
  left. unfold spreadX, Sxx, Sx, cnt. js_norm. lra.
Defined.

Lemma similarity_symmetric_example :
  List.NoDup (map Rating.movieId exampleU1)
  /\ List.NoDup (map Rating.movieId exampleU2)
  /\ RecommendationEngine.calculateUserSimilarity exampleU1 exampleU2
     = RecommendationEngine.calculateUserSimilarity exampleU2 exampleU1.
Proof.
  assert (H1 : List.NoDup (map Rating.movieId exampleU1)).
  { cbn. repeat constructor; cbn; intuition discriminate. }
  assert (H2 : List.NoDup (map Rating.movieId exampleU2)).
  { cbn. repeat constructor; cbn; intuition discriminate. }
  split; [exact H1|]. split; [exact H2|].
  apply (similarity_symmetric exampleU1 exampleU2 H1 H2).
Defined.

(** ** The collaborative recommender on concrete data *)

Section CollaborativeExamples.
Import RecommendationEngine.

Lemma agree_similarity :
  calculateUserSimilarity
    (List.filter (fun r => String.eqb (Rating.userId r) "u1") (ratings agreeDb))
    (List.filter (fun r => String.eqb (Rating.userId r) "u2") (ratings agreeDb))
  = Num 1.
Proof.
  unfold calculateUserSimilarity. js_eval.
  js_sqrt (1 / 2)%R.
  js_eval. f_equal. lra.
Qed.

Lemma agree_neighbours :
  findSimilarUsers "u1" (ratings agreeDb) (users agreeDb) = [ (User.mk "u2" "bob", Num 1) ].
Proof.
  pose proof agree_similarity as H.
  unfold findSimilarUsers.
  cbn [users agreeDb List.filter User.id String.eqb Ascii.eqb Bool.eqb negb map].
  cbn [users agreeDb List.filter User.id String.eqb Ascii.eqb Bool.eqb negb map] in H.
  rewrite H. js_eval. reflexivity.
Qed.

Lemma agree_collaborative (limit : Z) :
  (1 <= limit)%Z ->
  generateCollaborativeRecommendations agreeDb "u1" agreeMovies limit
  = [ {| movie := Movie.mk "m3" "Heat" ["crime"] 1995 None (Some 8.3%R) 3;
         score := Num 5;
         reason := "Recommended by 1 similar user" |} ].
Proof.
  intros Hl.
  unfold generateCollaborativeRecommendations, getAllRatings, getAllUsers.
  rewrite agree_neighbours.
  unfold getRecommendationsFromSimilarUsers. js_eval.
  replace ((0 + 5 * 1) / 1)%R with 5%R by lra.
  rewrite slice0_nonneg by lia.
  destruct (Z.to_nat limit) as [|n] eqn:E; [lia|].
  cbn [firstn]. rewrite firstn_nil. reflexivity.
Qed.

(** C1.  The subject u1 and the neighbour u2 rated m1 and m2 alike, so
    their similarity is 1; u2 liked m3 with 5 stars, and the collaborative
    recommender returns m3 with the score 5 * 1 / 1 = 5, outside [0, 1]. *)
Theorem collaborative_score_above_one :
  generateCollaborativeRecommendations agreeDb "u1" agreeMovies 10
  = [ {| movie := Movie.mk "m3" "Heat" ["crime"] 1995 None (Some 8.3%R) 3;
         score := Num 5;
         reason := "Recommended by 1 similar user" |} ].
Proof.
  unfold generateCollaborativeRecommendations, getAllRatings, getAllUsers.
  rewrite agree_neighbours.
  unfold getRecommendationsFromSimilarUsers. js_eval.
  replace ((0 + 5 * 1) / 1)%R with 5%R by lra. reflexivity.
Qed.

Lemma strangers_neighbours :
  findSimilarUsers "u1" (ratings strangersDb) (users strangersDb) = [].
Proof.
  unfold findSimilarUsers, calculateUserSimilarity. js_eval. reflexivity.
Qed.

(** C4.  The subject u1 has a rating but shares a single movie with the
    only other subject, so nobody passes the 0.3 threshold: the
    collaborative recommender returns the empty list, although the
    popularity fallback over the same catalog is not empty. *)
Theorem collaborative_no_neighbours_empty :
  List.filter (fun r => String.eqb (Rating.userId r) "u1") (ratings strangersDb) <> []
  /\ findSimilarUsers "u1" (ratings strangersDb) (users strangersDb) = []
  /\ generateCollaborativeRecommendations strangersDb "u1" strangersMovies 10 = []
  /\ length (getPopularMovies strangersMovies 10) = 3%nat.
Proof.
  split; [cbn; discriminate|]. split; [exact strangers_neighbours|]. split.
  - unfold generateCollaborativeRecommendations, getAllRatings, getAllUsers.
    rewrite strangers_neighbours. reflexivity.
  - unfold getPopularMovies. js_eval. reflexivity.
Qed.

(** Whatever the data, no neighbour means no recommendation. *)
Lemma collaborative_without_neighbours (db : Database) (targetUserId : string)
    (allMovies : list Movie.t) (limit : Z) :
  List.filter (fun r => String.eqb (Rating.userId r) targetUserId) (ratings db) <> [] ->
  findSimilarUsers targetUserId (ratings db) (users db) = [] ->
  generateCollaborativeRecommendations db targetUserId allMovies limit = [].
Proof.
  intros Hr Hn. unfold generateCollaborativeRecommendations, getAllRatings, getAllUsers.
  destruct (List.filter _ (ratings db)) as [|r l] eqn:E; [contradiction|].
  cbn [length Nat.eqb]. rewrite Hn.
  unfold getRecommendationsFromSimilarUsers, tallyScores, scoredMovies.
  cbn [fold_left flat_map].
  unfold slice0, sort, sortBy. cbn. destruct (limit <? 0)%Z; rewrite ?firstn_nil; reflexivity.
Qed.

End CollaborativeExamples.

(** ** The popularity fallback *)

Section Popularity.
Import RecommendationEngine.
Local Open Scope R_scope.

Lemma mapi_from_map {A B : Type} (f : A -> nat -> B) (g : B -> A) (i : nat) (l : list A) :
  (forall x k, g (f x k) = x) -> map g (mapi_from i f l) = l.
Proof.
  intros H. revert i. induction l as [|x l IH]; intros i; simpl; [reflexivity|].
  rewrite H, IH. reflexivity.
Qed.

Lemma mapi_from_length {A B : Type} (f : A -> nat -> B) (i : nat) (l : list A) :
  length (mapi_from i f l) = length l.
Proof. revert i. induction l as [|x l IH]; intros i; simpl; [reflexivity|]. now rewrite IH. Qed.

Lemma mapi_from_nth {A B : Type} (f : A -> nat -> B) (i k : nat) (l : list A) (y : B) :
  nth_error (mapi_from i f l) k = Some y ->
  exists x, nth_error l k = Some x /\ y = f x (i + k)%nat.
Proof.
  revert i k. induction l as [|x l IH]; intros i k H; destruct k; simpl in H; try discriminate.
  - injection H as <-. exists x. split; [reflexivity|]. now rewrite Nat.add_0_r.
  - apply IH in H as (x' & H1 & H2). exists x'. split; [exact H1|].
    rewrite H2. f_equal. lia.
Qed.


Lemma popular_movies (allMovies : list Movie.t) (limit : Z) :
  map movie (getPopularMovies allMovies limit)
  = slice0
      (sort (fun a b => (orZero (Movie.rating b) - orZero (Movie.rating a))%js)
         (List.filter qualifies allMovies))
      limit.
Proof.
  unfold getPopularMovies, mapi. apply mapi_from_map. reflexivity.
Qed.


(** From rank 17 on the score of the popularity list is negative; a
    catalog with 18 movies of quality 7 or more and a limit of 18 or more
    reaches that rank. *)
Lemma popularity_scores_turn_negative (allMovies : list Movie.t) (limit : Z) :
  (18 <= limit)%Z -> (18 <= length (List.filter qualifies allMovies))%nat ->
  exists r x, In r (getPopularMovies allMovies limit) /\ score r = Num x /\ x < 0.
Proof.
  intros Hl Hq.
  assert (Hlen : (17 < length (getPopularMovies allMovies limit))%nat).
  { unfold getPopularMovies, mapi.
    rewrite mapi_from_length, slice0_nonneg by lia.
    rewrite length_firstn. unfold sort. rewrite sortBy_length.
    change (List.filter _ allMovies) with (List.filter qualifies allMovies). lia. }
  destruct (nth_error (getPopularMovies allMovies limit) 17) as [r|] eqn:E.
  2:{ apply nth_error_None in E. lia. }
  exists r. pose proof (nth_error_In _ _ E) as Hin.
  unfold getPopularMovies, mapi in E. apply mapi_from_nth in E as (m & _ & ->).
  eexists. split; [exact Hin|]. split; [reflexivity|].
  change (Z.of_nat (0 + 17)) with 17%Z. lra.
Qed.

End Popularity.

(** ** The fusion of the two lists *)

Section Fusion.
Import RecommendationEngine.

Lemma map_get_set_eq {V : Type} (m : smap V) (k : string) (v : V) :
  map_get (map_set m k v) k = Some v.
Proof.
  induction m as [|[k' v'] m IH]; simpl.
  - rewrite String.eqb_refl. reflexivity.
  - destruct (String.eqb k' k) eqn:E; simpl; rewrite E; [reflexivity | exact IH].
Qed.

Lemma map_get_set_ne {V : Type} (m : smap V) (k k' : string) (v : V) :
  k <> k' -> map_get (map_set m k v) k' = map_get m k'.
Proof.
  intros Hne. induction m as [|[k0 v0] m IH]; simpl.
  - destruct (String.eqb k k') eqn:E; [apply String.eqb_eq in E; contradiction | reflexivity].
  - destruct (String.eqb k0 k) eqn:E; simpl.
    + apply String.eqb_eq in E. subst k0.
      destruct (String.eqb k k') eqn:E'; [apply String.eqb_eq in E'; contradiction | reflexivity].
    + destruct (String.eqb k0 k'); [reflexivity | exact IH].
Qed.

Lemma map_set_In {V : Type} (m : smap V) (k : string) (v : V) (k' : string) (v' : V) :
  In (k', v') (map_set m k v) -> (k' = k /\ v' = v) \/ In (k', v') m.
Proof.
  induction m as [|[k0 v0] m IH]; simpl.
  - intros [E|[]]. injection E as <- <-. left. split; reflexivity.
  - destruct (String.eqb k0 k) eqn:E; simpl.
    + apply String.eqb_eq in E. subst k0. intros [E'|H].
      * injection E' as <- <-. left. split; reflexivity.
      * right. right. exact H.
    + intros [E'|H]; [right; left; exact E'|].
      destruct (IH H) as [H'|H']; [left; exact H' | right; right; exact H'].
Qed.

Lemma map_get_In {V : Type} (m : smap V) (k : string) (v : V) :
  map_get m k = Some v -> In (k, v) m.
Proof.
  induction m as [|[k0 v0] m IH]; simpl; [discriminate|].
  destruct (String.eqb k0 k) eqn:E.
  - apply String.eqb_eq in E. subst k0. intros [= ->]. left. reflexivity.
  - intros H. right. apply IH. exact H.
Qed.

Lemma map_set_keys {V : Type} (m : smap V) (k : string) (v : V) :
  map fst (map_set m k v)
  = if existsb (String.eqb k) (map fst m) then map fst m else map fst m ++ [k].
Proof.
  induction m as [|[k0 v0] m IH]; simpl; [reflexivity|].
  destruct (String.eqb k0 k) eqn:E; simpl.
  - apply String.eqb_eq in E. subst k0. rewrite String.eqb_refl. reflexivity.
  - rewrite String.eqb_sym, E. simpl. rewrite IH.
    destruct (existsb (String.eqb k) (map fst m)); reflexivity.
Qed.

Lemma map_set_NoDup {V : Type} (m : smap V) (k : string) (v : V) :
  List.NoDup (map fst m) -> List.NoDup (map fst (map_set m k v)).
Proof.
  intros H. rewrite map_set_keys.
  destruct (existsb (String.eqb k) (map fst m)) eqn:E; [exact H|].
  apply List.NoDup_app; [exact H | repeat constructor; intros [] |].
  intros x Hx [Ex|[]]. subst x.
  assert (existsb (String.eqb k) (map fst m) = true); [|congruence].
  apply existsb_exists. exists k. split; [exact Hx | apply String.eqb_refl].
Qed.

Lemma map_get_unique {V : Type} (m : smap V) (k : string) (v : V) :
  List.NoDup (map fst m) -> In (k, v) m -> map_get m k = Some v.
Proof.
  induction m as [|[k0 v0] m IH]; simpl; intros Hnd Hin; [contradiction|].
  inversion Hnd as [|? ? Hk Hnd']; subst.
  destruct Hin as [E|Hin].
  - injection E as -> ->. rewrite String.eqb_refl. reflexivity.
  - destruct (String.eqb k0 k) eqn:E.
    + apply String.eqb_eq in E. subst k0. exfalso. apply Hk.
      change k with (fst (k, v)). apply in_map. exact Hin.
    + apply IH; assumption.
Qed.

Lemma wellKeyed_set (m : smap Recommendation) (v : Recommendation) :
  wellKeyed m -> wellKeyed (map_set m (recId v) v).
Proof.
  intros [Hnd Hk]. split; [apply map_set_NoDup; exact Hnd|].
  intros k' v' Hin. apply map_set_In in Hin as [[-> ->]|Hin]; [reflexivity | eauto].
Qed.

Lemma addCollaborative_wellKeyed (m : smap Recommendation) (rec : Recommendation) :
  wellKeyed m -> wellKeyed (addCollaborative m rec).
Proof.
  intros H. unfold addCollaborative.
  apply (wellKeyed_set m
           {| movie := movie rec; score := (score rec * Num 0.6)%js;
              reason := reason rec +:+ " (collaborative filtering)" |} H).
Qed.

Lemma addContentBased_wellKeyed (m : smap Recommendation) (rec : Recommendation) :
  wellKeyed m -> wellKeyed (addContentBased m rec).
Proof.
  intros H. unfold addContentBased.
  destruct (map_get m (Movie.id (movie rec))) as [existing|] eqn:E.
  - assert (Hid : Movie.id (movie rec) = recId existing).
    { apply (proj2 H). apply map_get_In. exact E. }
    rewrite Hid.
    apply (wellKeyed_set m
             {| movie := movie existing;
                score := ((score existing + score rec * Num 0.4) / Num 1.4)%js;
                reason := reason existing +:+ " + content similarity" |} H).
  - apply (wellKeyed_set m
             {| movie := movie rec; score := (score rec * Num 0.4)%js;
                reason := reason rec +:+ " (content-based)" |} H).
Qed.

Lemma combine_wellKeyed (cs ks : list Recommendation) : wellKeyed (combine cs ks).
Proof.
  unfold combine.
  assert (H0 : wellKeyed (fold_left addCollaborative cs [])).
  { assert (G : forall m, wellKeyed m -> wellKeyed (fold_left addCollaborative cs m)).
    { induction cs as [|c cs IH]; intros m Hm; simpl; [exact Hm|].
      apply IH, addCollaborative_wellKeyed, Hm. }
    apply G. split; [constructor | intros ? ? []]. }
  revert H0. generalize (fold_left addCollaborative cs []).
  induction ks as [|k ks IH]; intros m Hm; simpl; [exact Hm|].
  apply IH, addContentBased_wellKeyed, Hm.
Qed.

(** Each step touches the entry of its own movie only. *)
Lemma addCollaborative_other (m : smap Recommendation) (rec : Recommendation) (key : string) :
  recId rec <> key -> map_get (addCollaborative m rec) key = map_get m key.
Proof. intros H. unfold addCollaborative. apply map_get_set_ne. exact H. Qed.

Lemma addContentBased_other (m : smap Recommendation) (rec : Recommendation) (key : string) :
  recId rec <> key -> map_get (addContentBased m rec) key = map_get m key.
Proof.
  intros H. unfold addContentBased.
  destruct (map_get m (Movie.id (movie rec))); apply map_get_set_ne; exact H.
Qed.

Lemma fold_addCollaborative_other (cs : list Recommendation) (m : smap Recommendation)
    (key : string) :
  ~ In key (map recId cs) ->
  map_get (fold_left addCollaborative cs m) key = map_get m key.
Proof.
  revert m. induction cs as [|c cs IH]; intros m Hn; simpl; [reflexivity|].
  rewrite IH by (intros H; apply Hn; right; exact H).
  apply addCollaborative_other. intros E. apply Hn. left. exact E.
Qed.

Lemma fold_addContentBased_other (ks : list Recommendation) (m : smap Recommendation)
    (key : string) :
  ~ In key (map recId ks) ->
  map_get (fold_left addContentBased ks m) key = map_get m key.
Proof.
  revert m. induction ks as [|k ks IH]; intros m Hn; simpl; [reflexivity|].
  rewrite IH by (intros H; apply Hn; right; exact H).
  apply addContentBased_other. intros E. apply Hn. left. exact E.
Qed.

Lemma fold_addCollaborative_get (cs : list Recommendation) (m : smap Recommendation)
    (c : Recommendation) :
  List.NoDup (map recId cs) -> In c cs ->
  map_get (fold_left addCollaborative cs m) (recId c)
  = Some {| movie := movie c; score := (score c * Num 0.6)%js;
            reason := reason c +:+ " (collaborative filtering)" |}.
Proof.
  revert m. induction cs as [|x cs IH]; intros m Hnd Hin; [contradiction|].
  simpl in Hnd. inversion Hnd as [|? ? Hx Hnd']; subst. simpl.
  destruct Hin as [->|Hin].
  - rewrite fold_addCollaborative_other by exact Hx.
    unfold addCollaborative. apply map_get_set_eq.
  - apply IH; assumption.
Qed.

Lemma fold_addContentBased_get (ks : list Recommendation) (m : smap Recommendation)
    (k existing : Recommendation) :
  List.NoDup (map recId ks) -> In k ks ->
  map_get m (recId k) = Some existing ->
  map_get (fold_left addContentBased ks m) (recId k)
  = Some {| movie := movie existing;
            score := ((score existing + score k * Num 0.4) / Num 1.4)%js;
            reason := reason existing +:+ " + content similarity" |}.
Proof.
  revert m. induction ks as [|x ks IH]; intros m Hnd Hin Hget; [contradiction|].
  simpl in Hnd. inversion Hnd as [|? ? Hx Hnd']; subst. simpl.
  destruct Hin as [->|Hin].
  - rewrite fold_addContentBased_other by exact Hx.
    unfold addContentBased. fold (recId k). rewrite Hget. apply map_get_set_eq.
  - apply IH; [assumption..|].
    rewrite addContentBased_other; [exact Hget|].
    intros E. apply Hx. rewrite E. apply in_map. exact Hin.
Qed.

(** The entry of an item that both lists name, as the code computes it. *)
Lemma combine_shared_entry (collaborativeRecs contentBasedRecs : list Recommendation)
    (c k : Recommendation) :
  List.NoDup (map recId collaborativeRecs) ->
  List.NoDup (map recId contentBasedRecs) ->
  In c collaborativeRecs -> In k contentBasedRecs -> recId c = recId k ->
  map_get (combine collaborativeRecs contentBasedRecs) (recId c) = Some (mergedEntry c k).
Proof.
  intros Hcs Hks Hc Hk Hid.
  unfold combine. rewrite Hid.
  rewrite (fold_addContentBased_get contentBasedRecs _ k
             {| movie := movie c; score := (score c * Num 0.6)%js;
                reason := reason c +:+ " (collaborative filtering)" |} Hks Hk).
  - reflexivity.
  - rewrite <- Hid. apply fold_addCollaborative_get; assumption.
Qed.

(** C2 (amended).  When the collaborative list and the content list both
    name an item (each list naming no item twice), the fusion holds one
    entry for it: the collaborative movie, with the reason of the
    collaborative entry followed by " (collaborative filtering)" and
    " + content similarity"; the reason of the content entry is not part of
    it.  Every entry of the hybrid output for that item is of this kind.
    Nothing is said of its score. *)
Theorem hybrid_merges_shared_item (db : Database) (targetUserId : string)
    (allMovies : list Movie.t) (limit : Z) (c k : Recommendation) :
  let collaborativeRecs :=
    generateCollaborativeRecommendations db targetUserId allMovies
      (Math_ceil (of_Z limit * Num 0.6)) in
  let contentBasedRecs :=
    generateContentBasedRecommendations db targetUserId allMovies
      (Math_ceil (of_Z limit * Num 0.4)) in
  List.NoDup (map recId collaborativeRecs) ->
  List.NoDup (map recId contentBasedRecs) ->
  In c collaborativeRecs -> In k contentBasedRecs -> recId c = recId k ->
  (exists r, map_get (combine collaborativeRecs contentBasedRecs) (recId c) = Some r
             /\ movie r = movie c /\ reason r = mergedReason c)
  /\ forall r, In r (generateHybridRecommendations db targetUserId allMovies limit) ->
               recId r = recId c -> movie r = movie c /\ reason r = mergedReason c.
Proof.
  intros cs ks Hcs Hks Hc Hk Hid.
  pose proof (combine_shared_entry cs ks c k Hcs Hks Hc Hk Hid) as Hget.
  split; [exists (mergedEntry c k); split; [exact Hget | split; reflexivity]|].
  intros r Hr Hrid.
  unfold generateHybridRecommendations in Hr. fold cs ks in Hr.
  destruct (slice0_firstn
              (sort (fun a b => (score b - score a)%js) (map_values (combine cs ks)))
              limit) as [n Hn].
  rewrite Hn in Hr. apply In_firstn in Hr.
  unfold sort in Hr. apply (proj1 (sortBy_In _ _ _)) in Hr.
  unfold map_values in Hr. apply in_map_iff in Hr as ([key v] & Ev & Hin).
  cbn in Ev. subst v.
  destruct (combine_wellKeyed cs ks) as [Hnd Hkey].
  pose proof (Hkey key r Hin) as ->.
  pose proof (map_get_unique _ _ _ Hnd Hin) as Hg.
  rewrite Hrid, Hget in Hg. injection Hg as <-. split; reflexivity.
Qed.

End Fusion.

(** ** The scores of the collaborative recommender *)

Section CollaborativeScores.
Import RecommendationEngine.
Local Open Scope R_scope.

(** Every neighbour passed the threshold with a similarity that is a
    number. *)
Lemma findSimilarUsers_above (targetUserId : string) (allRatings : list Rating.t)
    (allUsers : list User.t) :
  Forall aboveThreshold (findSimilarUsers targetUserId allRatings allUsers).
Proof.
  apply List.Forall_forall. intros item Hin. unfold findSimilarUsers in Hin.
  match type of Hin with In _ (slice0 ?l ?e) => destruct (slice0_firstn l e) as [n Hn] end.
  rewrite Hn in Hin. apply In_firstn in Hin.
  unfold sort in Hin. apply (proj1 (sortBy_In _ _ _)) in Hin.
  apply filter_In in Hin as [_ Hgt].
  unfold aboveThreshold. unfold gtb, ltb in Hgt.
  destruct (snd item) as [s|]; [|discriminate].
  destruct (Rlt_dec 0.3 s); [|discriminate]. exists s. split; [reflexivity | assumption].
Qed.

(** One contribution keeps every sum above 1.2 times its count: the
    rating is at least 4 and the similarity above 0.3. *)
Lemma tally_step (m : smap Tally) (rating : Rating.t) (s : R) :
  (forall k t, In (k, t) m -> tallyAbove t) ->
  4 <= Rating.rating rating -> 0.3 < s ->
  forall k t,
    In (k, t)
      (map_set m (Rating.movieId rating)
         {| t_score :=
              (t_score match map_get m (Rating.movieId rating) with
                       | Some c => c
                       | None => {| t_score := Num 0; t_count := 0 |}
                       end
               + Num (Rating.rating rating) * Num s)%js;
            t_count :=
              (t_count match map_get m (Rating.movieId rating) with
                       | Some c => c
                       | None => {| t_score := Num 0; t_count := 0 |}
                       end + 1)%nat |}) ->
    tallyAbove t.
Proof.
  intros Hm Hr Hs k t Hin. apply map_set_In in Hin as [[_ ->]|Hin]; [|eauto].
  destruct (map_get m (Rating.movieId rating)) as [c|] eqn:E.
  - apply map_get_In in E. destruct (Hm _ _ E) as (x & Hx & Hc & Hlt).
    exists (x + Rating.rating rating * s). cbn [t_score t_count]. rewrite Hx.
    split; [reflexivity|]. split; [lia|].
    rewrite Nat2Z.inj_add, plus_IZR. change (IZR (Z.of_nat 1)) with 1. nra.
  - exists (0 + Rating.rating rating * s). cbn [t_score t_count].
    split; [reflexivity|]. split; [lia|].
    change (IZR (Z.of_nat (0 + 1))) with 1. nra.
Qed.

Lemma tallyScores_above (targetUserId : string) (similarUsers : list (User.t * number))
    (allRatings : list Rating.t) :
  Forall aboveThreshold similarUsers ->
  forall k t, In (k, t) (tallyScores targetUserId similarUsers allRatings) -> tallyAbove t.
Proof.
  intros Hsim. unfold tallyScores.
  set (watched := map Rating.movieId _).
  assert (G : forall m, (forall k t, In (k, t) m -> tallyAbove t) ->
              forall k t,
                In (k, t)
                  (fold_left
                     (fun movieScores '(user, similarity) =>
                        fold_left
                          (fun movieScores rating =>
                             map_set movieScores (Rating.movieId rating)
                               {| t_score :=
                                    (t_score match map_get movieScores (Rating.movieId rating) with
                                             | Some c => c
                                             | None => {| t_score := Num 0; t_count := 0 |}
                                             end
                                     + Num (Rating.rating rating) * similarity)%js;
                                  t_count :=
                                    (t_count match map_get movieScores (Rating.movieId rating) with
                                             | Some c => c
                                             | None => {| t_score := Num 0; t_count := 0 |}
                                             end + 1)%nat |})
                          (List.filter
                             (fun r => String.eqb (Rating.userId r) (User.id user)
                                       && Rating.liked r
                                       && (Num (Rating.rating r) >= Num 4)%js
                                       && negb (includes watched (Rating.movieId r)))
                             allRatings)
                          movieScores)
                     similarUsers m) ->
                tallyAbove t).
  { induction Hsim as [|[user sim] l (s & Hs & Hs3) Hl IH]; intros m Hm; [exact Hm|].
    cbn [fold_left]. apply IH. cbn [snd] in Hs. subst sim.
    clear IH Hl.
    set (rs := List.filter _ allRatings).
    assert (Hrs : forall r, In r rs -> 4 <= Rating.rating r).
    { intros r Hr. apply filter_In in Hr as [_ Hr].
      apply andb_prop in Hr as [Hr _]. apply andb_prop in Hr as [_ Hr].
      unfold geb, leb in Hr. destruct (Rle_dec 4 (Rating.rating r)); [assumption|discriminate]. }
    clearbody rs. revert m Hm.
    induction rs as [|r rs IHr]; intros m Hm; [exact Hm|].
    cbn [fold_left]. apply IHr.
    - intros r' Hr'. apply Hrs. right. exact Hr'.
    - apply tally_step; [exact Hm | apply Hrs; left; reflexivity | exact Hs3]. }
  apply G. intros k t [].
Qed.

Lemma scoredMovies_above (m : smap Tally) (allMovies : list Movie.t) (r : Recommendation) :
  (forall k t, In (k, t) m -> tallyAbove t) ->
  In r (scoredMovies m allMovies) -> exists x, score r = Num x /\ 1.2 < x.
Proof.
  intros Hm Hr. unfold scoredMovies in Hr. apply in_flat_map in Hr as ([k t] & Hin & Hr).
  destruct (find _ allMovies) as [movie|]; [|contradiction].
  destruct Hr as [<-|[]]. cbn [score].
  destruct (Hm k t Hin) as (x & Hx & Hc & Hlt).
  rewrite Hx. unfold of_nat, div.
  assert (Hpos : 1 <= IZR (Z.of_nat (t_count t))) by (apply IZR_le; lia).
  destruct (Req_dec_T (IZR (Z.of_nat (t_count t))) 0) as [E|_]; [lra|].
  eexists. split; [reflexivity|].
  apply Rmult_lt_reg_r with (IZR (Z.of_nat (t_count t))); [lra|].
  unfold Rdiv. rewrite Rmult_assoc, Rinv_l by lra. lra.
Qed.

Lemma collaborativeCandidates_above (db : Database) (targetUserId : string)
    (allMovies : list Movie.t) (r : Recommendation) :
  In r (collaborativeCandidates db targetUserId allMovies) ->
  exists x, score r = Num x /\ 1.2 < x.
Proof.
  unfold collaborativeCandidates. apply scoredMovies_above.
  apply tallyScores_above, findSimilarUsers_above.
Qed.

Lemma collaborativeCandidates_numeric (db : Database) (targetUserId : string)
    (allMovies : list Movie.t) :
  Forall numeric (collaborativeCandidates db targetUserId allMovies).
Proof.
  apply List.Forall_forall. intros r Hr.
  destruct (collaborativeCandidates_above db targetUserId allMovies r Hr) as (x & Hx & _).
  unfold numeric. rewrite Hx. discriminate.
Qed.

End CollaborativeScores.

Section FusionExamples.
Import RecommendationEngine.

Lemma ceil_10_06 : Math_ceil (of_Z 10 * Num 0.6) = 6%Z.
Proof. cbn. apply Zceil_eq. lra. Qed.

Lemma ceil_10_04 : Math_ceil (of_Z 10 * Num 0.4) = 4%Z.
Proof. cbn. apply Zceil_eq. lra. Qed.

Lemma agree_collaborative_part :
  generateCollaborativeRecommendations agreeDb "u1" agreeMovies
    (Math_ceil (of_Z 10 * Num 0.6))
  = [agreeCollab].
Proof. rewrite ceil_10_06. apply agree_collaborative. lia. Qed.

Lemma agree_content_part :
  generateContentBasedRecommendations agreeDb "u1" agreeMovies
    (Math_ceil (of_Z 10 * Num 0.4))
  = [agreeContent].
Proof.
  rewrite ceil_10_04.
  unfold generateContentBasedRecommendations, getUserRatings, getMovieById.
  js_eval.
  unfold calculateContentSimilarity, generateContentReason. js_eval.
  replace ((0 + (0 + 0 / 2 * 0.5 + 0.1 + 0.15) + (0 + 0 / 2 * 0.5 + 0.15)) / 2)%R
    with 0.2%R by lra.
  reflexivity.
Qed.

Lemma agree_hybrid :
  generateHybridRecommendations agreeDb "u1" agreeMovies 10
  = [ {| movie := heat;
         score := Num 2.2;
         reason := "Recommended by 1 similar user (collaborative filtering) + content similarity" |} ].
Proof.
  unfold generateHybridRecommendations.
  rewrite agree_collaborative_part, agree_content_part.
  unfold combine. js_eval.
  replace ((5 * 0.6 + 0.2 * 0.4) / 1.4)%R with 2.2%R by lra.
  reflexivity.
Qed.

(** C2 as stated fails.  For the subject u1 of [agreeDb] both lists name
    the movie m3, with the scores 5 and 0.2.  The specification expects
    (5 * 0.6 + 0.2 * 0.4) / 1.0 = 3.08 and a reason made of both reasons;
    the hybrid output carries 2.2, and the reason of the content entry
    does not occur in its reason. *)
Lemma hybrid_shared_item_not_as_specified :
  generateCollaborativeRecommendations agreeDb "u1" agreeMovies
    (Math_ceil (of_Z 10 * Num 0.6)) = [agreeCollab]
  /\ generateContentBasedRecommendations agreeDb "u1" agreeMovies
       (Math_ceil (of_Z 10 * Num 0.4)) = [agreeContent]
  /\ exists h, generateHybridRecommendations agreeDb "u1" agreeMovies 10 = [h]
       /\ recId h = recId agreeCollab
       /\ specifiedScore agreeCollab agreeContent = Num 3.08
       /\ score h = Num 2.2
       /\ score h <> specifiedScore agreeCollab agreeContent
       /\ String.index 0 (reason agreeContent) (reason h) = None.
Proof.
  split; [exact agree_collaborative_part|]. split; [exact agree_content_part|].
  eexists. split; [exact agree_hybrid|].
  assert (S : specifiedScore agreeCollab agreeContent = Num 3.08).
  { unfold specifiedScore. js_eval. f_equal. lra. }
  split; [reflexivity|]. split; [exact S|]. split; [reflexivity|]. split.
  - rewrite S. cbn. intros E. injection E as E. lra.
  - reflexivity.
Qed.

Lemma hybrid_merges_shared_item_example :
  exists r,
    map_get
      (combine
         (generateCollaborativeRecommendations agreeDb "u1" agreeMovies
            (Math_ceil (of_Z 10 * Num 0.6)))
         (generateContentBasedRecommendations agreeDb "u1" agreeMovies
            (Math_ceil (of_Z 10 * Num 0.4))))
      (recId agreeCollab)
    = Some r
    /\ movie r = movie agreeCollab /\ reason r = mergedReason agreeCollab.
Proof.
  refine (proj1 (hybrid_merges_shared_item agreeDb "u1" agreeMovies 10
                   agreeCollab agreeContent _ _ _ _ _)).
  - rewrite agree_collaborative_part. repeat constructor. intros [].
  - rewrite agree_content_part. repeat constructor. intros [].
  - rewrite agree_collaborative_part. left. reflexivity.
  - rewrite agree_content_part. left. reflexivity.
  - reflexivity.
Defined.

End FusionExamples.

(** ** The order of the ranked outputs *)

Section Ranking.
Import RecommendationEngine.
Local Open Scope R_scope.

Lemma score_before_key (x y : Recommendation) :
  numeric x -> numeric y ->
  (gtb (score y - score x)%js (Num 0) = true <-> scoreOf x < scoreOf y).
Proof.
  unfold numeric, scoreOf, gtb, ltb, sub.
  destruct (score x) as [a|], (score y) as [b|]; try congruence. intros _ _.
  destruct (Rlt_dec 0 (b - a)); split; intros; try discriminate; try reflexivity; lra.
Qed.

Lemma rankByScore_descending (candidates : list Recommendation) (limit : Z) :
  Forall numeric candidates ->
  StronglySorted (fun a b => scoreOf a >= scoreOf b) (rankByScore candidates limit).
Proof.
  intros Hnum. unfold rankByScore.
  destruct (slice0_firstn (sort (fun a b => (score b - score a)%js) candidates) limit)
    as [n ->].
  apply StronglySorted_firstn. unfold sort.
  apply (sortBy_sorted _ scoreOf numeric); [|exact Hnum].
  intros x y Hx Hy. apply (score_before_key x y Hx Hy).
Qed.

Lemma hasScore_scoreOf (k : R) (r : Recommendation) :
  hasScore k r = true -> scoreOf r = k.
Proof.
  unfold hasScore, scoreOf, eqb. destruct (score r) as [x|]; [|discriminate].
  destruct (Req_dec_T x k); [auto | discriminate].
Qed.

Lemma rankByScore_stable (candidates : list Recommendation) (limit : Z) (k : R) :
  Forall numeric candidates ->
  exists rest,
    List.filter (hasScore k) candidates
    = List.filter (hasScore k) (rankByScore candidates limit) ++ rest.
Proof.
  intros Hnum. unfold rankByScore.
  destruct (slice0_firstn (sort (fun a b => (score b - score a)%js) candidates) limit)
    as [n ->].
  destruct (filter_firstn_prefix (hasScore k) n
              (sort (fun a b => (score b - score a)%js) candidates)) as [rest Hrest].
  exists rest. rewrite <- Hrest. unfold sort. symmetry.
  apply (sortBy_stable _ scoreOf numeric); [|exact Hnum|].
  - intros x y Hx Hy. apply (score_before_key x y Hx Hy).
  - intros x y _ _ Hx Hy.
    rewrite (hasScore_scoreOf k x Hx), (hasScore_scoreOf k y Hy). reflexivity.
Qed.

(** C7 (amended).  The collaborative recommender (for a subject with
    ratings), the content recommender (for a subject with liked movies)
    and the fusion return their candidates ranked by [rankByScore].  When
    no candidate score is [NaN], as is always the case for the
    collaborative candidates, the ranked output is in descending order of
    score, and the entries of one score keep the order they have among the
    candidates: first contribution for the collaborative, catalog order
    for the content recommender, merge order for the fusion.  The identity
    of the items plays no part. *)
Theorem ranked_outputs_descending_and_stable (db : Database) (targetUserId : string)
    (allMovies : list Movie.t) (limit : Z) :
  (List.filter (fun r => String.eqb (Rating.userId r) targetUserId) (ratings db) <> [] ->
     generateCollaborativeRecommendations db targetUserId allMovies limit
     = rankByScore (collaborativeCandidates db targetUserId allMovies) limit)
  /\ (likedMoviesOf db targetUserId <> [] ->
        generateContentBasedRecommendations db targetUserId allMovies limit
        = rankByScore (contentCandidates db targetUserId allMovies) limit)
  /\ generateHybridRecommendations db targetUserId allMovies limit
     = rankByScore (hybridCandidates db targetUserId allMovies limit) limit
  /\ Forall numeric (collaborativeCandidates db targetUserId allMovies)
  /\ forall candidates, Forall numeric candidates ->
       StronglySorted (fun a b => scoreOf a >= scoreOf b) (rankByScore candidates limit)
       /\ forall k, exists rest,
            List.filter (hasScore k) candidates
            = List.filter (hasScore k) (rankByScore candidates limit) ++ rest.
Proof.
  split; [|split; [|split; [|split]]].
  - intros Hr. unfold generateCollaborativeRecommendations, getAllRatings.
    destruct (List.filter _ (ratings db)) as [|r l]; [contradiction|]. reflexivity.
  - intros Hl. unfold generateContentBasedRecommendations.
    fold (likedMoviesOf db targetUserId).
    destruct (likedMoviesOf db targetUserId) as [|m l] eqn:E; [contradiction|].
    unfold contentCandidates. rewrite E. reflexivity.
  - reflexivity.
  - apply collaborativeCandidates_numeric.
  - intros candidates Hnum. split.
    + apply rankByScore_descending. exact Hnum.
    + intros k. apply rankByScore_stable. exact Hnum.
Qed.

Lemma tie_content :
  generateContentBasedRecommendations tieDb "u1" tieCatalog 10
  = [ tieEntry "b" 3; tieEntry "a" 2; tieEntry "c" 1 ].
Proof.
  unfold generateContentBasedRecommendations, getUserRatings, getMovieById.
  js_eval.
  unfold calculateContentSimilarity, generateContentReason. js_eval.
  replace ((0 + (0 + 1 / 1 * 0.5 + 0.15)) / 1) with 0.65 by lra.
  js_eval. reflexivity.
Qed.

(** C7 as stated fails.  Three candidates of the content recommender tie
    at 0.65; they come out in the catalog order b, a, c, which is neither
    the ascending nor the descending order of their identities. *)
Lemma ties_not_in_identity_order :
  ~ tiesAscendingById (generateContentBasedRecommendations tieDb "u1" tieCatalog 10)
  /\ ~ tiesDescendingById (generateContentBasedRecommendations tieDb "u1" tieCatalog 10).
Proof.
  rewrite tie_content. split; intros H.
  - apply (H 0%nat 1%nat (tieEntry "b" 3) (tieEntry "a" 2)); try reflexivity. lia.
  - apply (H 1%nat 2%nat (tieEntry "a" 2) (tieEntry "c" 1)); try reflexivity. lia.
Qed.

Lemma ranked_outputs_example :
  likedMoviesOf tieDb "u1" <> []
  /\ generateContentBasedRecommendations tieDb "u1" tieCatalog 10
     = rankByScore (contentCandidates tieDb "u1" tieCatalog) 10.
Proof.
  assert (H : likedMoviesOf tieDb "u1" <> []).
  { unfold likedMoviesOf, getUserRatings, getMovieById. js_eval. discriminate. }
  split; [exact H|].
  exact (proj1 (proj2 (ranked_outputs_descending_and_stable tieDb "u1" tieCatalog 10)) H).
Defined.

End Ranking.

(** ** The recommendation route *)

Section RouteFacts.
Import Route.
Variable StringToNumber : string -> number.
Variable currentYear : Z.
Variable AIService_generateRecommendations :
  list Rating.t -> list Movie.t -> list Movie.t -> list Recommendation.
Variable zodErrors : smap raw -> string.

Lemma zAlgorithm_known (v : processed) (s : string) :
  zAlgorithm v = Some s -> v = PString s /\ In s knownStrategies.
Proof.
  unfold zAlgorithm. destruct v as [x|b|t|l|]; try discriminate.
  destruct (includes _ t) eqn:E; [|discriminate]. intros [= ->]. split; [reflexivity|].
  unfold includes in E. apply existsb_exists in E as (k & Hk & Ek).
  apply String.eqb_eq in Ek. subst k. exact Hk.
Qed.

Lemma processValue_string (v : raw) (s : string) :
  processValue StringToNumber v = PString s -> v = RawString s.
Proof.
  destruct v as [t|l|]; cbn; try discriminate.
  destruct (StringToNumber t); [discriminate|].
  destruct (String.eqb t "true"); [discriminate|].
  destruct (String.eqb t "false"); [discriminate|].
  intros [= ->]. reflexivity.
Qed.

Lemma unknown_strategy_rejected (q : smap raw) (v : raw) :
  map_get q "algorithm" = Some v ->
  (forall s, In s knownStrategies -> v <> RawString s) ->
  parseSchema StringToNumber currentYear q = None.
Proof.
  intros Hq Hv. unfold parseSchema, processQuery. rewrite Hq. cbn [option_map optionalField].
  destruct (zAlgorithm (processValue StringToNumber v)) as [s|] eqn:E; [|reflexivity].
  apply zAlgorithm_known in E as [E Hin].
  apply processValue_string in E. exfalso. exact (Hv s Hin E).
Qed.

Lemma non_positive_limit_rejected (q : smap raw) (s : string) (x : R) :
  map_get q "limit" = Some (RawString s) ->
  StringToNumber s = Num x -> (x <= 0)%R ->
  parseSchema StringToNumber currentYear q = None.
Proof.
  intros Hq Hs Hx. unfold parseSchema, processQuery. rewrite Hq.
  cbn [option_map optionalField processValue]. rewrite Hs.
  assert (E : zInt (Some 1%Z) (Some 50%Z) (PNumber x) = None).
  { unfold zInt. destruct (Req_dec_T x (IZR (Zfloor x))) as [Ex|]; [|reflexivity].
    assert (Hz : (Zfloor x <= 0)%Z).
    { apply le_IZR. rewrite <- Ex. exact Hx. }
    destruct (Z.leb_spec 1 (Zfloor x)); [lia | reflexivity]. }
  rewrite E.
  destruct (optionalField zAlgorithm _); reflexivity.
Qed.

(** C8.  A request that names an unknown strategy, or whose limit is a
    number not above zero, does not pass the validation of the route: no
    recommendation list is produced for it under any strategy, and once
    the rate limiter and the authentication have let it through it is
    answered with status 400. *)
Theorem invalid_request_rejected (db : Database) (req : Request) :
  unknownStrategy req \/ nonPositiveLimit StringToNumber req ->
  parseSchema StringToNumber currentYear (query req) = None
  /\ (forall data message,
        handle StringToNumber currentYear AIService_generateRecommendations zodErrors db req
        <> Success data message)
  /\ (rateLimited req = false ->
      forall user, auth req = Authenticated user ->
        handle StringToNumber currentYear AIService_generateRecommendations zodErrors db req
        = Failure 400 ("Query validation failed: " +:+ zodErrors (query req))).
Proof.
  intros H.
  assert (P : parseSchema StringToNumber currentYear (query req) = None).
  { destruct H as [(v & Hq & Hv) | (s & x & Hq & Hs & Hx)].
    - exact (unknown_strategy_rejected _ v Hq Hv).
    - exact (non_positive_limit_rejected _ s x Hq Hs Hx). }
  split; [exact P|]. split.
  - intros data message. unfold handle. rewrite P.
    destruct (rateLimited req); [discriminate|].
    destruct (auth req); discriminate.
  - intros Hrl user Hauth. unfold handle. rewrite Hrl, Hauth, P. reflexivity.
Qed.

(** The controller by itself has no such check: handed an unknown
    strategy it falls into the [default] case of its [switch] and answers
    with the hybrid list. *)
Lemma controller_defaults_to_hybrid (db : Database) (user : User.t) (q : Query)
    (algorithm : string) :
  q_algorithm q = Some algorithm ->
  ~ In algorithm ["collaborative"; "content"; "ai"] ->
  exists message,
    getRecommendations AIService_generateRecommendations db (Some user) q
    = Success
        (RecommendationEngine.generateHybridRecommendations db (User.id user) (getMovies db)
           (match q_limit q with Some l => l | None => 10%Z end))
        message.
Proof.
  intros Hq Hn. unfold getRecommendations. rewrite Hq.
  destruct (String.eqb algorithm "collaborative") eqn:E1.
  { apply String.eqb_eq in E1. exfalso. apply Hn. left. auto. }
  destruct (String.eqb algorithm "content") eqn:E2.
  { apply String.eqb_eq in E2. exfalso. apply Hn. right. left. auto. }
  destruct (String.eqb algorithm "ai") eqn:E3.
  { apply String.eqb_eq in E3. exfalso. apply Hn. right. right. left. auto. }
  eexists. reflexivity.
Qed.

End RouteFacts.

Lemma invalid_request_rejected_example :
  unknownStrategy popularRequest
  /\ Route.parseSchema (fun _ => NaN) 2025 (Route.query popularRequest) = None.
Proof.
  assert (H : unknownStrategy popularRequest).
  { exists (Route.RawString "popular"). split; [reflexivity|].
    intros s Hs E. injection E as <-.
    cbn in Hs. intuition discriminate. }
  split; [exact H|].
  exact (proj1 (invalid_request_rejected (fun _ => NaN) 2025 (fun _ _ _ => [])
                  (fun _ => "algorithm: Invalid enum value") smallDb popularRequest
                  (or_introl H))).
Defined.

(** ** The scope of the cache invalidation *)

Section CacheFacts.
Import CacheService.

Lemma fold_del_lookup (P : string -> bool) (l : list string) (c : cache) (k : string) :
  fold_left (fun c key => if P key then del key c else c) l c !! k
  = if P k && bool_decide (k ∈ l) then None else c !! k.
Proof.
  revert c. induction l as [|x l IH]; intros c; simpl.
  - rewrite andb_false_r. reflexivity.
  - rewrite IH. destruct (P k) eqn:Pk; simpl.
    + destruct (bool_decide (k ∈ l)) eqn:Hl.
      * rewrite bool_decide_eq_true_2; [reflexivity|]. apply bool_decide_eq_true_1 in Hl.
        right. exact Hl.
      * apply bool_decide_eq_false_1 in Hl.
        destruct (decide (k = x)) as [->|Hne].
        -- rewrite bool_decide_eq_true_2 by left. rewrite Pk. unfold del.
           apply lookup_delete_eq.
        -- rewrite bool_decide_eq_false_2.
           2:{ intros H. apply elem_of_cons in H as [?|?]; contradiction. }
           destruct (P x); [|reflexivity]. unfold del. apply lookup_delete_ne.
           intros E. apply Hne. symmetry. exact E.
    + destruct (P x) eqn:Px; [|reflexivity]. unfold del.
      destruct (decide (x = k)) as [->|Hne]; [congruence|].
      apply lookup_delete_ne. exact Hne.
Qed.

(** The loop over [keys()] deletes the entries whose key starts with the
    prefix, and nothing else. *)
Lemma delStartingWith_lookup (p : string) (c : cache) (k : string) :
  delStartingWith p c !! k = if String.prefix p k then None else c !! k.
Proof.
  unfold delStartingWith. rewrite fold_del_lookup.
  destruct (String.prefix p k); [|reflexivity]. simpl.
  destruct (bool_decide (k ∈ keys c)) eqn:E; [reflexivity|].
  apply bool_decide_eq_false_1 in E.
  destruct (c !! k) as [v|] eqn:Hv; [|reflexivity].
  exfalso. apply E. unfold keys.
  apply list_elem_of_fmap. exists (k, v). split; [reflexivity|].
  apply elem_of_map_to_list. exact Hv.
Qed.

Lemma prefix_cons (a b : ascii) (s1 s2 : string) :
  String.prefix (String a s1) (String b s2)
  = if ascii_dec a b then String.prefix s1 s2 else false.
Proof. reflexivity. Qed.

Lemma prefix_nil (s : string) : String.prefix EmptyString s = true.
Proof. destruct s; reflexivity. Qed.

Lemma app_cons (a : ascii) (s t : string) : String a s +:+ t = String a (s +:+ t).
Proof. reflexivity. Qed.

Lemma prefix_app (a b c : string) :
  String.prefix (a +:+ b) (a +:+ c) = String.prefix b c.
Proof.
  induction a as [|x a IH]; [reflexivity|].
  rewrite !app_cons, prefix_cons.
  destruct (ascii_dec x x); [exact IH | contradiction].
Qed.

Lemma prefix_trans (a b c : string) :
  String.prefix a b = true -> String.prefix b c = true -> String.prefix a c = true.
Proof.
  revert b c. induction a as [|x a IH]; intros b c Hab Hbc; [apply prefix_nil|].
  destruct b as [|y b]; [discriminate|]. destruct c as [|z c]; [discriminate|].
  rewrite prefix_cons in *.
  destruct (ascii_dec x y) as [->|]; [|discriminate].
  destruct (ascii_dec y z) as [->|]; [|discriminate].
  apply (IH b c Hab Hbc).
Qed.

(** Between identifiers without ['-'] the prefix of one subject matches
    the keys of that subject only. *)
Lemma prefix_hyphenFree (u1 u2 rest : string) :
  hyphenFree u1 = true -> hyphenFree u2 = true ->
  String.prefix (u1 +:+ "-") (u2 +:+ "-" +:+ rest) = true -> u1 = u2.
Proof.
  revert u2. induction u1 as [|x u1 IH]; intros u2 H1 H2 Hp.
  - destruct u2 as [|y u2]; [reflexivity|].
    change (EmptyString +:+ "-") with (String "-"%char EmptyString) in Hp.
    rewrite app_cons, prefix_cons in Hp.
    destruct (ascii_dec "-" y) as [<-|]; [|discriminate].
    cbn in H2. discriminate.
  - cbn [hyphenFree] in H1. apply andb_prop in H1 as [Hx H1].
    rewrite app_cons in Hp.
    destruct u2 as [|y u2].
    + change (EmptyString +:+ "-" +:+ rest) with (String "-"%char rest) in Hp.
      rewrite prefix_cons in Hp.
      destruct (ascii_dec x "-") as [->|]; [|discriminate]. cbn in Hx. discriminate.
    + cbn [hyphenFree] in H2. apply andb_prop in H2 as [Hy H2].
      rewrite app_cons, prefix_cons in Hp.
      destruct (ascii_dec x y) as [->|]; [|discriminate].
      f_equal. apply (IH u2 H1 H2 Hp).
Qed.

Lemma prefix_own_key (userId algorithm : string) :
  String.prefix ("recommendations-" +:+ userId +:+ "-") (recommendationsKey userId algorithm)
  = true.
Proof.
  unfold recommendationsKey. rewrite !prefix_app.
  change "-" with ("-" +:+ EmptyString) at 1. rewrite prefix_app. apply prefix_nil.
Qed.

Lemma prefix_any_key (userId algorithm : string) :
  String.prefix "recommendations-" (recommendationsKey userId algorithm) = true.
Proof.
  unfold recommendationsKey.
  change "recommendations-" with ("recommendations-" +:+ EmptyString) at 1.
  rewrite prefix_app. apply prefix_nil.
Qed.

Lemma invalidateAllRecommendations_get (userId algorithm : string) (c : cache) :
  getRecommendations userId algorithm (invalidateAllRecommendations c) = None.
Proof.
  unfold getRecommendations, get, invalidateAllRecommendations.
  rewrite delStartingWith_lookup, prefix_any_key. reflexivity.
Qed.

(** X29.  The answers of the AI strategy, cached under "ai-...", outlive
    every invalidation event: the update, the creation and the deletion of
    a movie and the rating of any subject leave them in the cache. *)
Lemma ai_responses_survive (userId : string) (likedMovieIds : list string) (c : cache) :
  (forall movieId,
     getAIResponse userId likedMovieIds (onMovieUpdate movieId c)
     = getAIResponse userId likedMovieIds c
     /\ getAIResponse userId likedMovieIds (onMovieDelete movieId c)
        = getAIResponse userId likedMovieIds c)
  /\ getAIResponse userId likedMovieIds (onMovieCreate c)
     = getAIResponse userId likedMovieIds c
  /\ forall rater,
       getAIResponse userId likedMovieIds (onUserRating rater c)
       = getAIResponse userId likedMovieIds c.
Proof.
  unfold getAIResponse, get, aiKey.
  set (rest := userId +:+ "-" +:+ hashString (sortedJoin likedMovieIds)).
  assert (M : forall movieId,
            invalidateAllRecommendations (invalidateMovie movieId c) !! ("ai-" +:+ rest)
            = c !! ("ai-" +:+ rest)).
  { intros movieId. unfold invalidateAllRecommendations, invalidateMovie, del.
    rewrite delStartingWith_lookup.
    change (String.prefix "recommendations-" ("ai-" +:+ rest)) with false. cbv iota.
    rewrite lookup_delete_ne by discriminate.
    rewrite lookup_delete_ne by discriminate. reflexivity. }
  split; [|split].
  - intros movieId. unfold onMovieUpdate, onMovieDelete. rewrite M. split; reflexivity.
  - unfold onMovieCreate, invalidateAllRecommendations, invalidateAllMovies, del.
    rewrite !delStartingWith_lookup.
    change (String.prefix "recommendations-" ("ai-" +:+ rest)) with false.
    change (String.prefix "movie-" ("ai-" +:+ rest)) with false. cbv iota.
    rewrite lookup_delete_ne by discriminate. reflexivity.
  - intros rater. unfold onUserRating, invalidateUserRecommendations.
    rewrite delStartingWith_lookup.
    change (String.prefix ("recommendations-" +:+ rater +:+ "-") ("ai-" +:+ rest))
      with false.
    reflexivity.
Qed.

(** C9 (amended).  [onUserRating] deletes exactly the entries whose key
    starts with "recommendations-<subject>-": every recommendation entry
    of that subject goes; the recommendation entries of another subject
    stay as they are when neither identifier contains ['-']; every entry
    whose key does not start with "recommendations-" stays as it is.
    [onMovieUpdate], [onMovieCreate] and [onMovieDelete] leave no
    recommendation entry, whatever the subject and the strategy. *)
Theorem cache_invalidation_scope (c : cache) :
  (forall userId key,
     onUserRating userId c !! key
     = if String.prefix ("recommendations-" +:+ userId +:+ "-") key then None else c !! key)
  /\ (forall userId algorithm,
        getRecommendations userId algorithm (onUserRating userId c) = None)
  /\ (forall userId other algorithm,
        hyphenFree userId = true -> hyphenFree other = true -> other <> userId ->
        onUserRating userId c !! recommendationsKey other algorithm
        = c !! recommendationsKey other algorithm)
  /\ (forall userId key,
        String.prefix "recommendations-" key = false ->
        onUserRating userId c !! key = c !! key)
  /\ (forall movieId userId algorithm,
        getRecommendations userId algorithm (onMovieUpdate movieId c) = None
        /\ getRecommendations userId algorithm (onMovieCreate c) = None
        /\ getRecommendations userId algorithm (onMovieDelete movieId c) = None).
Proof.
  assert (L : forall userId key,
            onUserRating userId c !! key
            = if String.prefix ("recommendations-" +:+ userId +:+ "-") key
              then None else c !! key).
  { intros userId key. unfold onUserRating, invalidateUserRecommendations.
    apply delStartingWith_lookup. }
  split; [exact L|]. split; [|split; [|split]].
  - intros userId algorithm. unfold getRecommendations, get.
    rewrite L, prefix_own_key. reflexivity.
  - intros userId other algorithm Hu Ho Hne. rewrite L.
    destruct (String.prefix _ (recommendationsKey other algorithm)) eqn:E; [|reflexivity].
    exfalso. apply Hne. symmetry. unfold recommendationsKey in E.
    rewrite prefix_app in E. exact (prefix_hyphenFree userId other algorithm Hu Ho E).
  - intros userId key Hk. rewrite L.
    destruct (String.prefix ("recommendations-" +:+ userId +:+ "-") key) eqn:E;
      [|reflexivity].
    assert (P : String.prefix "recommendations-" ("recommendations-" +:+ userId +:+ "-")
                = true).
    { change "recommendations-" with ("recommendations-" +:+ EmptyString) at 1.
      rewrite prefix_app. apply prefix_nil. }
    rewrite (prefix_trans _ _ _ P E) in Hk. discriminate.
  - intros movieId userId algorithm. unfold onMovieUpdate, onMovieCreate, onMovieDelete.
    rewrite !invalidateAllRecommendations_get. auto.
Qed.

Lemma cache_invalidation_scope_example :
  hyphenFree "u1" = true /\ hyphenFree "u2" = true /\ "u2" <> "u1"
  /\ onUserRating "u1" plainCache !! recommendationsKey "u2" "hybrid"
     = plainCache !! recommendationsKey "u2" "hybrid".
Proof.
  split; [reflexivity|]. split; [reflexivity|]. split; [discriminate|].
  apply (proj1 (proj2 (proj2 (cache_invalidation_scope plainCache))) "u1" "u2" "hybrid").
  - reflexivity.
  - reflexivity.
  - discriminate.
Defined.

(** C9 as stated fails.  The cache holds the recommendations of the AI
    strategy for the subject "u1".  A rating of "u1" does not delete this
    entry of that subject, and the update, the creation and the deletion
    of a movie do not delete it either, though it is a cached entry of a
    strategy: its key starts with "ai-", and the events delete keys that
    start with "recommendations-". *)
Lemma events_keep_the_ai_answer :
  getAIResponse "u1" ["m1"] aiCache = Some (Recommendations [aiAnswer])
  /\ getAIResponse "u1" ["m1"] (onUserRating "u1" aiCache)
     = Some (Recommendations [aiAnswer])
  /\ getAIResponse "u1" ["m1"] (onMovieUpdate "m3" aiCache)
     = Some (Recommendations [aiAnswer])
  /\ getAIResponse "u1" ["m1"] (onMovieCreate aiCache)
     = Some (Recommendations [aiAnswer])
  /\ getAIResponse "u1" ["m1"] (onMovieDelete "m3" aiCache)
     = Some (Recommendations [aiAnswer]).
Proof.
  assert (K : aiKey "u1" ["m1"] = "ai-u1-" +:+ hashString "m1") by reflexivity.
  assert (H : getAIResponse "u1" ["m1"] aiCache = Some (Recommendations [aiAnswer])).
  { unfold getAIResponse, get, aiCache, setAIResponse, set.
    rewrite lookup_insert_eq. reflexivity. }
  assert (M : forall movieId,
            getAIResponse "u1" ["m1"]
              (invalidateAllRecommendations (invalidateMovie movieId aiCache))
            = Some (Recommendations [aiAnswer])).
  { intros movieId. rewrite <- H. unfold getAIResponse, get. rewrite K.
    unfold invalidateAllRecommendations, invalidateMovie, del.
    rewrite delStartingWith_lookup.
    change (String.prefix "recommendations-" ("ai-u1-" +:+ hashString "m1")) with false.
    cbv iota. rewrite lookup_delete_ne by discriminate.
    rewrite lookup_delete_ne by discriminate. reflexivity. }
  split; [exact H|]. split; [|split; [apply M|split; [|apply M]]].
  - rewrite <- H. unfold getAIResponse, get. rewrite K.
    unfold onUserRating, invalidateUserRecommendations.
    rewrite delStartingWith_lookup. reflexivity.
  - rewrite <- H. unfold getAIResponse, get. rewrite K.
    unfold onMovieCreate, invalidateAllRecommendations, invalidateAllMovies, del.
    rewrite !delStartingWith_lookup.
    change (String.prefix "recommendations-" ("ai-u1-" +:+ hashString "m1")) with false.
    change (String.prefix "movie-" ("ai-u1-" +:+ hashString "m1")) with false.
    cbv iota. rewrite lookup_delete_ne by discriminate. reflexivity.
Qed.

(** Why the identifiers of the amended claim are free of ['-'].  The
    cache holds the hybrid list of a subject "a-b"; a rating of the other
    subject "a" deletes it, because its key "recommendations-a-b-hybrid"
    starts with "recommendations-a-".  The identifiers of the storage are
    generated and hold no ['-']. *)
Lemma rating_of_one_subject_deletes_another_entry :
  "a-b" <> "a"
  /\ getRecommendations "a-b" "hybrid" hyphenCache = Some (Recommendations [])
  /\ getRecommendations "a-b" "hybrid" (onUserRating "a" hyphenCache) = None.
Proof.
  split; [discriminate|]. split.
  - unfold getRecommendations, get, hyphenCache, setRecommendations, set.
    rewrite lookup_insert_eq. reflexivity.
  - unfold getRecommendations, get, onUserRating, invalidateUserRecommendations.
    rewrite delStartingWith_lookup. reflexivity.
Qed.

End CacheFacts.

(** ** Parsing the answer of the external AI *)

Section AIFacts.
Import AIService.
Local Open Scope R_scope.
Variable JSON_parse : string -> option json.
Variable stripFences : string -> string.
Variable StringToNumber : string -> number.
Variable ArrayToString : list json -> string.

Lemma clamp_range (v : number) :
  JS.max (Num 0.1) (JS.min (Num 1.0) v) = NaN
  \/ exists x, JS.max (Num 0.1) (JS.min (Num 1.0) v) = Num x /\ 0.1 <= x <= 1.
Proof.
  destruct v as [y|]; [right | left; reflexivity].
  eexists. split; [reflexivity|].
  unfold Rmax, Rmin.
  destruct (Rle_dec 1.0 y); destruct (Rle_dec 0.1 _); lra.
Qed.

Lemma mapThrowing_In {A B : Type} (f : A -> option B) (l : list A) (ys : list B) (y : B) :
  mapThrowing f l = Some ys -> In y ys -> exists x, In x l /\ f x = Some y.
Proof.
  revert ys. induction l as [|x l IH]; intros ys H Hy; simpl in H.
  - injection H as <-. contradiction.
  - destruct (f x) as [y0|] eqn:E; [|discriminate].
    destruct (mapThrowing f l) as [ys0|]; [|discriminate].
    injection H as <-. destruct Hy as [<-|Hy].
    + exists x. split; [left; reflexivity | exact E].
    + destruct (IH ys0 eq_refl Hy) as (x' & Hin & Hx'). exists x'. split; [right|]; assumption.
Qed.

Lemma filterBoolean_In {A : Type} (l : list (option A)) (a : A) :
  In a (filterBoolean l) -> In (Some a) l.
Proof.
  unfold filterBoolean. rewrite in_flat_map. intros ([b|] & Hin & Hb); [|contradiction].
  destruct Hb as [->|[]]. exact Hin.
Qed.

Lemma parseEntry_sound (allMovies : list Movie.t) (rec : json) (p : Parsed) :
  parseEntry StringToNumber ArrayToString allMovies rec = Some (Some p) ->
  In (p_movie p) allMovies
  /\ (p_score p = NaN \/ exists x, p_score p = Num x /\ 0.1 <= x <= 1).
Proof.
  unfold parseEntry.
  destruct (property rec "movieId") as [movieId|]; [|discriminate].
  destruct (property rec "score") as [sc|]; [|discriminate].
  destruct (property rec "reason") as [rs|]; [|discriminate].
  destruct (find _ allMovies) as [m|] eqn:E; [|discriminate].
  intros [= <-]. cbn [p_movie p_score]. split.
  - apply find_some in E. exact (proj1 E).
  - apply clamp_range.
Qed.

(** X30.  What [parseAIResponse] guarantees: a response that
    [JSON.parse] refuses gives the empty list, every entry it returns
    names a movie of the catalog, and the score of an entry is [NaN] or
    lies between 0.1 and 1. *)
Lemma parseAIResponse_sound (response : string) (allMovies : list Movie.t) :
  (JSON_parse (stripFences response) = None ->
     parseAIResponse JSON_parse stripFences StringToNumber ArrayToString response allMovies
     = [])
  /\ forall p,
       In p (parseAIResponse JSON_parse stripFences StringToNumber ArrayToString
               response allMovies) ->
       In (p_movie p) allMovies
       /\ (p_score p = NaN \/ exists x, p_score p = Num x /\ 0.1 <= x <= 1).
Proof.
  unfold parseAIResponse. split.
  - intros ->. reflexivity.
  - intros p Hp.
    destruct (JSON_parse (stripFences response)) as [[ | | | |recs| ]|]; try contradiction.
    destruct (mapThrowing _ recs) as [entries|] eqn:E; [|contradiction].
    unfold sort in Hp. apply (proj1 (sortBy_In _ _ _)) in Hp.
    apply filterBoolean_In in Hp.
    destruct (mapThrowing_In _ _ _ _ E Hp) as (rec & _ & Hrec).
    exact (parseEntry_sound allMovies rec p Hrec).
Qed.

(** C10.  An entry whose score is a text that does not read as a number
    is not clamped: [Math.min(1.0, "high")] is [NaN], [Math.max] keeps it,
    and the entry is returned with the score [NaN]. *)
Theorem non_numeric_score_is_not_clamped (response : string) (allMovies : list Movie.t)
    (movie : Movie.t) (movieId text : string) :
  JSON_parse (stripFences response)
  = Some (JArray [ JObject [ ("movieId", JString movieId); ("score", JString text) ] ]) ->
  text <> EmptyString ->
  StringToNumber text = NaN ->
  find (fun m => String.eqb (Movie.id m) movieId) allMovies = Some movie ->
  parseAIResponse JSON_parse stripFences StringToNumber ArrayToString response allMovies
  = [ {| p_movie := movie;
         p_score := NaN;
         p_reason := JString "AI recommended based on your preferences" |} ].
Proof.
  intros Hparse Htext Hnum Hfind. unfold parseAIResponse. rewrite Hparse.
  cbn [mapThrowing]. unfold parseEntry.
  cbn [property map_get String.eqb Ascii.eqb Bool.eqb strictEqString].
  rewrite Hfind. cbn [truthyValue ToNumber].
  assert (E : String.eqb text EmptyString = false).
  { destruct (String.eqb text EmptyString) eqn:E; [|reflexivity].
    apply String.eqb_eq in E. contradiction. }
  rewrite E. cbn [negb]. rewrite Hnum. reflexivity.
Qed.

End AIFacts.

Lemma non_numeric_score_is_not_clamped_example :
  AIService.parseAIResponse exampleParse exampleStrip exampleNumber exampleArrayToString
    wordyResponse smallCatalog
  = [ {| AIService.p_movie := Movie.mk "m1" "Alien" ["horror"] 1979 None (Some 8%R) 1;
         AIService.p_score := NaN;
         AIService.p_reason :=
           AIService.JString "AI recommended based on your preferences" |} ].
Proof.
  apply (non_numeric_score_is_not_clamped exampleParse exampleStrip exampleNumber
           exampleArrayToString wordyResponse smallCatalog
           (Movie.mk "m1" "Alien" ["horror"] 1979 None (Some 8%R) 1) "m1" "high").
  - reflexivity.
  - discriminate.
  - reflexivity.
  - reflexivity.
Defined.

(** ** What the three recommenders guarantee about their lists *)

Section EngineFacts.
Import RecommendationEngine.
Local Open Scope R_scope.

Lemma map_set_key_In {V : Type} (m : smap V) (k : string) (v : V) (k' : string) :
  In k' (map fst (map_set m k v)) -> k' = k \/ In k' (map fst m).
Proof.
  rewrite map_set_keys. destruct (existsb _ _); [right; assumption|].
  rewrite in_app_iff. intros [H|[H|[]]]; [right; exact H | left; symmetry; exact H].
Qed.

(** Every key of [movieScores] comes from a rating that passed the
    filter of the inner loop for one of the neighbours. *)
Lemma tallyScores_origin (targetUserId : string) (similarUsers : list (User.t * number))
    (allRatings : list Rating.t) (k : string) :
  In k (map fst (tallyScores targetUserId similarUsers allRatings)) ->
  exists item rating,
    In item similarUsers /\ In rating allRatings
    /\ endorses targetUserId allRatings (fst item) rating = true
    /\ Rating.movieId rating = k.
Proof.
  unfold tallyScores.
  set (P := fun k => exists item rating,
    In item similarUsers /\ In rating allRatings
    /\ endorses targetUserId allRatings (fst item) rating = true
    /\ Rating.movieId rating = k).
  assert (G : forall (l : list (User.t * number)) (m : smap Tally),
            (forall item, In item l -> In item similarUsers) ->
            (forall k, In k (map fst m) -> P k) ->
            forall k,
              In k (map fst
                (fold_left
                   (fun movieScores '(user, similarity) =>
                      fold_left
                        (fun movieScores rating =>
                           map_set movieScores (Rating.movieId rating)
                             {| t_score :=
                                  (t_score match map_get movieScores (Rating.movieId rating) with
                                           | Some c => c
                                           | None => {| t_score := Num 0; t_count := 0 |}
                                           end
                                   + Num (Rating.rating rating) * similarity)%js;
                                t_count :=
                                  (t_count match map_get movieScores (Rating.movieId rating) with
                                           | Some c => c
                                           | None => {| t_score := Num 0; t_count := 0 |}
                                           end + 1)%nat |})
                        (List.filter
                           (fun r => String.eqb (Rating.userId r) (User.id user)
                                     && Rating.liked r
                                     && (Num (Rating.rating r) >= Num 4)%js
                                     && negb (includes
                                                (map Rating.movieId
                                                   (List.filter
                                                      (fun r => String.eqb (Rating.userId r) targetUserId)
                                                      allRatings))
                                                (Rating.movieId r)))
                           allRatings)
                        movieScores)
                   l m)) -> P k).
  { induction l as [|[user sim] l IH]; intros m Hl Hm; [exact Hm|].
    cbn [fold_left]. apply IH; [intros item Hi; apply Hl; right; exact Hi|].
    assert (Hu : In (user, sim) similarUsers) by (apply Hl; left; reflexivity).
    set (rs := List.filter _ allRatings).
    assert (Hrs : forall r, In r rs ->
                  In r allRatings /\ endorses targetUserId allRatings user r = true).
    { intros r Hr. apply filter_In in Hr. exact Hr. }
    clearbody rs. clear IH Hl. revert m Hm.
    induction rs as [|r rs IHr]; intros m Hm; [exact Hm|].
    cbn [fold_left]. apply IHr; [intros r' Hr'; apply Hrs; right; exact Hr'|].
    intros k' Hk'. apply map_set_key_In in Hk' as [->|Hk']; [|apply Hm; exact Hk'].
    destruct (Hrs r (or_introl eq_refl)) as [Hin He].
    exists (user, sim), r. repeat split; assumption. }
  apply G; [auto | intros k' []].
Qed.

Lemma scoredMovies_origin (m : smap Tally) (allMovies : list Movie.t) (r : Recommendation) :
  In r (scoredMovies m allMovies) ->
  In (recId r) (map fst m) /\ In (movie r) allMovies.
Proof.
  unfold scoredMovies. rewrite in_flat_map. intros ([k t] & Hin & Hr).
  destruct (find _ allMovies) as [mv|] eqn:E; [|contradiction].
  destruct Hr as [<-|[]]. apply find_some in E as [Hmv Hid].
  apply String.eqb_eq in Hid. unfold recId. cbn [movie]. rewrite Hid. split; [|exact Hmv].
  change k with (fst (k, t)). apply in_map. exact Hin.
Qed.

Lemma In_slice0 {A : Type} (l : list A) (e : Z) (x : A) : In x (slice0 l e) -> In x l.
Proof. destruct (slice0_firstn l e) as [n ->]. apply In_firstn. Qed.

(** An entry of [l.sort(cmp).slice(0, e)] is an entry of [l]. *)
Lemma In_rank {A : Type} (cmp : A -> A -> number) (l : list A) (e : Z) (x : A) :
  In x (slice0 (sort cmp l) e) -> In x l.
Proof.
  intros H. apply In_slice0 in H. unfold sort in H.
  apply (proj1 (sortBy_In _ _ _)) in H. exact H.
Qed.

Lemma slice0_length {A : Type} (l : list A) (e : Z) :
  (0 <= e)%Z -> (Z.of_nat (length (slice0 l e)) <= e)%Z.
Proof.
  intros H. rewrite slice0_nonneg by exact H. rewrite length_firstn. lia.
Qed.

Lemma NoDup_firstn {A : Type} (n : nat) (l : list A) :
  List.NoDup l -> List.NoDup (firstn n l).
Proof.
  intros H. rewrite <- (firstn_skipn n l) in H. apply List.NoDup_app_remove_r in H. exact H.
Qed.

Lemma getPopularMovies_In (allMovies : list Movie.t) (limit : Z) (r : Recommendation) :
  In r (getPopularMovies allMovies limit) ->
  In (movie r) allMovies /\ qualifies (movie r) = true.
Proof.
  intros H. apply (in_map movie) in H. rewrite popular_movies in H.
  apply In_rank in H. apply filter_In in H. exact H.
Qed.

Lemma getPopularMovies_length (allMovies : list Movie.t) (limit : Z) :
  (0 <= limit)%Z -> (Z.of_nat (length (getPopularMovies allMovies limit)) <= limit)%Z.
Proof.
  intros H. unfold getPopularMovies, mapi. rewrite mapi_from_length.
  apply slice0_length. exact H.
Qed.

Lemma ratedBy_spec (db : Database) (userId movieId : string) :
  ratedBy db userId movieId
  = includes (map Rating.movieId (ratingsOf userId (ratings db))) movieId.
Proof.
  unfold ratedBy, includes, ratingsOf. induction (ratings db) as [|r l IH]; [reflexivity|].
  cbn [existsb List.filter]. destruct (String.eqb (Rating.userId r) userId); cbn.
  - rewrite IH. rewrite (String.eqb_sym movieId). reflexivity.
  - exact IH.
Qed.

(** [userRatings.some(r => r.movieId === id)] over [getUserRatings]. *)
Lemma ratedBy_userRatings (db : Database) (userId movieId : string) :
  existsb (fun r => String.eqb (Rating.movieId r) movieId) (getUserRatings db userId)
  = ratedBy db userId movieId.
Proof.
  unfold getUserRatings.
  destruct (ratedBy db userId movieId) eqn:E.
  - unfold ratedBy in E. apply existsb_exists in E as (r & Hin & Hr).
    apply andb_prop in Hr as [Hu Hm].
    apply existsb_exists. exists r. split; [|exact Hm].
    apply sortBy_In. apply filter_In. split; assumption.
  - apply not_true_is_false. intros H. apply existsb_exists in H as (r & Hin & Hm).
    apply (proj1 (sortBy_In _ _ _)) in Hin. apply filter_In in Hin as [Hin Hu].
    assert (ratedBy db userId movieId = true); [|congruence].
    unfold ratedBy. apply existsb_exists. exists r. split; [exact Hin|].
    rewrite Hu, Hm. reflexivity.
Qed.

Lemma findSimilarUsers_In (targetUserId : string) (allRatings : list Rating.t)
    (allUsers : list User.t) (item : User.t * number) :
  In item (findSimilarUsers targetUserId allRatings allUsers) ->
  In (fst item) allUsers
  /\ User.id (fst item) <> targetUserId
  /\ snd item
     = calculateUserSimilarity (ratingsOf targetUserId allRatings)
         (ratingsOf (User.id (fst item)) allRatings)
  /\ (snd item > Num 0.3)%js = true.
Proof.
  unfold findSimilarUsers. intros H. apply In_rank in H.
  apply filter_In in H as [H Hgt]. apply in_map_iff in H as (user & <- & Hu).
  apply filter_In in Hu as [Hu Hne]. cbn [fst snd] in *.
  repeat split; try assumption.
  apply negb_true_iff in Hne. intros E. rewrite E, String.eqb_refl in Hne. discriminate.
Qed.

(** X1.  The collaborative recommender never recommends a movie the
    subject has a rating for, whatever the data, the catalog handed in
    and the limit: the tally skips the watched movies, and a subject
    without ratings, who gets the popularity list, has watched none. *)
Theorem collaborative_never_recommends_rated (db : Database) (targetUserId : string)
    (allMovies : list Movie.t) (limit : Z) :
  Forall (fun r => ratedBy db targetUserId (recId r) = false)
    (generateCollaborativeRecommendations db targetUserId allMovies limit).
Proof.
  apply List.Forall_forall. intros r Hin.
  unfold generateCollaborativeRecommendations, getAllRatings, getAllUsers in Hin.
  destruct (List.filter _ (ratings db)) as [|r0 l] eqn:E.
  - rewrite ratedBy_spec. unfold ratingsOf. rewrite E. reflexivity.
  - cbn [length Nat.eqb] in Hin. unfold getRecommendationsFromSimilarUsers in Hin.
    apply In_rank in Hin. apply scoredMovies_origin in Hin as [Hk _].
    apply tallyScores_origin in Hk as (item & rating & _ & _ & He & Hid).
    unfold endorses in He. apply andb_prop in He as [_ He].
    rewrite ratedBy_spec, <- Hid. apply negb_true_iff in He. exact He.
Qed.

(** X2.  For a subject with at least one rating, every collaborative
    recommendation is backed by another subject: some known user other
    than the target has a rating for that very movie, marked liked and of
    at least 4 stars. *)
Theorem collaborative_recommendations_endorsed (db : Database) (targetUserId : string)
    (allMovies : list Movie.t) (limit : Z) (r : Recommendation) :
  ratingsOf targetUserId (ratings db) <> [] ->
  In r (generateCollaborativeRecommendations db targetUserId allMovies limit) ->
  exists neighbour rating,
    In neighbour (users db) /\ User.id neighbour <> targetUserId
    /\ In rating (ratings db)
    /\ Rating.userId rating = User.id neighbour
    /\ Rating.movieId rating = recId r
    /\ Rating.liked rating = true
    /\ 4 <= Rating.rating rating.
Proof.
  intros Hr Hin. unfold ratingsOf in Hr.
  unfold generateCollaborativeRecommendations, getAllRatings, getAllUsers in Hin.
  destruct (List.filter _ (ratings db)) as [|r0 l] eqn:E; [contradiction|].
  cbn [length Nat.eqb] in Hin. unfold getRecommendationsFromSimilarUsers in Hin.
  apply In_rank in Hin. apply scoredMovies_origin in Hin as [Hk _].
  apply tallyScores_origin in Hk as (item & rating & Hitem & Hrating & He & Hid).
  apply findSimilarUsers_In in Hitem as (Hu & Hne & _).
  unfold endorses in He.
  apply andb_prop in He as [He _]. apply andb_prop in He as [He H4].
  apply andb_prop in He as [He Hl]. apply String.eqb_eq in He.
  exists (fst item), rating. repeat split; try assumption.
  unfold geb, leb in H4. destruct (Rle_dec 4 (Rating.rating rating)); [assumption|discriminate].
Qed.

(** X3.  Once the content recommender has found a liked movie of the
    subject in the catalog (a rating marked liked with at least 4 stars),
    it never recommends a movie the subject has a rating for. *)
Theorem content_never_recommends_rated (db : Database) (targetUserId : string)
    (allMovies : list Movie.t) (limit : Z) :
  likedMoviesOf db targetUserId <> [] ->
  Forall (fun r => ratedBy db targetUserId (recId r) = false)
    (generateContentBasedRecommendations db targetUserId allMovies limit).
Proof.
  intros Hl. apply List.Forall_forall. intros r Hin.
  unfold generateContentBasedRecommendations in Hin.
  change (flat_map _ (List.filter _ (getUserRatings db targetUserId)))
    with (likedMoviesOf db targetUserId) in Hin.
  destruct (likedMoviesOf db targetUserId) as [|m0 ms] eqn:E; [contradiction|].
  cbn [length Nat.eqb] in Hin. apply In_rank in Hin.
  apply in_map_iff in Hin as (mv & <- & Hmv). apply filter_In in Hmv as [_ Hmv].
  apply negb_true_iff in Hmv. unfold recId. cbn [movie].
  rewrite <- ratedBy_userRatings. exact Hmv.
Qed.

Lemma collaborative_length (db : Database) (targetUserId : string)
    (allMovies : list Movie.t) (limit : Z) :
  (0 <= limit)%Z ->
  (Z.of_nat (length (generateCollaborativeRecommendations db targetUserId allMovies limit))
   <= limit)%Z.
Proof.
  intros H. unfold generateCollaborativeRecommendations.
  destruct (length _ =? 0)%nat; [apply getPopularMovies_length; exact H|].
  unfold getRecommendationsFromSimilarUsers. apply slice0_length. exact H.
Qed.

Lemma content_length (db : Database) (targetUserId : string)
    (allMovies : list Movie.t) (limit : Z) :
  (0 <= limit)%Z ->
  (Z.of_nat (length (generateContentBasedRecommendations db targetUserId allMovies limit))
   <= limit)%Z.
Proof.
  intros H. unfold generateContentBasedRecommendations.
  destruct (length _ =? 0)%nat; [apply getPopularMovies_length; exact H|].
  apply slice0_length. exact H.
Qed.

Lemma hybrid_length (db : Database) (targetUserId : string)
    (allMovies : list Movie.t) (limit : Z) :
  (0 <= limit)%Z ->
  (Z.of_nat (length (generateHybridRecommendations db targetUserId allMovies limit))
   <= limit)%Z.
Proof.
  intros H. unfold generateHybridRecommendations. apply slice0_length. exact H.
Qed.

(** X4.  With a limit that is not negative, none of the three
    recommenders returns more than [limit] entries, the popularity
    fallback included. *)
Theorem recommendations_within_limit (db : Database) (targetUserId : string)
    (allMovies : list Movie.t) (limit : Z) :
  (0 <= limit)%Z ->
  (Z.of_nat (length (generateCollaborativeRecommendations db targetUserId allMovies limit))
   <= limit)%Z
  /\ (Z.of_nat (length (generateContentBasedRecommendations db targetUserId allMovies limit))
      <= limit)%Z
  /\ (Z.of_nat (length (generateHybridRecommendations db targetUserId allMovies limit))
      <= limit)%Z.
Proof.
  intros H. split; [|split].
  - apply collaborative_length. exact H.
  - apply content_length. exact H.
  - apply hybrid_length. exact H.
Qed.

Lemma collaborative_from_catalog (db : Database) (targetUserId : string)
    (allMovies : list Movie.t) (limit : Z) (r : Recommendation) :
  In r (generateCollaborativeRecommendations db targetUserId allMovies limit) ->
  In (movie r) allMovies.
Proof.
  unfold generateCollaborativeRecommendations. destruct (length _ =? 0)%nat.
  - intros H. apply getPopularMovies_In in H. exact (proj1 H).
  - unfold getRecommendationsFromSimilarUsers. intros H. apply In_rank in H.
    apply scoredMovies_origin in H. exact (proj2 H).
Qed.

Lemma content_from_catalog (db : Database) (targetUserId : string)
    (allMovies : list Movie.t) (limit : Z) (r : Recommendation) :
  In r (generateContentBasedRecommendations db targetUserId allMovies limit) ->
  In (movie r) allMovies.
Proof.
  unfold generateContentBasedRecommendations. destruct (length _ =? 0)%nat.
  - intros H. apply getPopularMovies_In in H. exact (proj1 H).
  - intros H. apply In_rank in H. apply in_map_iff in H as (mv & <- & Hmv).
    apply filter_In in Hmv. exact (proj1 Hmv).
Qed.

(** The movie of every entry of [combinedRecs] is the movie of an entry
    of one of the two lists. *)
Lemma combine_movies (cs ks : list Recommendation) (k : string) (v : Recommendation) :
  In (k, v) (combine cs ks) -> exists rec, In rec (cs ++ ks) /\ movie v = movie rec.
Proof.
  unfold combine.
  set (P := fun (l : list Recommendation) (m : smap Recommendation) =>
              forall k v, In (k, v) m -> exists rec, In rec l /\ movie v = movie rec).
  assert (H1 : forall l m pre, P pre m -> P (pre ++ l) (fold_left addCollaborative l m)).
  { induction l as [|c l IH]; intros m pre Hm; cbn [fold_left].
    - rewrite app_nil_r. exact Hm.
    - replace (pre ++ c :: l) with ((pre ++ [c]) ++ l) by (rewrite <- app_assoc; reflexivity).
      apply IH. intros k' v' Hin. unfold addCollaborative in Hin.
      apply map_set_In in Hin as [[_ ->]|Hin].
      + exists c. split; [apply in_or_app; right; left; reflexivity | reflexivity].
      + destruct (Hm _ _ Hin) as (rec & Hrec & E). exists rec.
        split; [apply in_or_app; left; exact Hrec | exact E]. }
  assert (H2 : forall l m pre, P pre m -> P (pre ++ l) (fold_left addContentBased l m)).
  { induction l as [|c l IH]; intros m pre Hm; cbn [fold_left].
    - rewrite app_nil_r. exact Hm.
    - replace (pre ++ c :: l) with ((pre ++ [c]) ++ l) by (rewrite <- app_assoc; reflexivity).
      apply IH. intros k' v' Hin. unfold addContentBased in Hin.
      destruct (map_get m (Movie.id (movie c))) as [existing|] eqn:E;
        apply map_set_In in Hin as [[_ ->]|Hin].
      + apply map_get_In in E. destruct (Hm _ _ E) as (rec & Hrec & E').
        exists rec. split; [apply in_or_app; left; exact Hrec | exact E'].
      + destruct (Hm _ _ Hin) as (rec & Hrec & E'). exists rec.
        split; [apply in_or_app; left; exact Hrec | exact E'].
      + exists c. split; [apply in_or_app; right; left; reflexivity | reflexivity].
      + destruct (Hm _ _ Hin) as (rec & Hrec & E'). exists rec.
        split; [apply in_or_app; left; exact Hrec | exact E']. }
  intros Hin.
  refine (H2 ks (fold_left addCollaborative cs []) cs _ k v Hin).
  apply (H1 cs [] []). intros ? ? [].
Qed.

(** X5.  Every movie that the collaborative, the content or the hybrid
    recommender returns is a movie of the catalog it was handed: no
    recommender makes up a movie, and an identity known from the ratings
    only is not recommended. *)
Theorem recommendations_from_catalog (db : Database) (targetUserId : string)
    (allMovies : list Movie.t) (limit : Z) :
  Forall (fun r => In (movie r) allMovies)
    (generateCollaborativeRecommendations db targetUserId allMovies limit)
  /\ Forall (fun r => In (movie r) allMovies)
       (generateContentBasedRecommendations db targetUserId allMovies limit)
  /\ Forall (fun r => In (movie r) allMovies)
       (generateHybridRecommendations db targetUserId allMovies limit).
Proof.
  split; [|split]; apply List.Forall_forall; intros r Hin.
  - eapply collaborative_from_catalog; exact Hin.
  - eapply content_from_catalog; exact Hin.
  - unfold generateHybridRecommendations in Hin. apply In_rank in Hin.
    unfold map_values in Hin. apply in_map_iff in Hin as ([k v] & <- & Hin).
    cbn [snd]. apply combine_movies in Hin as (rec & Hrec & ->).
    apply in_app_or in Hrec as [Hrec|Hrec].
    + eapply collaborative_from_catalog; exact Hrec.
    + eapply content_from_catalog; exact Hrec.
Qed.

Lemma wellKeyed_values (m : smap Recommendation) :
  wellKeyed m -> List.NoDup (map recId (map_values m)).
Proof.
  intros [Hnd Hk]. unfold map_values. rewrite map_map.
  replace (map (fun x => recId (snd x)) m) with (map fst m); [exact Hnd|].
  apply map_ext_in. intros [k v] Hin. cbn. apply Hk. exact Hin.
Qed.

(** X6.  The hybrid list names no movie identity twice, whatever the two
    lists it merges contain: a movie found by both recommenders, or twice
    by one of them, ends as a single entry. *)
Theorem hybrid_names_no_movie_twice (db : Database) (targetUserId : string)
    (allMovies : list Movie.t) (limit : Z) :
  List.NoDup (map recId (generateHybridRecommendations db targetUserId allMovies limit)).
Proof.
  unfold generateHybridRecommendations.
  match goal with |- context [slice0 ?l ?e] => destruct (slice0_firstn l e) as [n ->] end.
  rewrite <- firstn_map. apply NoDup_firstn.
  unfold sort.
  eapply Permutation_NoDup.
  - apply Permutation_map. apply Permutation_sym. apply sortBy_perm.
  - apply wellKeyed_values. apply combine_wellKeyed.
Qed.

(** [calculateContentSimilarity] is the fold of [addPairSimilarity] over
    the liked movies, divided by their number. *)
Lemma calculateContentSimilarity_fold (movie : Movie.t) (likedMovies : list Movie.t) :
  calculateContentSimilarity movie likedMovies
  = if (0 <? length likedMovies)%nat
    then (fold_left (addPairSimilarity movie) likedMovies (Num 0)
          / of_nat (length likedMovies))%js
    else Num 0.
Proof. reflexivity. Qed.

(** The shared genres of a movie that lists each of its genres once are
    no more than the genres of the two movies together. *)
Lemma genre_share (mg lg : list string) :
  mg <> [] -> List.NoDup mg ->
  (1 <= length (nodup string_dec (mg ++ lg)))%nat
  /\ (length (List.filter (fun g => includes lg g) mg)
      <= length (nodup string_dec (mg ++ lg)))%nat.
Proof.
  intros Hne Hnd.
  assert (H : (length mg <= length (nodup string_dec (mg ++ lg)))%nat).
  { apply List.NoDup_incl_length; [exact Hnd|].
    intros g Hg. apply nodup_In. apply in_or_app. left. exact Hg. }
  split.
  - destruct mg as [|g mg']; [contradiction|].
    change (length (g :: mg')) with (S (length mg')) in H. lia.
  - pose proof (List.filter_length_le (fun g => includes lg g) mg). lia.
Qed.

Lemma addPairSimilarity_bounds (movie likedMovie : Movie.t) (t : R) :
  Movie.genre movie <> [] -> List.NoDup (Movie.genre movie) ->
  exists s, addPairSimilarity movie (Num t) likedMovie = Num (t + s) /\ 0 <= s <= 1.
Proof.
  intros Hne Hnd. unfold addPairSimilarity.
  destruct (genre_share (Movie.genre movie) (Movie.genre likedMovie) Hne Hnd) as [H1 H2].
  set (o := length (List.filter _ (Movie.genre movie))) in *.
  set (u := length (nodup string_dec _)) in *.
  assert (Hu : 1 <= IZR (Z.of_nat u)) by (apply IZR_le; lia).
  assert (Ho : 0 <= IZR (Z.of_nat o) <= IZR (Z.of_nat u)) by (split; apply IZR_le; lia).
  assert (Hq : 0 <= IZR (Z.of_nat o) / IZR (Z.of_nat u) <= 1).
  { split.
    - apply Rmult_le_pos; [lra|]. apply Rlt_le, Rinv_0_lt_compat. lra.
    - apply Rmult_le_reg_r with (IZR (Z.of_nat u)); [lra|].
      unfold Rdiv. rewrite Rmult_assoc, Rinv_l by lra. lra. }
  unfold of_nat, div. destruct (Req_dec_T (IZR (Z.of_nat u)) 0) as [E|_]; [lra|].
  cbn [add mul].
  destruct (truthyStr (Movie.director movie) && truthyStr (Movie.director likedMovie)
            && optStrEq (Movie.director movie) (Movie.director likedMovie))%bool;
    destruct (Z.abs (Movie.year movie - Movie.year likedMovie) <=? 5)%Z;
    destruct (Z.abs (Movie.year movie - Movie.year likedMovie) <=? 15)%Z;
    destruct (Movie.rating movie) as [r|]; destruct (Movie.rating likedMovie) as [lr|];
    try destruct (truthy (Num r) && truthy (Num lr) && (Num (Rabs (r - lr)) <= Num 1)%js)%bool;
    cbn [add];
    eexists; (split; [apply f_equal; symmetry; apply Rplus_minus_l || reflexivity | lra]).
Qed.

Lemma fold_addPairSimilarity_bounds (movie : Movie.t) (likedMovies : list Movie.t) (t : R) :
  Movie.genre movie <> [] -> List.NoDup (Movie.genre movie) ->
  exists s, fold_left (addPairSimilarity movie) likedMovies (Num t) = Num (t + s)
            /\ 0 <= s <= IZR (Z.of_nat (length likedMovies)).
Proof.
  intros Hne Hnd. revert t. induction likedMovies as [|l ls IH]; intros t.
  - exists 0. split; [cbn [fold_left]; f_equal; lra|].
    change (IZR (Z.of_nat (@length Movie.t []))) with 0. lra.
  - cbn [fold_left]. destruct (addPairSimilarity_bounds movie l t Hne Hnd) as (s & -> & Hs).
    destruct (IH (t + s)) as (s' & -> & Hs'). exists (s + s').
    split; [f_equal; lra|].
    change (length (l :: ls)) with (S (length ls)). rewrite Nat2Z.inj_succ, succ_IZR. lra.
Qed.

(** X7.  For a movie whose genre list is not empty and names no genre
    twice, the content similarity to any list of liked movies is a number
    between 0 and 1: per liked movie at most 0.5 for the genres, 0.2 for
    the director, 0.15 for the year and 0.15 for the quality score. *)
Theorem content_similarity_within_unit (movie : Movie.t) (likedMovies : list Movie.t) :
  Movie.genre movie <> [] -> List.NoDup (Movie.genre movie) ->
  exists x, calculateContentSimilarity movie likedMovies = Num x /\ 0 <= x <= 1.
Proof.
  intros Hne Hnd. rewrite calculateContentSimilarity_fold.
  destruct likedMovies as [|l ls]; [exists 0; cbn; split; [reflexivity | lra]|].
  change (0 <? length (l :: ls))%nat with true. cbv iota.
  destruct (fold_addPairSimilarity_bounds movie (l :: ls) 0 Hne Hnd) as (s & -> & Hs).
  set (n := length (l :: ls)) in *.
  assert (Hn : 1 <= IZR (Z.of_nat n)).
  { apply IZR_le. subst n. change (length (l :: ls)) with (S (length ls)). lia. }
  unfold of_nat, div. destruct (Req_dec_T (IZR (Z.of_nat n)) 0) as [E|_]; [lra|].
  eexists. split; [reflexivity|]. split.
  - apply Rmult_le_pos; [lra|]. apply Rlt_le, Rinv_0_lt_compat. lra.
  - apply Rmult_le_reg_r with (IZR (Z.of_nat n)); [lra|].
    unfold Rdiv. rewrite Rmult_assoc, Rinv_l by lra. lra.
Qed.

Lemma fold_addPairSimilarity_NaN (movie : Movie.t) (likedMovies : list Movie.t) :
  fold_left (addPairSimilarity movie) likedMovies NaN = NaN.
Proof. induction likedMovies as [|l ls IH]; [reflexivity | exact IH]. Qed.

Lemma addPairSimilarity_no_genre (movie likedMovie : Movie.t) (total : number) :
  Movie.genre movie = [] -> Movie.genre likedMovie = [] ->
  addPairSimilarity movie total likedMovie = NaN.
Proof.
  intros Hm Hl. unfold addPairSimilarity. rewrite Hm, Hl. cbn [app nodup List.filter length].
  unfold of_nat. change (Z.of_nat 0) with 0%Z. unfold div.
  destruct (Req_dec_T 0 0) as [_|E]; [|contradiction].
  cbn [mul add].
  destruct (truthyStr (Movie.director movie) && truthyStr (Movie.director likedMovie)
            && optStrEq (Movie.director movie) (Movie.director likedMovie))%bool;
    destruct (Z.abs (Movie.year movie - Movie.year likedMovie) <=? 5)%Z;
    destruct (Z.abs (Movie.year movie - Movie.year likedMovie) <=? 15)%Z;
    destruct (Movie.rating movie) as [r|]; destruct (Movie.rating likedMovie) as [lr|];
    try destruct (truthy (Num r) && truthy (Num lr) && (Num (Rabs (r - lr)) <= Num 1)%js)%bool;
    destruct total; reflexivity.
Qed.

(** X8.  When the genre list of a movie is empty and so is the genre
    list of one of the liked movies, the genre share of that pair is
    0 / 0 and the content similarity of the movie is [NaN], whatever the
    other liked movies are. *)
Theorem content_similarity_nan_without_genres (movie : Movie.t)
    (likedMovies : list Movie.t) (likedMovie : Movie.t) :
  Movie.genre movie = [] -> In likedMovie likedMovies -> Movie.genre likedMovie = [] ->
  calculateContentSimilarity movie likedMovies = NaN.
Proof.
  intros Hm Hin Hl. rewrite calculateContentSimilarity_fold.
  destruct likedMovies as [|l0 ls0] eqn:E; [contradiction|]. rewrite <- E in *. clear E.
  assert (Hf : fold_left (addPairSimilarity movie) likedMovies (Num 0) = NaN).
  { generalize (Num 0). clear l0 ls0.
    induction likedMovies as [|l ls IH]; intros total; [contradiction|].
    cbn [fold_left]. destruct Hin as [->|Hin].
    - rewrite (addPairSimilarity_no_genre movie likedMovie total Hm Hl).
      apply fold_addPairSimilarity_NaN.
    - apply IH. exact Hin. }
  rewrite Hf. destruct (0 <? length likedMovies)%nat eqn:E; [reflexivity|].
  destruct likedMovies; [contradiction | discriminate].
Qed.

End EngineFacts.

Lemma collaborative_recommendations_endorsed_example :
  exists neighbour rating,
    In neighbour (users agreeDb) /\ User.id neighbour <> "u1"
    /\ In rating (ratings agreeDb)
    /\ Rating.userId rating = User.id neighbour
    /\ Rating.movieId rating = recId agreeCollab
    /\ Rating.liked rating = true
    /\ (4 <= Rating.rating rating)%R.
Proof.
  apply (collaborative_recommendations_endorsed agreeDb "u1" agreeMovies 10 agreeCollab).
  - cbn. discriminate.
  - rewrite agree_collaborative by lia. left. reflexivity.
Defined.

Lemma content_never_recommends_rated_example :
  Forall (fun r => ratedBy agreeDb "u1" (recId r) = false)
    (RecommendationEngine.generateContentBasedRecommendations agreeDb "u1" agreeMovies 10).
Proof.
  apply (content_never_recommends_rated agreeDb "u1" agreeMovies 10).
  unfold likedMoviesOf, getUserRatings, getMovieById. js_eval. discriminate.
Defined.

Lemma recommendations_within_limit_example :
  (Z.of_nat (length (RecommendationEngine.generateCollaborativeRecommendations
                       agreeDb "u1" agreeMovies 10)) <= 10)%Z
  /\ (Z.of_nat (length (RecommendationEngine.generateContentBasedRecommendations
                          agreeDb "u1" agreeMovies 10)) <= 10)%Z
  /\ (Z.of_nat (length (RecommendationEngine.generateHybridRecommendations
                          agreeDb "u1" agreeMovies 10)) <= 10)%Z.
Proof.
  apply (recommendations_within_limit agreeDb "u1" agreeMovies 10). lia.
Defined.

Lemma content_similarity_within_unit_example :
  exists x, RecommendationEngine.calculateContentSimilarity heat agreeMovies = Num x
            /\ (0 <= x <= 1)%R.
Proof.
  apply (content_similarity_within_unit heat agreeMovies).
  - discriminate.
  - repeat constructor. intros [].
Defined.

Lemma content_similarity_nan_without_genres_example :
  RecommendationEngine.calculateContentSimilarity (untagged "a") [heat; untagged "b"] = NaN.
Proof.
  apply (content_similarity_nan_without_genres (untagged "a") [heat; untagged "b"]
           (untagged "b")).
  - reflexivity.
  - right. left. reflexivity.
  - reflexivity.
Defined.

(** ** The similarity in double precision *)

Section DoublePrecision.
Import SpecFloat.

Lemma similarity64_few_shared (user1Ratings user2Ratings : list Binary64.Rating.t) :
  (length (commonMovies user1Ratings user2Ratings) < 2)%nat ->
  Binary64.calculateUserSimilarity user1Ratings user2Ratings = Binary64.of_Z 0.
Proof.
  intros H. unfold Binary64.calculateUserSimilarity. fold (commonMovies user1Ratings user2Ratings).
  apply Nat.ltb_lt in H. rewrite H. reflexivity.
Qed.

(** The guards of [calculateUserSimilarity] hold in double precision as
    the specification words them: fewer than two shared movies give 0, and
    so do the shared ratings 5, 5 against 5, 4, whose denominator is 0. *)
Lemma similarity64_guards :
  (forall user1Ratings user2Ratings,
     (length (commonMovies user1Ratings user2Ratings) < 2)%nat ->
     Binary64.calculateUserSimilarity user1Ratings user2Ratings = S754_zero false)
  /\ Binary64.calculateUserSimilarity exampleU1_64 exampleU2_64 = S754_zero false.
Proof.
  split; [|vm_compute; reflexivity].
  intros a b H. rewrite similarity64_few_shared by exact H. reflexivity.
Qed.

(** In exact arithmetic the ratings 1, 1, 3 and 1, 1, 4 have the
    correlation 1: 4 / sqrt (8/3 * 6). *)
Lemma steady_exact_similarity :
  RecommendationEngine.calculateUserSimilarity steadyExactU1 steadyExactU2 = Num 1.
Proof.
  unfold RecommendationEngine.calculateUserSimilarity. js_eval.
  js_sqrt 4%R.
  js_eval. f_equal. lra.
Qed.

(** C5.  The similarity leaves [-1, 1].  Two subjects rated the same
    three movies, 1, 1, 3 and 1, 1, 4.  The correlation of these ratings
    is 1; the code computes 4 / 3.9999999999999996 and returns
    1.0000000000000002, the double after 1, which compares above 1. *)
Theorem similarity_exceeds_one :
  Binary64.calculateUserSimilarity steadyU1 steadyU2 = afterOne
  /\ Binary64.gtb (Binary64.calculateUserSimilarity steadyU1 steadyU2) (Binary64.of_Z 1) = true
  /\ Binary64.sub afterOne (Binary64.of_Z 1) = S754_finite false 4503599627370496 (-104).
Proof.
  assert (E : Binary64.calculateUserSimilarity steadyU1 steadyU2 = afterOne)
    by (vm_compute; reflexivity).
  rewrite E. split; [reflexivity|]. split; vm_compute; reflexivity.
Qed.

(** The literal [0.3] is the double 5404319552844595 * 2^-54, a little
    below three tenths. *)
Lemma literal_three_tenths :
  Binary64.decimal 3 1 = S754_finite false 5404319552844595 (-54).
Proof. vm_compute. reflexivity. Qed.

(** The two subjects of the ratings 1, 1, 3 and 1, 1, 4 are neighbours
    of one another, with the similarity after 1. *)
Lemma steady_neighbours :
  Binary64.findSimilarUsers "u1" (steadyU1 ++ steadyU2)
    [ User.mk "u1" "ann"; User.mk "u2" "bob" ]
  = [ (User.mk "u2" "bob", afterOne) ].
Proof. vm_compute. reflexivity. Qed.





End DoublePrecision.

(** ** The popularity fallback of a subject without ratings *)

Section PopularityFallback.
Import RecommendationEngine.
Local Open Scope R_scope.












End PopularityFallback.


(** ** Movies through the storage: the comma-separated lists *)

Section StorageFacts.
Import DatabaseService.

Lemma split_commaFree (s : string) :
  commaFree s = true -> JSString.split ","%char s = [s].
Proof.
  induction s as [|c s IH]; intros H; [reflexivity|].
  cbn [commaFree] in H. apply andb_prop in H as [Hc Hs].
  cbn [JSString.split]. apply negb_true_iff in Hc. rewrite Hc, (IH Hs). reflexivity.
Qed.

Lemma split_app (s t : string) :
  commaFree s = true ->
  JSString.split ","%char (s +:+ String ","%char t) = s :: JSString.split ","%char t.
Proof.
  induction s as [|c s IH]; intros H.
  - reflexivity.
  - cbn [commaFree] in H. apply andb_prop in H as [Hc Hs].
    change (String c s +:+ String "," t) with (String c (s +:+ String "," t)).
    cbn [JSString.split]. apply negb_true_iff in Hc. rewrite Hc, (IH Hs). reflexivity.
Qed.

Lemma join_cons (x y : string) (l : list string) :
  JSString.join "," (x :: y :: l) = x +:+ String ","%char (JSString.join "," (y :: l)).
Proof. reflexivity. Qed.

Lemma split_join (l : list string) :
  l <> [] -> Forall (fun s => commaFree s = true) l ->
  JSString.split ","%char (JSString.join "," l) = l.
Proof.
  induction l as [|x l IH]; intros Hne Hl; [contradiction|].
  inversion Hl as [|? ? Hx Hl']; subst.
  destruct l as [|y l].
  - apply split_commaFree. exact Hx.
  - rewrite join_cons, split_app by exact Hx. f_equal. apply IH; [discriminate | exact Hl'].
Qed.

Lemma app_empty (s t : string) : s +:+ t = EmptyString -> s = EmptyString /\ t = EmptyString.
Proof. destruct s; [cbn; auto | discriminate]. Qed.

(** The joined text is empty for the empty list and for the list of one
    empty entry only. *)
Lemma join_empty (l : list string) :
  JSString.join "," l = EmptyString -> l = [] \/ l = [EmptyString].
Proof.
  destruct l as [|x [|y l]]; [left; reflexivity | |].
  - cbn. intros ->. right. reflexivity.
  - rewrite join_cons. intros H. apply app_empty in H as [_ H]. discriminate.
Qed.

Lemma splitList_join (l : list string) :
  storableList l -> splitList (Some (JSString.join "," l)) = l.
Proof.
  intros [Hl Hne]. unfold splitList, truthyStr.
  destruct (String.eqb (JSString.join "," l) EmptyString) eqn:E; cbn [negb].
  - apply String.eqb_eq in E. apply join_empty in E as [->| ->]; [reflexivity | contradiction].
  - assert (Hl0 : l <> []) by (intros ->; discriminate).
    rewrite split_join; [|exact Hl0|].
    + rewrite <- (map_id l) at 2. apply map_ext_in. intros s Hs.
      rewrite List.Forall_forall in Hl. specialize (Hl s Hs).
      unfold storableEntry in Hl. apply andb_prop in Hl as [_ Ht]. apply String.eqb_eq in Ht.
      exact Ht.
    + eapply List.Forall_impl; [|exact Hl]. intros s Hs.
      unfold storableEntry in Hs. apply andb_prop in Hs as [Hc _]. exact Hc.
Qed.

(** X10.  A movie comes back from [createMovie] with the genre list and
    the actor list it was given, provided no entry of either list holds a
    comma or has white space at one of its ends, and neither list is the
    list of one empty text; absent actors come back as the empty list. *)
Theorem lists_survive_storage (newId : string) (now : Z) (movieData : MovieRecord.t) :
  storableList (MovieRecord.genre movieData) ->
  (forall actors, MovieRecord.actors movieData = Some actors -> storableList actors) ->
  MovieRecord.genre (createMovie newId now movieData) = MovieRecord.genre movieData
  /\ MovieRecord.actors (createMovie newId now movieData)
     = Some match MovieRecord.actors movieData with
            | Some actors => actors
            | None => []
            end.
Proof.
  intros Hg Ha. unfold createMovie, convertDbMovieToMovie, movieRow.
  cbn [MovieRecord.genre MovieRecord.actors DbMovie.genre DbMovie.actors]. split.
  - apply splitList_join. exact Hg.
  - f_equal. destruct (MovieRecord.actors movieData) as [actors|]; [|reflexivity].
    cbn [option_map]. apply splitList_join. apply Ha. reflexivity.
Qed.

Lemma split_length (s : string) :
  length (JSString.split ","%char s) = S (commas s).
Proof.
  induction s as [|c s IH]; [reflexivity|].
  cbn [JSString.split commas]. destruct (Ascii.eqb c ",").
  - cbn [length]. rewrite IH. reflexivity.
  - destruct (JSString.split "," s) as [|p ps]; [discriminate|].
    cbn [length] in *. rewrite IH. reflexivity.
Qed.

Lemma commas_app (s t : string) : commas (s +:+ t) = (commas s + commas t)%nat.
Proof.
  induction s as [|c s IH]; [reflexivity|].
  change (String c s +:+ t) with (String c (s +:+ t)). cbn [commas]. rewrite IH. lia.
Qed.

Lemma length_commas_join (l : list string) :
  (length l <= S (commas (JSString.join "," l)))%nat.
Proof.
  induction l as [|x l IH]; [cbn; lia|].
  destruct l as [|y l]; [cbn; lia|].
  rewrite join_cons, commas_app. cbn [commas]. rewrite Ascii.eqb_refl.
  change (length (x :: y :: l)) with (S (length (y :: l))). lia.
Qed.

Lemma commas_join (l : list string) (g : string) :
  In g l -> (length l + commas g <= S (commas (JSString.join "," l)))%nat.
Proof.
  induction l as [|x l IH]; intros Hin; [contradiction|].
  destruct l as [|y l].
  - destruct Hin as [->|[]]. cbn. lia.
  - rewrite join_cons, commas_app. cbn [commas]. rewrite Ascii.eqb_refl.
    change (length (x :: y :: l)) with (S (length (y :: l))).
    destruct Hin as [->|Hin].
    + pose proof (length_commas_join (y :: l)). lia.
    + specialize (IH Hin). lia.
Qed.

Lemma commaFree_commas (s : string) : commaFree s = false -> (1 <= commas s)%nat.
Proof.
  induction s as [|c s IH]; [discriminate|].
  cbn [commaFree commas]. destruct (Ascii.eqb c ","); cbn; [lia|]. intros H. specialize (IH H). lia.
Qed.

(** X11.  What does not survive the storage.  A genre that holds a
    comma is cut at the comma: the movie comes back from [createMovie]
    with more genres than it was given.  A genre list that holds one empty
    text comes back as the empty list. *)
Theorem storage_changes_odd_genres (newId : string) (now : Z) (movieData : MovieRecord.t) :
  (forall g, In g (MovieRecord.genre movieData) -> commaFree g = false ->
     (length (MovieRecord.genre movieData)
      < length (MovieRecord.genre (createMovie newId now movieData)))%nat)
  /\ (MovieRecord.genre movieData = [EmptyString] ->
      MovieRecord.genre (createMovie newId now movieData) = []).
Proof.
  unfold createMovie, convertDbMovieToMovie, movieRow.
  cbn [MovieRecord.genre DbMovie.genre]. split.
  - intros g Hin Hc. unfold splitList, truthyStr.
    pose proof (commas_join _ _ Hin) as Hj. apply commaFree_commas in Hc.
    destruct (String.eqb (JSString.join "," (MovieRecord.genre movieData)) EmptyString) eqn:E.
    + apply String.eqb_eq in E. rewrite E in Hj. cbn [commas] in Hj.
      apply join_empty in E as [E|E]; rewrite E in Hin.
      * contradiction.
      * destruct Hin as [<-|[]]. cbn in Hc. lia.
    + cbn [negb]. rewrite length_map, split_length. lia.
  - intros ->. reflexivity.
Qed.

End StorageFacts.

Lemma lists_survive_storage_example :
  MovieRecord.genre
    (DatabaseService.createMovie "m9" 7 (movieData ["crime"; "sci-fi"] None))
  = ["crime"; "sci-fi"]
  /\ MovieRecord.actors
       (DatabaseService.createMovie "m9" 7 (movieData ["crime"; "sci-fi"] None))
     = Some [].
Proof.
  apply (lists_survive_storage "m9" 7 (movieData ["crime"; "sci-fi"] None)).
  - split; [repeat constructor | discriminate].
  - discriminate.
Defined.


(** ** The keys of the cache *)

Section SortedLists.
Context {A : Type} (before : A -> A -> bool).
Hypothesis before_irrefl : forall x, before x x = false.
Hypothesis before_trans :
  forall x y z, before x y = true -> before y z = true -> before x z = true.
Hypothesis before_total :
  forall x y, before x y = false -> before y x = false -> x = y.

Lemma notAfter_trans (x y z : A) :
  notAfter before x y -> notAfter before y z -> notAfter before x z.
Proof.
  unfold notAfter. intros Hxy Hyz.
  destruct (before z x) eqn:Hzx; [|reflexivity].
  destruct (before x y) eqn:E.
  - rewrite (before_trans z x y Hzx E) in Hyz. discriminate.
  - rewrite (before_total x y E Hxy) in Hzx. congruence.
Qed.

Lemma insert_ordered (x : A) (l : list A) :
  StronglySorted (notAfter before) l -> StronglySorted (notAfter before) (insert before x l).
Proof.
  induction l as [|y l IH]; intros Hs; cbn [insert].
  - repeat constructor.
  - inversion Hs as [|? ? Hs' Hall]; subst.
    destruct (before y x) eqn:E.
    + constructor; [apply IH; exact Hs'|].
      apply List.Forall_forall. intros z Hz.
      apply (Permutation_in _ (insert_perm before x l)) in Hz.
      destruct Hz as [<-|Hz].
      * unfold notAfter. destruct (before x y) eqn:E'; [|reflexivity].
        rewrite <- (before_irrefl y). symmetry. apply (before_trans y x y E E').
      * rewrite List.Forall_forall in Hall. apply Hall. exact Hz.
    + constructor; [exact Hs|]. constructor; [exact E|].
      apply List.Forall_forall. intros z Hz. rewrite List.Forall_forall in Hall.
      apply (notAfter_trans x y z E (Hall z Hz)).
Qed.

Lemma sortBy_ordered (l : list A) : StronglySorted (notAfter before) (sortBy before l).
Proof.
  induction l as [|x l IH]; cbn; [constructor|]. apply insert_ordered. exact IH.
Qed.

Lemma ordered_unique (l1 l2 : list A) :
  StronglySorted (notAfter before) l1 -> StronglySorted (notAfter before) l2 -> Permutation l1 l2 -> l1 = l2.
Proof.
  revert l2. induction l1 as [|a l1 IH]; intros l2 H1 H2 Hp.
  - apply Permutation_nil in Hp. symmetry. exact Hp.
  - destruct l2 as [|b l2]; [apply Permutation_sym, Permutation_nil in Hp; discriminate|].
    inversion H1 as [|? ? H1' Ha]; subst. inversion H2 as [|? ? H2' Hb]; subst.
    rewrite List.Forall_forall in Ha, Hb.
    assert (Hab : a = b).
    { assert (Hina : In a (b :: l2)) by (apply (Permutation_in _ Hp); left; reflexivity).
      assert (Hinb : In b (a :: l1))
        by (apply (Permutation_in _ (Permutation_sym Hp)); left; reflexivity).
      destruct Hina as [E|Hina]; [symmetry; exact E|].
      destruct Hinb as [E|Hinb]; [exact E|].
      apply before_total; [apply (Hb a Hina) | apply (Ha b Hinb)]. }
    subst b. f_equal. apply IH; [exact H1' | exact H2' |].
    apply Permutation_cons_inv in Hp. exact Hp.
Qed.

(** The stable sort by a strict total order does not depend on the order
    of its input. *)
Lemma sortBy_permutation (l1 l2 : list A) :
  Permutation l1 l2 -> sortBy before l1 = sortBy before l2.
Proof.
  intros Hp. apply ordered_unique; try apply sortBy_ordered.
  eapply Permutation_trans; [apply sortBy_perm|].
  eapply Permutation_trans; [exact Hp|]. apply Permutation_sym, sortBy_perm.
Qed.
End SortedLists.

Section CacheKeys.
Import CacheService.

Lemma ascii_compare_refl (a : ascii) : Ascii.compare a a = Eq.
Proof. unfold Ascii.compare. apply N.compare_refl. Qed.

Lemma string_compare_refl (s : string) : String.compare s s = Eq.
Proof.
  induction s as [|a s IH]; [reflexivity|]. cbn. rewrite ascii_compare_refl. exact IH.
Qed.

Lemma ascii_compare_lt_trans (a b c : ascii) :
  Ascii.compare a b = Lt -> Ascii.compare b c = Lt -> Ascii.compare a c = Lt.
Proof.
  unfold Ascii.compare. rewrite !N.compare_lt_iff. apply N.lt_trans.
Qed.

Lemma string_compare_lt_trans (s1 s2 s3 : string) :
  String.compare s1 s2 = Lt -> String.compare s2 s3 = Lt -> String.compare s1 s3 = Lt.
Proof.
  revert s2 s3. induction s1 as [|a s1 IH]; intros [|b s2] [|c s3]; cbn; try discriminate;
    try reflexivity.
  destruct (Ascii.compare a b) eqn:Eab; try discriminate.
  - apply Ascii.compare_eq_iff in Eab. subst b.
    destruct (Ascii.compare a c) eqn:Eac; try discriminate; try reflexivity.
    apply IH.
  - intros _. destruct (Ascii.compare b c) eqn:Ebc; try discriminate.
    + apply Ascii.compare_eq_iff in Ebc. subst c. rewrite Eab. reflexivity.
    + intros _. rewrite (ascii_compare_lt_trans a b c Eab Ebc). reflexivity.
Qed.

Lemma ltb_irrefl (s : string) : String.ltb s s = false.
Proof. unfold String.ltb. rewrite string_compare_refl. reflexivity. Qed.

Lemma ltb_trans (s1 s2 s3 : string) :
  String.ltb s1 s2 = true -> String.ltb s2 s3 = true -> String.ltb s1 s3 = true.
Proof.
  unfold String.ltb. intros H1 H2.
  destruct (String.compare s1 s2) eqn:E1; try discriminate.
  destruct (String.compare s2 s3) eqn:E2; try discriminate.
  rewrite (string_compare_lt_trans s1 s2 s3 E1 E2). reflexivity.
Qed.

Lemma ltb_total (s1 s2 : string) :
  String.ltb s1 s2 = false -> String.ltb s2 s1 = false -> s1 = s2.
Proof.
  unfold String.ltb. rewrite (String.compare_antisym s2 s1).
  destruct (String.compare s1 s2) eqn:E; cbn; try discriminate.
  intros _ _. apply String.compare_eq_iff. exact E.
Qed.

(** The key of an AI answer does not depend on the order in which the
    liked movies are listed. *)
Lemma aiKey_permutation (userId : string) (ids ids' : list string) :
  Permutation ids ids' -> aiKey userId ids = aiKey userId ids'.
Proof.
  intros Hp. unfold aiKey, sortedJoin.
  rewrite (sortBy_permutation (fun y x => String.ltb y x)
             ltb_irrefl ltb_trans ltb_total ids ids' Hp).
  reflexivity.
Qed.

(** X12.  An AI answer stored for a subject and a list of liked movies
    is found again under any reordering of that list: the identifiers are
    sorted before they are hashed into the key. *)
Theorem ai_answer_found_in_any_order (userId : string) (likedMovieIds reordered : list string)
    (response : list Recommendation) (c : cache) :
  Permutation likedMovieIds reordered ->
  getAIResponse userId reordered (setAIResponse userId likedMovieIds response c)
  = Some (Recommendations response).
Proof.
  intros Hp. unfold getAIResponse, setAIResponse, get, set.
  rewrite (aiKey_permutation userId likedMovieIds reordered Hp).
  rewrite lookup_insert_eq. reflexivity.
Qed.

Lemma app_inj_l (p s t : string) : p +:+ s = p +:+ t -> s = t.
Proof.
  induction p as [|a p IH]; [auto|]. rewrite !app_cons. intros [= H]. apply IH. exact H.
Qed.

(** Between identifiers without ['-'] the key of a recommendation list
    tells the subject and the strategy. *)
Lemma recommendationsKey_inj (u1 a1 u2 a2 : string) :
  hyphenFree u1 = true -> hyphenFree u2 = true ->
  recommendationsKey u1 a1 = recommendationsKey u2 a2 -> u1 = u2 /\ a1 = a2.
Proof.
  intros H1 H2 E. unfold recommendationsKey in E. apply app_inj_l in E.
  revert u2 H2 E. induction u1 as [|x u1 IH]; intros [|y u2] H2 E.
  - cbn in E. injection E as E. auto.
  - cbn in E. injection E as E _. subst y. cbn in H2. discriminate.
  - cbn in E. injection E as E _. subst x. cbn in H1. discriminate.
  - rewrite !app_cons in E. injection E as -> E.
    cbn [hyphenFree] in H1, H2.
    apply andb_prop in H1 as [_ H1]. apply andb_prop in H2 as [_ H2].
    destruct (IH H1 u2 H2 E) as [-> ->]. auto.
Qed.

(** X13.  A recommendation list read back right after it was stored is
    the list that was stored, and storing it changes the list of no other
    subject or strategy, provided the two subject identifiers hold no
    ['-']. *)
Theorem recommendation_entries_are_separate (userId algorithm : string)
    (recommendations : list Recommendation) (c : cache) :
  getRecommendations userId algorithm (setRecommendations userId algorithm recommendations c)
  = Some (Recommendations recommendations)
  /\ forall other strategy,
       hyphenFree userId = true -> hyphenFree other = true ->
       (other, strategy) <> (userId, algorithm) ->
       getRecommendations other strategy
         (setRecommendations userId algorithm recommendations c)
       = getRecommendations other strategy c.
Proof.
  unfold getRecommendations, setRecommendations, get, set. split.
  - rewrite lookup_insert_eq. reflexivity.
  - intros other strategy Hu Ho Hne. rewrite lookup_insert_ne; [reflexivity|].
    intros E. apply Hne. destruct (recommendationsKey_inj _ _ _ _ Hu Ho E) as [-> ->].
    reflexivity.
Qed.

(** [hash & hash] keeps the value up to a multiple of 2^32 and lands in
    the 32-bit range. *)
Lemma toInt32_spec (z : Z) :
  exists k, (toInt32 z = z - 2 ^ 32 * k /\ - 2 ^ 31 <= toInt32 z < 2 ^ 31)%Z.
Proof.
  unfold toInt32. exists ((z + 2 ^ 31) / 2 ^ 32)%Z.
  pose proof (Z.div_mod (z + 2 ^ 31) (2 ^ 32) ltac:(lia)) as H.
  pose proof (Z.mod_pos_bound (z + 2 ^ 31) (2 ^ 32) ltac:(lia)) as B.
  lia.
Qed.

Lemma hashLoop_app (a b : string) (hash : Z) :
  hashLoop (a +:+ b) hash = hashLoop b (hashLoop a hash).
Proof.
  revert hash. induction a as [|x a IH]; intros hash; [reflexivity|].
  rewrite app_cons. cbn [hashLoop]. apply IH.
Qed.

(** The two texts "Aa" and "BB" move every hash value to the same
    value: 31 * 65 + 97 = 31 * 66 + 66. *)
Lemma hashLoop_Aa_BB (hash : Z) : hashLoop "Aa" hash = hashLoop "BB" hash.
Proof.
  cbn [hashLoop].
  change (Z.of_nat (nat_of_ascii "A")) with 65%Z.
  change (Z.of_nat (nat_of_ascii "a")) with 97%Z.
  change (Z.of_nat (nat_of_ascii "B")) with 66%Z.
  destruct (toInt32_spec (hash * 32)) as (k1 & E1 & B1).
  set (t1 := toInt32 (hash * 32)) in *.
  destruct (toInt32_spec (t1 - hash + 65)) as (k2 & E2 & B2).
  set (t2 := toInt32 (t1 - hash + 65)) in *.
  destruct (toInt32_spec (t2 * 32)) as (k3 & E3 & B3).
  set (t3 := toInt32 (t2 * 32)) in *.
  destruct (toInt32_spec (t3 - t2 + 97)) as (k4 & E4 & B4).
  set (t4 := toInt32 (t3 - t2 + 97)) in *.
  destruct (toInt32_spec (t1 - hash + 66)) as (j2 & F2 & C2).
  set (s2 := toInt32 (t1 - hash + 66)) in *.
  destruct (toInt32_spec (s2 * 32)) as (j3 & F3 & C3).
  set (s3 := toInt32 (s2 * 32)) in *.
  destruct (toInt32_spec (s3 - s2 + 66)) as (j4 & F4 & C4).
  set (s4 := toInt32 (s3 - s2 + 66)) in *.
  lia.
Qed.

Lemma hashString_collision (before after : string) :
  hashString (before +:+ "Aa" +:+ after) = hashString (before +:+ "BB" +:+ after).
Proof.
  unfold hashString. rewrite !hashLoop_app, hashLoop_Aa_BB. reflexivity.
Qed.

(** X14.  The keys of the search results and of the AI answers hold the
    32-bit hash of the text only, and two different texts can share it:
    whatever stands before and after, a query with "Aa" and the same query
    with "BB" in its place are different texts with the same hash.  The
    results stored for the first query are returned for the second, and
    the AI answer stored for a subject who likes the one movie is returned
    for the same subject liking the other. *)
Theorem hashed_keys_collide (before after : string) (c : cache) :
  before +:+ "Aa" +:+ after <> before +:+ "BB" +:+ after
  /\ (forall results,
        getSearchResults (before +:+ "BB" +:+ after)
          (setSearchResults (before +:+ "Aa" +:+ after) results c)
        = Some (Movies results))
  /\ (forall userId response,
        getAIResponse userId [before +:+ "BB" +:+ after]
          (setAIResponse userId [before +:+ "Aa" +:+ after] response c)
        = Some (Recommendations response)).
Proof.
  split; [|split].
  - intros E. apply app_inj_l in E. discriminate.
  - intros results. unfold getSearchResults, setSearchResults, get, set.
    rewrite (hashString_collision before after), lookup_insert_eq. reflexivity.
  - intros userId response. unfold getAIResponse, setAIResponse, get, set, aiKey, sortedJoin.
    cbn [sortBy fold_right insert String.concat].
    rewrite (hashString_collision before after), lookup_insert_eq. reflexivity.
Qed.

Lemma delete_lookup (key k : string) (c : cache) :
  del key c !! k = if String.eqb k key then None else c !! k.
Proof.
  unfold del. destruct (String.eqb k key) eqn:E.
  - apply String.eqb_eq in E. subst k. apply lookup_delete_eq.
  - apply lookup_delete_ne. intros ->. rewrite String.eqb_refl in E. discriminate.
Qed.

(** X15.  What the three movie events delete, key by key.  An update or
    a deletion of a movie removes the entry of that movie, the list of all
    movies and every entry whose key starts with "recommendations-"; the
    creation of a movie removes the list of all movies and every entry
    whose key starts with "movie-" or with "recommendations-".  Every
    other entry stays as it is: after an update the entries of the other
    movies, and after any of the events the cached users, the genre lists
    and the search results are still served. *)
Theorem movie_events_scope (c : cache) :
  (forall movieId key,
     onMovieUpdate movieId c !! key
     = (if String.prefix "recommendations-" key || String.eqb key "all-movies"
           || String.eqb key ("movie-" +:+ movieId)
        then None else c !! key)
     /\ onMovieDelete movieId c !! key = onMovieUpdate movieId c !! key)
  /\ (forall key,
        onMovieCreate c !! key
        = if String.prefix "recommendations-" key || String.prefix "movie-" key
             || String.eqb key "all-movies"
          then None else c !! key)
  /\ (forall movieId,
        getMovie movieId (onMovieUpdate movieId c) = None
        /\ getMovies (onMovieUpdate movieId c) = None
        /\ getMovies (onMovieCreate c) = None
        /\ getMovie movieId (onMovieCreate c) = None
        /\ forall other, other <> movieId ->
             getMovie other (onMovieUpdate movieId c) = getMovie other c)
  /\ (forall movieId userId genre query,
        getUser userId (onMovieUpdate movieId c) = getUser userId c
        /\ getUser userId (onMovieCreate c) = getUser userId c
        /\ getGenreRecommendations genre (onMovieUpdate movieId c)
           = getGenreRecommendations genre c
        /\ getGenreRecommendations genre (onMovieCreate c) = getGenreRecommendations genre c
        /\ getSearchResults query (onMovieUpdate movieId c) = getSearchResults query c
        /\ getSearchResults query (onMovieCreate c) = getSearchResults query c).
Proof.
  assert (U : forall movieId key,
            onMovieUpdate movieId c !! key
            = if String.prefix "recommendations-" key || String.eqb key "all-movies"
                 || String.eqb key ("movie-" +:+ movieId)
              then None else c !! key).
  { intros movieId key. unfold onMovieUpdate, invalidateAllRecommendations, invalidateMovie.
    rewrite delStartingWith_lookup, !delete_lookup.
    destruct (String.prefix "recommendations-" key); [reflexivity|].
    destruct (String.eqb key "all-movies"); reflexivity. }
  assert (C : forall key,
            onMovieCreate c !! key
            = if String.prefix "recommendations-" key || String.prefix "movie-" key
                 || String.eqb key "all-movies"
              then None else c !! key).
  { intros key. unfold onMovieCreate, invalidateAllRecommendations, invalidateAllMovies.
    rewrite !delStartingWith_lookup, delete_lookup.
    destruct (String.prefix "recommendations-" key); [reflexivity|].
    destruct (String.prefix "movie-" key); reflexivity. }
  split; [|split; [|split]].
  - intros movieId key. split; [apply U | reflexivity].
  - exact C.
  - intros movieId. unfold getMovie, getMovies, get. rewrite !U, !C.
    rewrite String.eqb_refl, orb_true_r.
    change (String.prefix "movie-" ("movie-" +:+ movieId))
      with (String.prefix EmptyString movieId).
    rewrite prefix_nil. cbn [orb fmap option_fmap option_map].
    repeat split.
    intros other Hne. rewrite U.
    change (String.prefix "recommendations-" ("movie-" +:+ other)) with false.
    change (String.eqb ("movie-" +:+ other) "all-movies") with false. cbn [orb].
    destruct (String.eqb ("movie-" +:+ other) ("movie-" +:+ movieId)) eqn:E; [|reflexivity].
    apply String.eqb_eq, app_inj_l in E. contradiction.
  - intros movieId userId genre query.
    unfold getUser, getGenreRecommendations, getSearchResults, get. rewrite !U, !C.
    repeat split; reflexivity.
Qed.

End CacheKeys.

Lemma ai_answer_found_in_any_order_example :
  CacheService.getAIResponse "u1" ["m2"; "m1"]
    (CacheService.setAIResponse "u1" ["m1"; "m2"] [agreeCollab] plainCache)
  = Some (CacheService.Recommendations [agreeCollab]).
Proof.
  apply (ai_answer_found_in_any_order "u1" ["m1"; "m2"] ["m2"; "m1"] [agreeCollab] plainCache).
  apply perm_swap.
Defined.

(** ** What the recommendation route guarantees *)

Section RouteGuarantees.
Import Route.
Variable StringToNumber : string -> number.
Variable currentYear : Z.
Variable AIService_generateRecommendations :
  list Rating.t -> list Movie.t -> list Movie.t -> list Recommendation.
Variable zodErrors : smap raw -> string.

(** The two fields the controller reads, as the schema delivers them. *)
Lemma parseSchema_fields (q : smap raw) (parsed : Query) :
  parseSchema StringToNumber currentYear q = Some parsed ->
  optionalField zAlgorithm (processQuery StringToNumber q "algorithm")
  = Some (q_algorithm parsed)
  /\ optionalField (zInt (Some 1%Z) (Some 50%Z)) (processQuery StringToNumber q "limit")
     = Some (q_limit parsed).
Proof.
  unfold parseSchema.
  destruct (optionalField zAlgorithm _) as [a|]; [|discriminate].
  destruct (optionalField (zInt (Some 1%Z) (Some 50%Z)) _) as [l|]; [|discriminate].
  destruct (optionalField zStringArray _); [|discriminate].
  destruct (optionalField zBoolean _); [|discriminate].
  destruct (optionalField (zInt (Some 1800%Z) None) _); [|discriminate].
  destruct (optionalField (zInt None _) _); [|discriminate].
  intros [= <-]. split; reflexivity.
Qed.

(** The controller reads the strategy and the limit of the query, and
    nothing else of it. *)
Lemma getRecommendations_reads (db : Database) (user : option User.t) (q q' : Query) :
  q_algorithm q = q_algorithm q' -> q_limit q = q_limit q' ->
  getRecommendations AIService_generateRecommendations db user q
  = getRecommendations AIService_generateRecommendations db user q'.
Proof.
  intros Ha Hl. unfold getRecommendations. rewrite Ha, Hl. reflexivity.
Qed.

(** X16.  The route accepts the parameters [genres], [excludeWatched],
    [minYear] and [maxYear], and they change nothing: two requests by the
    same caller that pass the validation and agree on [algorithm] and
    [limit] get the same answer, whatever filters either of them
    carries. *)
Theorem filters_do_not_change_the_answer (db : Database) (req req' : Request) :
  rateLimited req = rateLimited req' -> auth req = auth req' ->
  map_get (query req) "algorithm" = map_get (query req') "algorithm" ->
  map_get (query req) "limit" = map_get (query req') "limit" ->
  parseSchema StringToNumber currentYear (query req) <> None ->
  parseSchema StringToNumber currentYear (query req') <> None ->
  handle StringToNumber currentYear AIService_generateRecommendations zodErrors db req
  = handle StringToNumber currentYear AIService_generateRecommendations zodErrors db req'.
Proof.
  intros Hr Hu Ha Hl Hp Hp'. unfold handle. rewrite Hr, Hu.
  destruct (rateLimited req'); [reflexivity|].
  destruct (auth req') as [| | |user]; try reflexivity.
  destruct (parseSchema _ _ (query req)) as [q|] eqn:E; [|contradiction].
  destruct (parseSchema _ _ (query req')) as [q'|] eqn:E'; [|contradiction].
  apply parseSchema_fields in E as [Ea El]. apply parseSchema_fields in E' as [Ea' El'].
  unfold processQuery in *. rewrite Ha in Ea. rewrite Hl in El.
  apply getRecommendations_reads; congruence.
Qed.

Lemma processValue_array (v : raw) (l : list string) :
  processValue StringToNumber v = PArray l -> v = RawArray l.
Proof.
  destruct v as [t|l'|]; cbn; try discriminate.
  - destruct (StringToNumber t); [discriminate|].
    destruct (String.eqb t "true"); [discriminate|].
    destruct (String.eqb t "false"); discriminate.
  - intros [= ->]. reflexivity.
Qed.

(** X17.  A [genres] parameter given once arrives as a text, never as
    the array the schema asks for, so the request does not pass the
    validation: once the rate limiter and the authentication have let it
    through it is answered with status 400, whatever the text is. *)
Theorem single_genre_parameter_rejected (db : Database) (req : Request) (genre : string) :
  map_get (query req) "genres" = Some (RawString genre) ->
  parseSchema StringToNumber currentYear (query req) = None
  /\ (rateLimited req = false ->
      forall user, auth req = Authenticated user ->
        handle StringToNumber currentYear AIService_generateRecommendations zodErrors db req
        = Failure 400 ("Query validation failed: " +:+ zodErrors (query req))).
Proof.
  intros Hq.
  assert (P : parseSchema StringToNumber currentYear (query req) = None).
  { unfold parseSchema, processQuery. rewrite Hq. cbn [option_map optionalField].
    destruct (zStringArray (processValue StringToNumber (RawString genre))) as [l|] eqn:E.
    - unfold zStringArray in E.
      destruct (processValue StringToNumber (RawString genre)) as [x|b|t|l'|] eqn:Ev;
        try discriminate.
      apply processValue_array in Ev. discriminate.
    - destruct (optionalField zAlgorithm _); [|reflexivity].
      destruct (optionalField (zInt (Some 1%Z) (Some 50%Z)) _); reflexivity. }
  split; [exact P|].
  intros Hrl user Hauth. unfold handle. rewrite Hrl, Hauth, P. reflexivity.
Qed.

Lemma zInt_bounds (lo hi : Z) (v : processed) (z : Z) :
  zInt (Some lo) (Some hi) v = Some z -> (lo <= z <= hi)%Z.
Proof.
  unfold zInt. destruct v as [x| | | |]; try discriminate.
  destruct (Req_dec_T x (IZR (Zfloor x))); [|discriminate].
  destruct (Z.leb_spec lo (Zfloor x)); [|discriminate].
  destruct (Z.leb_spec (Zfloor x) hi); [|discriminate].
  intros [= <-]. lia.
Qed.

(** X18.  A successful answer of the route for another strategy than
    "ai" holds at most as many recommendations as the request asks for:
    the integer from 1 to 50 that its [limit] parameter denotes, or 10
    when the request has no such parameter.  So it never holds more than
    50. *)
Theorem route_answers_within_limit (db : Database) (req : Request)
    (data : list Recommendation) (message : string) :
  handle StringToNumber currentYear AIService_generateRecommendations zodErrors db req
  = Success data message ->
  map_get (query req) "algorithm" <> Some (RawString "ai") ->
  exists limit,
    requestedLimit StringToNumber (query req) = Some limit
    /\ (1 <= limit <= 50)%Z
    /\ (Z.of_nat (length data) <= limit)%Z.
Proof.
  unfold handle. intros H Hai.
  destruct (rateLimited req); [discriminate|].
  destruct (auth req) as [| | |user]; try discriminate.
  destruct (parseSchema _ _ (query req)) as [q|] eqn:E; [|discriminate].
  apply parseSchema_fields in E as [Ea El]. unfold processQuery in Ea, El.
  exists (match q_limit q with Some l => l | None => 10%Z end).
  assert (Hr : requestedLimit StringToNumber (query req)
               = Some match q_limit q with Some l => l | None => 10%Z end).
  { unfold requestedLimit.
    destruct (map_get (query req) "limit") as [v|]; cbn [option_map optionalField] in El.
    - destruct (zInt _ _ _) as [z|] eqn:Ez; [|discriminate].
      injection El as <-. reflexivity.
    - injection El as <-. reflexivity. }
  assert (Hl : (1 <= match q_limit q with Some l => l | None => 10 end <= 50)%Z).
  { destruct (map_get (query req) "limit") as [v|]; cbn [option_map optionalField] in El.
    - destruct (zInt _ _ _) as [z|] eqn:Ez; [|discriminate].
      injection El as <-. apply zInt_bounds in Ez. exact Ez.
    - injection El as <-. lia. }
  assert (Hnot : q_algorithm q <> Some "ai").
  { intros Hq. rewrite Hq in Ea.
    destruct (map_get (query req) "algorithm") as [v|]; cbn [option_map optionalField] in Ea.
    - destruct (zAlgorithm _) as [s|] eqn:Ez; [|discriminate].
      injection Ea as ->. apply zAlgorithm_known in Ez as [Ez _].
      apply (processValue_string StringToNumber) in Ez. subst v. apply Hai. reflexivity.
    - discriminate. }
  split; [exact Hr|]. split; [exact Hl|].
  unfold getRecommendations in H.
  set (limit := match q_limit q with Some l => l | None => 10%Z end) in *.
  destruct (String.eqb _ "collaborative").
  { injection H as <- _. apply collaborative_length. lia. }
  destruct (String.eqb _ "content").
  { injection H as <- _. apply content_length. lia. }
  destruct (String.eqb _ "ai") eqn:Eai.
  { exfalso. apply Hnot. apply String.eqb_eq in Eai.
    destruct (q_algorithm q) as [a|]; [rewrite Eai; reflexivity | discriminate]. }
  injection H as <- _. apply hybrid_length. lia.
Qed.

End RouteGuarantees.

Lemma filters_do_not_change_the_answer_example :
  Route.handle (fun _ => NaN) 2025 (fun _ _ _ => []) (fun _ => EmptyString) smallDb
    plainRequest
  = Route.handle (fun _ => NaN) 2025 (fun _ _ _ => []) (fun _ => EmptyString) smallDb
      filteredRequest.
Proof.
  apply (filters_do_not_change_the_answer (fun _ => NaN) 2025 (fun _ _ _ => [])
           (fun _ => EmptyString) smallDb plainRequest filteredRequest);
    try reflexivity; discriminate.
Defined.

Lemma single_genre_parameter_rejected_example :
  Route.parseSchema (fun _ => NaN) 2025 (Route.query oneGenreRequest) = None
  /\ (Route.rateLimited oneGenreRequest = false ->
      forall user, Route.auth oneGenreRequest = Route.Authenticated user ->
        Route.handle (fun _ => NaN) 2025 (fun _ _ _ => []) (fun _ => "genres: Expected array")
          smallDb oneGenreRequest
        = Route.Failure 400 ("Query validation failed: " +:+ "genres: Expected array")).
Proof.
  apply (single_genre_parameter_rejected (fun _ => NaN) 2025 (fun _ _ _ => [])
           (fun _ => "genres: Expected array") smallDb oneGenreRequest "horror").
  reflexivity.
Defined.

(** The request for five recommendations is answered with the hybrid
    list cut to 5. *)
Lemma five_request_answer :
  Route.handle readFive 2025 (fun _ _ _ => []) (fun _ => EmptyString) smallDb fiveRequest
  = Route.Success
      (RecommendationEngine.generateHybridRecommendations smallDb "u1" (getMovies smallDb) 5)
      ("Generated "
       +:+ pretty (length (RecommendationEngine.generateHybridRecommendations smallDb "u1"
                             (getMovies smallDb) 5))
       +:+ " " +:+ "hybrid" +:+ " recommendations").
Proof.
  unfold Route.handle, Route.parseSchema, Route.processQuery. cbn [Route.rateLimited Route.auth
    Route.query fiveRequest map_get String.eqb Ascii.eqb Bool.eqb option_map
    Route.optionalField].
  change (Route.processValue readFive (Route.RawString "5")) with (Route.PNumber 5).
  unfold Route.zInt. change 5%R with (IZR 5). rewrite ZfloorZ.
  destruct (Req_dec_T (IZR 5) (IZR 5)) as [_|N]; [|contradiction].
  reflexivity.
Qed.

Lemma route_answers_within_limit_example :
  exists limit,
    requestedLimit readFive (Route.query fiveRequest) = Some limit
    /\ (1 <= limit <= 50)%Z
    /\ (Z.of_nat
          (length (RecommendationEngine.generateHybridRecommendations smallDb "u1"
                     (getMovies smallDb) 5)) <= limit)%Z.
Proof.
  apply (route_answers_within_limit readFive 2025 (fun _ _ _ => [])
           (fun _ => EmptyString) smallDb fiveRequest
           (RecommendationEngine.generateHybridRecommendations smallDb "u1"
              (getMovies smallDb) 5)
           ("Generated "
            +:+ pretty (length (RecommendationEngine.generateHybridRecommendations smallDb "u1"
                                  (getMovies smallDb) 5))
            +:+ " " +:+ "hybrid" +:+ " recommendations")).
  - exact five_request_answer.
  - discriminate.
Defined.

(** ** The fallback of the AI strategy *)

Section FallbackFacts.
Import AIService.
Local Open Scope R_scope.

Lemma countGenre_keys (genreCount : smap tally) (genre k : string) :
  In k (map fst (countGenre genreCount genre)) ->
  (k = genre /\ genre <> "__proto__") \/ In k (map fst genreCount).
Proof.
  unfold countGenre. destruct (String.eqb genre "__proto__") eqn:E; [right; assumption|].
  assert (Hne : genre <> "__proto__").
  { intros ->. discriminate. }
  intros H.
  assert (G : forall v, In k (map fst (map_set genreCount genre v)) ->
              (k = genre /\ genre <> "__proto__") \/ In k (map fst genreCount)).
  { intros v Hv. apply map_set_key_In in Hv as [->|Hv]; [left; split; auto | right; exact Hv]. }
  destruct (map_get genreCount genre) as [[n|]|]; [eapply G; exact H | eapply G; exact H |].
  destruct (includes inheritedNames genre); eapply G; exact H.
Qed.

Lemma countGenre_NoDup (genreCount : smap tally) (genre : string) :
  List.NoDup (map fst genreCount) -> List.NoDup (map fst (countGenre genreCount genre)).
Proof.
  intros H. unfold countGenre. destruct (String.eqb genre "__proto__"); [exact H|].
  destruct (map_get genreCount genre) as [[n|]|]; try (apply map_set_NoDup; exact H).
  destruct (includes inheritedNames genre); apply map_set_NoDup; exact H.
Qed.

(** The names in [genreCount] after the two nested loops: no name twice,
    each the genre of one of the movies, none of them ["__proto__"]. *)
Lemma genreCount_keys (movies : list Movie.t) :
  let genreCount :=
    fold_left (fun genreCount movie => fold_left countGenre (Movie.genre movie) genreCount)
      movies [] in
  List.NoDup (map fst genreCount)
  /\ forall k, In k (map fst genreCount) ->
       k <> "__proto__" /\ exists movie, In movie movies /\ In k (Movie.genre movie).
Proof.
  set (P := fun (known : list Movie.t) (o : smap tally) =>
              List.NoDup (map fst o)
              /\ forall k, In k (map fst o) ->
                   k <> "__proto__"
                   /\ exists movie, In movie known /\ In k (Movie.genre movie)).
  assert (Inner : forall movie known genres o,
            (forall g, In g genres -> In g (Movie.genre movie)) -> In movie known ->
            P known o -> P known (fold_left countGenre genres o)).
  { intros movie known genres. induction genres as [|g genres IH]; intros o Hg Hm Ho;
      [exact Ho|].
    cbn [fold_left]. apply IH; [intros g' Hg'; apply Hg; right; exact Hg' | exact Hm |].
    destruct Ho as [Hnd Hk]. split; [apply countGenre_NoDup; exact Hnd|].
    intros k Hin. apply countGenre_keys in Hin as [[-> Hne]|Hin]; [|apply Hk; exact Hin].
    split; [exact Hne|]. exists movie. split; [exact Hm | apply Hg; left; reflexivity]. }
  assert (Weaken : forall known known' o,
            (forall m, In m known -> In m known') -> P known o -> P known' o).
  { intros known known' o Hsub [Hnd Hk]. split; [exact Hnd|].
    intros k Hin. destruct (Hk k Hin) as (Hne & m & Hm & Hg).
    split; [exact Hne|]. exists m. split; [apply Hsub; exact Hm | exact Hg]. }
  assert (Outer : forall rest known o,
            P known o ->
            P (known ++ rest)
              (fold_left
                 (fun genreCount movie => fold_left countGenre (Movie.genre movie) genreCount)
                 rest o)).
  { induction rest as [|movie rest IH]; intros known o Ho; cbn [fold_left].
    - rewrite app_nil_r. exact Ho.
    - replace (known ++ movie :: rest) with ((known ++ [movie]) ++ rest)
        by (rewrite <- app_assoc; reflexivity).
      apply IH. apply (Inner movie); [auto | apply in_or_app; right; left; reflexivity|].
      apply (Weaken known); [|exact Ho]. intros m Hm. apply in_or_app. left. exact Hm. }
  apply (Outer movies [] []). split; [constructor | intros k []].
Qed.

Lemma objectKeys_perm {V : Type} (o : smap V) : Permutation (objectKeys o) (map fst o).
Proof.
  unfold objectKeys.
  eapply Permutation_trans; [apply Permutation_app_tail, sortBy_perm|].
  induction (map fst o) as [|k l IH]; [constructor|].
  cbn [List.filter]. destruct (isArrayIndex k); cbn [negb app].
  - constructor. exact IH.
  - eapply Permutation_trans; [apply Permutation_sym, Permutation_middle|].
    constructor. exact IH.
Qed.

(** X19.  [extractGenres] returns at most five genres, no genre twice,
    each of them a genre of one of the movies it was given, and never the
    name ["__proto__"]. *)
Theorem extracted_genres_are_liked_genres (movies : list Movie.t) :
  (length (extractGenres movies) <= 5)%nat
  /\ List.NoDup (extractGenres movies)
  /\ Forall (fun genre =>
               genre <> "__proto__"
               /\ exists movie, In movie movies /\ In genre (Movie.genre movie))
       (extractGenres movies).
Proof.
  destruct (genreCount_keys movies) as [Hnd Hk]. cbv zeta in Hnd, Hk.
  unfold extractGenres.
  set (genreCount :=
         fold_left (fun genreCount movie =>
                      fold_left countGenre (Movie.genre movie) genreCount) movies []) in *.
  split; [|split].
  - rewrite slice0_nonneg by lia. rewrite length_firstn. change (Z.to_nat 5) with 5%nat. lia.
  - rewrite slice0_nonneg by lia. apply NoDup_firstn. unfold sort.
    eapply Permutation_NoDup; [apply Permutation_sym, sortBy_perm|].
    eapply Permutation_NoDup; [apply Permutation_sym, objectKeys_perm | exact Hnd].
  - apply List.Forall_forall. intros genre Hin. apply In_rank in Hin.
    apply (Permutation_in _ (objectKeys_perm genreCount)) in Hin. apply Hk. exact Hin.
Qed.

(** The entry of the fallback for one movie: its score is a number
    between 0.1 and 0.9, whatever the flags are. *)
Lemma fallback_score (genreMatch near mid recent : bool) :
  exists x,
    JS.min
      (let score := Num 0.1 in
       let score := if genreMatch then (score + Num 0.4)%js else score in
       let score :=
         if near then (score + Num 0.3)%js else if mid then (score + Num 0.2)%js else score in
       if recent then (score + Num 0.1)%js else score)
      (Num 1.0)
    = Num x /\ 0.1 <= x <= 0.9.
Proof.
  destruct genreMatch, near, mid, recent; cbn; eexists; (split; [reflexivity|]);
    unfold Rmin; match goal with |- context [Rle_dec ?a ?b] => destruct (Rle_dec a b) end; lra.
Qed.

Lemma getFallbackRecommendations_In (likedMovies allMovies : list Movie.t)
    (r : Recommendation) :
  In r (getFallbackRecommendations likedMovies allMovies) ->
  In (movie r) allMovies
  /\ existsb (fun liked => String.eqb (Movie.id liked) (recId r)) likedMovies = false
  /\ exists x, score r = Num x /\ 0.1 <= x <= 0.9.
Proof.
  unfold getFallbackRecommendations. intros H. apply In_rank in H.
  apply in_map_iff in H as (m & <- & Hm). apply filter_In in Hm as [Hm Hl].
  cbn [movie score]. unfold recId. cbn [movie].
  split; [exact Hm|]. split; [apply negb_true_iff; exact Hl|].
  apply fallback_score.
Qed.

(** X20.  [getFallbackRecommendations] returns at most 10 entries, in
    descending order of score; each is a movie of the catalog whose
    identity is not the identity of a liked movie, with a score that is a
    number between 0.1 and 0.9, so the bound 1.0 of [Math.min] is never
    reached. *)
Theorem fallback_recommendations_sound (likedMovies allMovies : list Movie.t) :
  (length (getFallbackRecommendations likedMovies allMovies) <= 10)%nat
  /\ Forall (fun r =>
               In (movie r) allMovies
               /\ existsb (fun liked => String.eqb (Movie.id liked) (recId r)) likedMovies
                  = false
               /\ exists x, score r = Num x /\ 0.1 <= x <= 0.9)
       (getFallbackRecommendations likedMovies allMovies)
  /\ StronglySorted (fun a b => scoreOf a >= scoreOf b)
       (getFallbackRecommendations likedMovies allMovies).
Proof.
  split; [|split].
  - unfold getFallbackRecommendations. rewrite slice0_nonneg by lia.
    rewrite length_firstn. change (Z.to_nat 10) with 10%nat. lia.
  - apply List.Forall_forall. intros r Hr. apply getFallbackRecommendations_In. exact Hr.
  - unfold getFallbackRecommendations.
    match goal with |- StronglySorted _ (slice0 (sort _ ?l) ?e) =>
      change (StronglySorted (fun a b => scoreOf a >= scoreOf b) (rankByScore l e)) end.
    apply rankByScore_descending. apply List.Forall_forall. intros r Hr.
    apply in_map_iff in Hr as (m & <- & _). unfold numeric. cbn [score].
    match goal with |- JS.min ?s _ <> NaN =>
      assert (E : exists x, JS.min s (Num 1.0) = Num x /\ 0.1 <= x <= 0.9)
        by apply fallback_score end.
    destruct E as (x & -> & _). discriminate.
Qed.

Lemma year_sort_sorted (l : list Movie.t) :
  StronglySorted (fun a b => (Movie.year a >= Movie.year b)%Z)
    (sort (fun a b => (of_Z (Movie.year b) - of_Z (Movie.year a))%js) l).
Proof.
  unfold sort.
  assert (H : StronglySorted (fun a b => IZR (Movie.year a) >= IZR (Movie.year b))
                (sortBy (fun y x =>
                           gtb (of_Z (Movie.year y) - of_Z (Movie.year x))%js (Num 0)) l)).
  { apply (sortBy_sorted _ (fun m => IZR (Movie.year m)) (fun _ => True)).
    - intros x y _ _. unfold gtb, ltb, sub, of_Z.
      destruct (Rlt_dec 0 (IZR (Movie.year y) - IZR (Movie.year x)));
        split; intros; try discriminate; try reflexivity; lra.
    - apply List.Forall_forall. intros; exact I. }
  revert H. generalize (sortBy (fun y x =>
                           gtb (of_Z (Movie.year y) - of_Z (Movie.year x))%js (Num 0)) l).
  intros s Hs. induction Hs as [|a s Hs IH Hall]; constructor; [exact IH|].
  apply List.Forall_forall. intros b Hb. rewrite List.Forall_forall in Hall.
  apply Z.le_ge. apply le_IZR. apply Rge_le. apply Hall. exact Hb.
Qed.

(** X21.  The popularity list of the AI strategy holds the ten newest
    movies of the catalog, fewer if the catalog is smaller, newest first;
    the movie at rank [i] carries the score 0.8 - 0.05 * i, which stays
    between 0.35 and 0.8. *)
Theorem ai_popular_movies_newest_first (allMovies : list Movie.t) :
  length (getPopularMovies allMovies) = Nat.min 10 (length allMovies)
  /\ Forall (fun r => In (movie r) allMovies) (getPopularMovies allMovies)
  /\ StronglySorted (fun a b => (Movie.year (movie a) >= Movie.year (movie b))%Z)
       (getPopularMovies allMovies)
  /\ forall i r, nth_error (getPopularMovies allMovies) i = Some r ->
       score r = Num (0.8 - IZR (Z.of_nat i) * 0.05)
       /\ 0.35 <= 0.8 - IZR (Z.of_nat i) * 0.05 <= 0.8
       /\ reason r = "Popular recent movie".
Proof.
  assert (M : map movie (getPopularMovies allMovies)
              = firstn 10
                  (sort (fun a b => (of_Z (Movie.year b) - of_Z (Movie.year a))%js)
                     allMovies)).
  { unfold getPopularMovies, mapi. rewrite mapi_from_map by reflexivity.
    rewrite slice0_nonneg by lia. reflexivity. }
  assert (L : length (getPopularMovies allMovies) = Nat.min 10 (length allMovies)).
  { rewrite <- (length_map movie), M, length_firstn. unfold sort. rewrite sortBy_length.
    reflexivity. }
  split; [exact L|]. split; [|split].
  - apply List.Forall_forall. intros r Hr. apply (in_map movie) in Hr. rewrite M in Hr.
    apply In_firstn in Hr. unfold sort in Hr. apply (proj1 (sortBy_In _ _ _)) in Hr. exact Hr.
  - assert (S : StronglySorted (fun a b => (Movie.year a >= Movie.year b)%Z)
                  (map movie (getPopularMovies allMovies))).
    { rewrite M. apply StronglySorted_firstn. apply year_sort_sorted. }
    revert S. generalize (getPopularMovies allMovies). intros l.
    induction l as [|a l IH]; intros S; [constructor|].
    cbn [map] in S. inversion S as [|? ? S' Hall]; subst.
    constructor; [apply IH; exact S'|].
    apply List.Forall_forall. intros b Hb. rewrite List.Forall_forall in Hall.
    apply Hall. apply in_map. exact Hb.
  - intros i r Hi.
    assert (Hlt : (i < 10)%nat).
    { assert (i < length (getPopularMovies allMovies))%nat
        by (apply nth_error_Some; rewrite Hi; discriminate).
      lia. }
    unfold getPopularMovies, mapi in Hi. apply mapi_from_nth in Hi as (m & _ & ->).
    cbn [score reason]. change (0 + i)%nat with i. unfold of_nat. cbn [mul sub].
    split; [reflexivity|]. split; [|reflexivity].
    assert (0 <= IZR (Z.of_nat i) <= 9).
    { split; apply IZR_le; lia. }
    lra.
Qed.

End FallbackFacts.

(** ** Rating a movie *)

Section RatingFacts.
Import AIService RatingRoute.
Variable storable : R -> bool.
Variable now : Z.

Lemma createOrUpdateRating_unfold (db : Database) (userId movieId : string)
    (rating : R) (liked : bool) :
  createOrUpdateRating storable now db userId movieId rating liked
  = if storable rating then
      match find (samePair userId movieId) (ratings db) with
      | Some row =>
          Some ({| users := users db; movies := movies db;
                   ratings := map (fun r => if samePair userId movieId r
                                            then restamp rating liked r else r)
                                (ratings db) |},
                restamp rating liked row)
      | None =>
          Some ({| users := users db; movies := movies db;
                   ratings := ratings db ++ [Rating.mk userId movieId rating liked now] |},
                Rating.mk userId movieId rating liked now)
      end
    else None.
Proof. reflexivity. Qed.

(** The ratings after a successful [createOrUpdateRating]: the rows of
    the pair carry the new stars and the new flag, there is such a row,
    and the rows of every other pair are the rows there were. *)
Lemma createOrUpdateRating_ratings (db db' : Database) (userId movieId : string)
    (rating : R) (liked : bool) (row : Rating.t) :
  createOrUpdateRating storable now db userId movieId rating liked = Some (db', row) ->
  users db' = users db /\ movies db' = movies db
  /\ In row (ratings db') /\ samePair userId movieId row = true
  /\ (forall r, In r (ratings db') -> samePair userId movieId r = true ->
        Rating.rating r = rating /\ Rating.liked r = liked)
  /\ (forall r, samePair userId movieId r = false ->
        (In r (ratings db') <-> In r (ratings db)))
  /\ map pairOf (ratings db')
     = map pairOf (ratings db)
       ++ (if existsb (samePair userId movieId) (ratings db) then []
           else [(userId, movieId)]).
Proof.
  rewrite createOrUpdateRating_unfold. destruct (storable rating); [|discriminate].
  assert (Hkeep : forall r, samePair userId movieId (restamp rating liked r)
                            = samePair userId movieId r) by reflexivity.
  destruct (find (samePair userId movieId) (ratings db)) as [old|] eqn:E.
  - intros [= <- <-]. cbn [users movies ratings].
    apply find_some in E as [Hold Hsame].
    split; [reflexivity|]. split; [reflexivity|]. split; [|split; [|split; [|split]]].
    + apply in_map_iff. exists old. rewrite Hsame. split; [reflexivity | exact Hold].
    + rewrite Hkeep. exact Hsame.
    + intros r Hr Hs. apply in_map_iff in Hr as (r0 & <- & _).
      destruct (samePair userId movieId r0) eqn:E0; [split; reflexivity|].
      rewrite E0 in Hs. discriminate.
    + intros r Hs. split.
      * intros Hr. apply in_map_iff in Hr as (r0 & <- & Hr0).
        destruct (samePair userId movieId r0) eqn:E0; [|exact Hr0].
        rewrite Hkeep, E0 in Hs. discriminate.
      * intros Hr. apply in_map_iff. exists r. rewrite Hs. split; [reflexivity | exact Hr].
    + assert (Hex : existsb (samePair userId movieId) (ratings db) = true).
      { apply existsb_exists. exists old. split; assumption. }
      rewrite Hex, app_nil_r, map_map. apply map_ext. intros r.
      destruct (samePair userId movieId r); reflexivity.
  - intros [= <- <-]. cbn [users movies ratings].
    assert (Hnone : forall r, In r (ratings db) -> samePair userId movieId r = false).
    { intros r Hr. apply (find_none _ _ E). exact Hr. }
    assert (Hrow : samePair userId movieId (Rating.mk userId movieId rating liked now) = true).
    { unfold samePair. cbn. rewrite !String.eqb_refl. reflexivity. }
    split; [reflexivity|]. split; [reflexivity|]. split; [|split; [|split; [|split]]].
    + apply in_or_app. right. left. reflexivity.
    + exact Hrow.
    + intros r Hr Hs. apply in_app_or in Hr as [Hr|[<-|[]]]; [|split; reflexivity].
      rewrite (Hnone r Hr) in Hs. discriminate.
    + intros r Hs. rewrite in_app_iff. split; [|intros Hr; left; exact Hr].
      intros [Hr|[<-|[]]]; [exact Hr|]. rewrite Hrow in Hs. discriminate.
    + assert (Hex : existsb (samePair userId movieId) (ratings db) = false).
      { apply not_true_is_false. intros H. apply existsb_exists in H as (r & Hr & Hs).
        rewrite (Hnone r Hr) in Hs. discriminate. }
      rewrite Hex, map_app. reflexivity.
Qed.

Lemma rateMovie_success (db db' : Database) (user : User.t) (movieId : string) (body : Body)
    (newRating : Rating.t) (message : string) :
  rateMovie storable now db (Some user) movieId body = (db', Rated newRating message) ->
  (exists movie, getMovieById db movieId = Some movie)
  /\ createOrUpdateRating storable now db (User.id user) movieId (starsOf body) (flagOf body)
     = Some (db', newRating).
Proof.
  unfold rateMovie. fold (starsOf body). fold (flagOf body).
  destruct (getMovieById db movieId) as [movie|]; [|discriminate].
  destruct (createOrUpdateRating _ _ _ _ _ _ _) as [[d r]|]; [|discriminate].
  intros [= <- <- _]. split; [exists movie|]; reflexivity.
Qed.

Lemma samePair_pairOf (userId movieId : string) (r : Rating.t) :
  samePair userId movieId r = true <-> pairOf r = (userId, movieId).
Proof.
  unfold samePair, pairOf. rewrite andb_true_iff, !String.eqb_eq. split.
  - intros [-> ->]. reflexivity.
  - intros [= -> ->]. auto.
Qed.

(** X22.  After [rateMovie] has answered with success, the movie is in
    the catalog and the subject has a rating for it; every rating of the
    subject for that movie carries the stars of the request (0 when the
    request gave none) and its flag (stars above 3 when it gave none);
    the ratings of every other pair of subject and movie, the users and
    the movies are as before; and if no pair had two ratings before, none
    has two now. *)
Theorem rated_movie_is_recorded (db db' : Database) (user : User.t) (movieId : string)
    (body : Body) (newRating : Rating.t) (message : string) :
  rateMovie storable now db (Some user) movieId body = (db', Rated newRating message) ->
  users db' = users db /\ movies db' = movies db
  /\ (exists movie, getMovieById db movieId = Some movie)
  /\ ratedBy db' (User.id user) movieId = true
  /\ (forall r, In r (ratings db') -> samePair (User.id user) movieId r = true ->
        Rating.rating r = starsOf body /\ Rating.liked r = flagOf body)
  /\ (forall r, samePair (User.id user) movieId r = false ->
        (In r (ratings db') <-> In r (ratings db)))
  /\ (List.NoDup (map pairOf (ratings db)) -> List.NoDup (map pairOf (ratings db'))).
Proof.
  intros H. apply rateMovie_success in H as [Hmovie H].
  apply createOrUpdateRating_ratings in H as (Hu & Hm & Hrow & Hsame & Hnew & Hold & Hpairs).
  split; [exact Hu|]. split; [exact Hm|]. split; [exact Hmovie|].
  split; [|split; [exact Hnew|split; [exact Hold|]]].
  - unfold ratedBy. apply existsb_exists. exists newRating. split; [exact Hrow | exact Hsame].
  - intros Hnd. rewrite Hpairs.
    destruct (existsb (samePair (User.id user) movieId) (ratings db)) eqn:E;
      [rewrite app_nil_r; exact Hnd|].
    apply List.NoDup_app; [exact Hnd | repeat constructor; intros [] |].
    intros p Hp [<-|[]]. apply in_map_iff in Hp as (r & Hr & Hin).
    apply samePair_pairOf in Hr.
    assert (existsb (samePair (User.id user) movieId) (ratings db) = true); [|congruence].
    apply existsb_exists. exists r. split; assumption.
Qed.

(** X23.  Once a subject has rated a movie with success, the
    collaborative recommender does not recommend that movie to the subject
    any more, and neither does the content recommender as soon as it
    finds a liked movie of the subject. *)
Theorem rated_movie_is_not_recommended_again (db db' : Database) (user : User.t)
    (movieId : string) (body : Body) (newRating : Rating.t) (message : string)
    (allMovies : list Movie.t) (limit : Z) :
  rateMovie storable now db (Some user) movieId body = (db', Rated newRating message) ->
  Forall (fun r => recId r <> movieId)
    (RecommendationEngine.generateCollaborativeRecommendations db' (User.id user)
       allMovies limit)
  /\ (likedMoviesOf db' (User.id user) <> [] ->
      Forall (fun r => recId r <> movieId)
        (RecommendationEngine.generateContentBasedRecommendations db' (User.id user)
           allMovies limit)).
Proof.
  intros H. apply rateMovie_success in H as [_ H].
  apply createOrUpdateRating_ratings in H as (_ & _ & Hrow & Hsame & _).
  assert (Hrated : ratedBy db' (User.id user) movieId = true).
  { unfold ratedBy. apply existsb_exists. exists newRating. split; [exact Hrow | exact Hsame]. }
  assert (Hwatched : ratingsOf (User.id user) (ratings db') <> []).
  { unfold ratingsOf. intros E.
    assert (Hin : In newRating
                    (List.filter (fun r => String.eqb (Rating.userId r) (User.id user))
                       (ratings db'))).
    { apply filter_In. split; [exact Hrow|].
      unfold samePair in Hsame. apply andb_prop in Hsame. exact (proj1 Hsame). }
    rewrite E in Hin. exact Hin. }
  split.
  - apply List.Forall_forall. intros r Hin Hid.
    unfold RecommendationEngine.generateCollaborativeRecommendations, getAllRatings,
      getAllUsers in Hin.
    unfold ratingsOf in Hwatched.
    destruct (List.filter _ (ratings db')) as [|r0 l] eqn:E; [contradiction|].
    cbn [length Nat.eqb] in Hin.
    unfold RecommendationEngine.getRecommendationsFromSimilarUsers in Hin.
    apply In_rank in Hin. apply scoredMovies_origin in Hin as [Hk _].
    apply tallyScores_origin in Hk as (item & rating & _ & _ & He & Hrid).
    unfold endorses in He. apply andb_prop in He as [_ He]. apply negb_true_iff in He.
    rewrite ratedBy_spec in Hrated. unfold ratingsOf in Hrated.
    rewrite Hrid, Hid in He. congruence.
  - intros Hliked. apply List.Forall_forall. intros r Hin Hid.
    unfold RecommendationEngine.generateContentBasedRecommendations in Hin.
    change (flat_map _ (List.filter _ (getUserRatings db' (User.id user))))
      with (likedMoviesOf db' (User.id user)) in Hin.
    destruct (likedMoviesOf db' (User.id user)) as [|m0 ms]; [contradiction|].
    cbn [length Nat.eqb] in Hin. apply In_rank in Hin.
    apply in_map_iff in Hin as (mv & <- & Hmv). apply filter_In in Hmv as [_ Hmv].
    apply negb_true_iff in Hmv. unfold recId in Hid. cbn [movie] in Hid.
    rewrite ratedBy_userRatings, Hid in Hmv. congruence.
Qed.

(** X24.  A request whose body marks the movie as liked and names no
    stars passes [RatingSchema]; when it is answered with success the
    rating is stored with 0 stars, and the movie is then not among the
    liked movies that the content recommender builds on, which takes a
    rating as a like from 4 stars on. *)
Theorem like_without_stars_is_not_a_like (zodErrors : json -> string) (db db' : Database)
    (user : User.t) (movieId : string) (fields : smap json) (newRating : Rating.t)
    (message : string) :
  map_get fields "rating" = None -> map_get fields "liked" = Some (JBool true) ->
  rate storable now zodErrors db (Some user) movieId (JObject fields)
  = (db', Rated newRating message) ->
  Rating.rating newRating = 0%R /\ Rating.liked newRating = true
  /\ Forall (fun m => Movie.id m <> movieId) (likedMoviesOf db' (User.id user)).
Proof.
  intros Hstars Hliked H. unfold rate, parseRatingSchema in H.
  rewrite Hstars, Hliked in H. cbn [zStars zLiked] in H.
  destruct (zReview (map_get fields "review")) as [review|]; [|discriminate].
  apply rateMovie_success in H as [_ H]. cbn [starsOf flagOf b_rating b_liked] in H.
  apply createOrUpdateRating_ratings in H as (_ & _ & Hrow & Hsame & Hnew & _).
  destruct (Hnew newRating Hrow Hsame) as [Hzero Hflag].
  split; [exact Hzero|]. split; [exact Hflag|].
  apply List.Forall_forall. intros m Hm Hid.
  unfold likedMoviesOf in Hm. apply in_flat_map in Hm as (r & Hr & Hm).
  apply filter_In in Hr as [Hr Hlike].
  unfold getUserRatings in Hr. apply (proj1 (sortBy_In _ _ _)) in Hr.
  apply filter_In in Hr as [Hr Hu].
  unfold getMovieById in Hm.
  destruct (find _ (movies db')) as [m'|] eqn:E; [|contradiction].
  destruct Hm as [<-|[]]. apply find_some in E as [_ E]. apply String.eqb_eq in E.
  assert (Hs : samePair (User.id user) movieId r = true).
  { unfold samePair. rewrite Hu. cbn [andb]. apply String.eqb_eq. congruence. }
  destruct (Hnew r Hr Hs) as [Hr0 _].
  apply andb_prop in Hlike as [_ H4]. rewrite Hr0 in H4.
  unfold geb, leb in H4. destruct (Rle_dec 4 0); [lra | discriminate].
Qed.

End RatingFacts.

Lemma rated_movie_is_recorded_example :
  users (ratedDb 5) = users agreeDb /\ movies (ratedDb 5) = movies agreeDb
  /\ (exists movie, getMovieById agreeDb "m3" = Some movie)
  /\ ratedBy (ratedDb 5) (User.id ann) "m3" = true
  /\ (forall r, In r (ratings (ratedDb 5)) -> samePair (User.id ann) "m3" r = true ->
        Rating.rating r = starsOf fiveStars /\ Rating.liked r = flagOf fiveStars)
  /\ (forall r, samePair (User.id ann) "m3" r = false ->
        (In r (ratings (ratedDb 5)) <-> In r (ratings agreeDb)))
  /\ (List.NoDup (map pairOf (ratings agreeDb)) ->
      List.NoDup (map pairOf (ratings (ratedDb 5)))).
Proof.
  apply (rated_movie_is_recorded (fun _ => true) 9 agreeDb (ratedDb 5) ann "m3" fiveStars
           (Rating.mk "u1" "m3" 5 true 9) "Movie rated successfully").
  reflexivity.
Defined.

Lemma rated_movie_is_not_recommended_again_example :
  Forall (fun r => recId r <> "m3")
    (RecommendationEngine.generateCollaborativeRecommendations (ratedDb 5) (User.id ann)
       agreeMovies 10)
  /\ (likedMoviesOf (ratedDb 5) (User.id ann) <> [] ->
      Forall (fun r => recId r <> "m3")
        (RecommendationEngine.generateContentBasedRecommendations (ratedDb 5) (User.id ann)
           agreeMovies 10)).
Proof.
  apply (rated_movie_is_not_recommended_again (fun _ => true) 9 agreeDb (ratedDb 5) ann "m3"
           fiveStars (Rating.mk "u1" "m3" 5 true 9) "Movie rated successfully"
           agreeMovies 10).
  reflexivity.
Defined.

Lemma like_without_stars_is_not_a_like_example :
  Rating.rating (Rating.mk "u1" "m3" 0 true 9) = 0%R
  /\ Rating.liked (Rating.mk "u1" "m3" 0 true 9) = true
  /\ Forall (fun m => Movie.id m <> "m3") (likedMoviesOf (ratedDb 0) (User.id ann)).
Proof.
  apply (like_without_stars_is_not_a_like (fun _ => true) 9 (fun _ => EmptyString)
           agreeDb (ratedDb 0) ann "m3" [ ("liked", AIService.JBool true) ]
           (Rating.mk "u1" "m3" 0 true 9) "Movie rated successfully");
    reflexivity.
Defined.

(** ** The genre route and the pages of the catalog *)

Section GenreFacts.
Import GenreRoute.
Local Open Scope R_scope.

Lemma getMovies_In (db : Database) (m : Movie.t) : In m (getMovies db) <-> In m (movies db).
Proof. unfold getMovies. apply sortBy_In. Qed.

(** X25.  The genre route answers with status 404 exactly when no movie
    of the catalog has the genre, capitals and small letters taken as the
    same.  Otherwise it answers with between 1 and 10 movies that all have
    the genre, the newest first, the movie at rank [i] carrying the score
    0.9 - 0.05 * i, which stays between 0.45 and 0.9. *)
Theorem genre_recommendations_sound (db : Database) (genre : string) :
  match getGenreRecommendations db genre with
  | Route.Failure status error =>
      status = 404%Z /\ Forall (fun m => hasGenre genre m = false) (movies db)
  | Route.Success data message =>
      (1 <= length data <= 10)%nat
      /\ Forall (fun r => In (movie r) (movies db) /\ hasGenre genre (movie r) = true) data
      /\ StronglySorted (fun a b => (Movie.year (movie a) >= Movie.year (movie b))%Z) data
      /\ forall i r, nth_error data i = Some r ->
           score r = Num (0.9 - IZR (Z.of_nat i) * 0.05)
           /\ 0.45 <= 0.9 - IZR (Z.of_nat i) * 0.05 <= 0.9
  end.
Proof.
  unfold getGenreRecommendations.
  set (genreMovies := List.filter (hasGenre genre) (getMovies db)).
  destruct (length genreMovies =? 0)%nat eqn:E.
  - split; [reflexivity|]. apply Nat.eqb_eq in E. apply length_zero_iff_nil in E.
    apply List.Forall_forall. intros m Hm. apply not_true_is_false. intros Hg.
    assert (Hin : In m genreMovies).
    { apply filter_In. split; [apply getMovies_In; exact Hm | exact Hg]. }
    rewrite E in Hin. exact Hin.
  - apply Nat.eqb_neq in E.
    set (ranked := sort (fun a b => (of_Z (Movie.year b) - of_Z (Movie.year a))%js)
                     genreMovies).
    set (data := mapi _ (slice0 ranked 10)).
    assert (M : map movie data = firstn 10 ranked).
    { unfold data, mapi. rewrite mapi_from_map by reflexivity.
      rewrite slice0_nonneg by lia. reflexivity. }
    assert (L : length data = Nat.min 10 (length genreMovies)).
    { rewrite <- (length_map movie), M, length_firstn. unfold ranked, sort.
      rewrite sortBy_length. reflexivity. }
    split; [lia|]. split; [|split].
    + apply List.Forall_forall. intros r Hr. apply (in_map movie) in Hr. rewrite M in Hr.
      apply In_firstn in Hr. unfold ranked, sort in Hr.
      apply (proj1 (sortBy_In _ _ _)) in Hr. apply filter_In in Hr as [Hr Hg].
      split; [apply getMovies_In; exact Hr | exact Hg].
    + assert (S : StronglySorted (fun a b => (Movie.year a >= Movie.year b)%Z)
                    (map movie data)).
      { rewrite M. apply StronglySorted_firstn. apply year_sort_sorted. }
      revert S. generalize data. intros l.
      induction l as [|a l IH]; intros S; [constructor|].
      cbn [map] in S. inversion S as [|? ? S' Hall]; subst.
      constructor; [apply IH; exact S'|].
      apply List.Forall_forall. intros b Hb. rewrite List.Forall_forall in Hall.
      apply Hall. apply in_map. exact Hb.
    + intros i r Hi.
      assert (Hlt : (i < 10)%nat).
      { assert (i < length data)%nat by (apply nth_error_Some; rewrite Hi; discriminate).
        lia. }
      unfold data, mapi in Hi. apply mapi_from_nth in Hi as (m & _ & ->).
      cbn [score]. change (0 + i)%nat with i. unfold of_nat. cbn [mul sub].
      split; [reflexivity|].
      assert (0 <= IZR (Z.of_nat i) <= 9).
      { split; apply IZR_le; lia. }
      lra.
Qed.

End GenreFacts.

Section PageFacts.
Import DatabaseService.

Lemma firstn_add {A : Type} (a b : nat) (l : list A) :
  firstn (a + b) l = firstn a l ++ firstn b (skipn a l).
Proof.
  revert l. induction a as [|a IH]; intros l; [reflexivity|].
  destruct l as [|x l]; cbn [Nat.add firstn skipn app].
  - rewrite firstn_nil. reflexivity.
  - rewrite IH. reflexivity.
Qed.

Lemma getMoviesPage_page (db : Database) (p l : nat) :
  (1 <= l)%nat ->
  fst (getMoviesPage db (Some (N.of_nat (S p))) (Some (N.of_nat l)))
  = firstn l (skipn (p * l) (getMovies db)).
Proof.
  intros Hl. unfold getMoviesPage, window. cbn [fst].
  destruct (N.eqb_spec (N.of_nat (S p)) 0) as [E|_]; [lia|].
  destruct (N.eqb_spec (N.of_nat l) 0) as [E|_]; [lia|].
  cbn [negb andb]. rewrite Nat2N.id.
  replace (N.to_nat ((N.of_nat (S p) - 1) * N.of_nat l)) with (p * l)%nat by lia.
  reflexivity.
Qed.

(** X26.  With a page size of at least 1, the pages of [getMovies]
    tile the catalog in its order, newest first: the pages 1 to [k] one
    after the other are its first [k * limit] movies, a page that starts
    behind the last movie is empty, every page reports the number of all
    movies, and without a page and a size the whole catalog is
    returned. *)
Theorem pages_tile_the_catalog (db : Database) (limit : nat) :
  (1 <= limit)%nat ->
  (forall k,
     concat (map (fun page => fst (getMoviesPage db (Some page) (Some (N.of_nat limit))))
               (firstPages k))
     = firstn (k * limit) (getMovies db))
  /\ (forall page,
        (length (movies db) <= page * limit)%nat ->
        fst (getMoviesPage db (Some (N.of_nat (S page))) (Some (N.of_nat limit))) = [])
  /\ (forall page size, snd (getMoviesPage db page size) = length (movies db))
  /\ fst (getMoviesPage db None None) = getMovies db.
Proof.
  intros Hl. split; [|split; [|split]].
  - unfold firstPages. intros k. induction k as [|k IH]; [reflexivity|].
    rewrite seq_S, !map_app, concat_app, IH. cbn [map concat seq Nat.add].
    rewrite app_nil_r, getMoviesPage_page by exact Hl.
    replace (S k * limit)%nat with (k * limit + limit)%nat by lia.
    rewrite firstn_add. reflexivity.
  - intros page Hp. rewrite getMoviesPage_page by exact Hl.
    rewrite skipn_all2; [apply firstn_nil|].
    unfold getMovies. rewrite sortBy_length. exact Hp.
  - intros page size. reflexivity.
  - reflexivity.
Qed.

End PageFacts.

Lemma pages_tile_the_catalog_example :
  (forall k,
     concat (map (fun page => fst (DatabaseService.getMoviesPage agreeDb (Some page)
                                     (Some (N.of_nat 2))))
               (firstPages k))
     = firstn (k * 2) (getMovies agreeDb))
  /\ (forall page,
        (length (movies agreeDb) <= page * 2)%nat ->
        fst (DatabaseService.getMoviesPage agreeDb (Some (N.of_nat (S page)))
               (Some (N.of_nat 2))) = [])
  /\ (forall page size,
        snd (DatabaseService.getMoviesPage agreeDb page size) = length (movies agreeDb))
  /\ fst (DatabaseService.getMoviesPage agreeDb None None) = getMovies agreeDb.
Proof.
  apply (pages_tile_the_catalog agreeDb 2). lia.
Defined.

(** ** The weights of the fusion *)

Section FusionWeights.
Import RecommendationEngine.

Lemma fold_addContentBased_new (ks : list Recommendation) (m : smap Recommendation)
    (k : Recommendation) :
  List.NoDup (map recId ks) -> In k ks -> map_get m (recId k) = None ->
  map_get (fold_left addContentBased ks m) (recId k) = Some (contentEntry k).
Proof.
  revert m. induction ks as [|x ks IH]; intros m Hnd Hin Hget; [contradiction|].
  simpl in Hnd. inversion Hnd as [|? ? Hx Hnd']; subst. simpl.
  destruct Hin as [->|Hin].
  - rewrite fold_addContentBased_other by exact Hx.
    unfold addContentBased. fold (recId k). rewrite Hget. apply map_get_set_eq.
  - apply IH; [assumption..|].
    rewrite addContentBased_other; [exact Hget|].
    intros E. apply Hx. rewrite E. apply in_map. exact Hin.
Qed.

(** X28.  The weights of the fusion for an item that one list only
    names, when neither list names an item twice: found by the
    collaborative list alone it enters the merge with 0.6 times its score
    and its reason followed by " (collaborative filtering)"; found by the
    content list alone, with 0.4 times its score and its reason followed
    by " (content-based)". *)
Theorem hybrid_weights_single_source (collaborativeRecs contentBasedRecs : list Recommendation) :
  List.NoDup (map recId collaborativeRecs) ->
  List.NoDup (map recId contentBasedRecs) ->
  (forall c, In c collaborativeRecs -> ~ In (recId c) (map recId contentBasedRecs) ->
     map_get (combine collaborativeRecs contentBasedRecs) (recId c)
     = Some (collaborativeEntry c))
  /\ (forall k, In k contentBasedRecs -> ~ In (recId k) (map recId collaborativeRecs) ->
        map_get (combine collaborativeRecs contentBasedRecs) (recId k)
        = Some (contentEntry k)).
Proof.
  intros Hcs Hks. unfold combine. split.
  - intros c Hc Hn. rewrite fold_addContentBased_other by exact Hn.
    apply fold_addCollaborative_get; assumption.
  - intros k Hk Hn. apply fold_addContentBased_new; [exact Hks | exact Hk|].
    rewrite fold_addCollaborative_other by exact Hn. reflexivity.
Qed.

End FusionWeights.

Lemma hybrid_weights_single_source_example :
  (forall c, In c [agreeCollab] -> ~ In (recId c) (map recId [alienContent]) ->
     map_get (RecommendationEngine.combine [agreeCollab] [alienContent]) (recId c)
     = Some (collaborativeEntry c))
  /\ (forall k, In k [alienContent] -> ~ In (recId k) (map recId [agreeCollab]) ->
        map_get (RecommendationEngine.combine [agreeCollab] [alienContent]) (recId k)
        = Some (contentEntry k)).
Proof.
  apply (hybrid_weights_single_source [agreeCollab] [alienContent]);
    repeat constructor; intros [].
Defined.
